(** * pico_fota bootloader: a shallow embedding of [bootloader.c]

    The sources hold two revisions of the bootloader's [main]:
    - [src/bootloader.c], whose recovery trigger is the union of the
      metadata flags and whose recovery server runs for a bounded window
      (module [FlagUnion] below), and
    - a second copy of the same file, whose recovery trigger is a pair of
      GPIO pins, whose server loops for ever and whose page carries an HTTP
      header (module [Gpio] below).
    Both share [swap_images], the upload loop, the hand-off and the final
    three-way branch on the metadata flags.

    Out of the model: the SPI driver, DHCP and the network bring-up, the LED,
    [printf] and the sleeps.  [int] and [size_t] values that count bytes are
    unbounded integers; the [uint32_t] address arithmetic of [swap_images]
    wraps around. *)

From Stdlib Require Import ZArith String Ascii Lia.
From stdpp Require Import base numbers list.

Open Scope Z_scope.

(** ** Platform constants *)

(** Modelled from the spec: the SDK constants [FLASH_SECTOR_SIZE],
    [PFB_ALIGN_SIZE], [XIP_BASE] and the link-time symbols of
    [linker_common/linker_definitions.h], none of which is part of the
    sources at hand.  They are taken as parameters. *)
Class Platform : Type := {
  FLASH_SECTOR_SIZE : Z;
  PFB_ALIGN_SIZE : Z;
  XIP_BASE : Z;
  __FLASH_APP_START : Z;
  __FLASH_DOWNLOAD_SLOT_START : Z;
  __FLASH_SWAP_SPACE_LENGTH : Z;
  __FLASH_INFO_START : Z
}.

(** [uint32_t] arithmetic wraps around. *)
Definition u32 (x : Z) : Z := x mod 2 ^ 32.

(** ** Metadata record, the typed view of the INFO sector *)

Record info : Type := Info {
  has_new_firmware : bool;
  after_rollback : bool;
  should_rollback : bool;
  download_slot_valid : bool;
  swap_size : Z
}.

(** Modelled from the spec: the metadata getters and setters of
    [pico_fota_bootloader.c] (declared in [bootloader.c], defined outside
    the sources at hand).  Each setter rewrites one field of the record;
    [pfb_firmware_commit] is the spec's "commit", clearing
    [should_rollback].  The spec counts four flags: the fourth, here
    [download_slot_valid], is the one [_pfb_has_firmware_to_swap] reads (the
    input the table of section 4.E calls [has_new_firmware]); marking the
    download slot valid sets it and records the size as [swap_size], marking
    it invalid clears it. *)
Definition _pfb_mark_pico_has_new_firmware (i : info) : info :=
  Info true (after_rollback i) (should_rollback i) (download_slot_valid i) (swap_size i).
Definition _pfb_mark_pico_has_no_new_firmware (i : info) : info :=
  Info false (after_rollback i) (should_rollback i) (download_slot_valid i) (swap_size i).
Definition _pfb_mark_is_after_rollback (i : info) : info :=
  Info (has_new_firmware i) true (should_rollback i) (download_slot_valid i) (swap_size i).
Definition _pfb_mark_is_not_after_rollback (i : info) : info :=
  Info (has_new_firmware i) false (should_rollback i) (download_slot_valid i) (swap_size i).
Definition _pfb_mark_should_rollback (i : info) : info :=
  Info (has_new_firmware i) (after_rollback i) true (download_slot_valid i) (swap_size i).
Definition pfb_firmware_commit (i : info) : info :=
  Info (has_new_firmware i) (after_rollback i) false (download_slot_valid i) (swap_size i).
Definition pfb_mark_download_slot_as_valid (size : Z) (i : info) : info :=
  Info (has_new_firmware i) (after_rollback i) (should_rollback i) true (u32 size).
Definition pfb_mark_download_slot_as_invalid (i : info) : info :=
  Info (has_new_firmware i) (after_rollback i) (should_rollback i) false (swap_size i).

Definition _pfb_should_rollback (i : info) : bool := should_rollback i.
Definition _pfb_has_firmware_to_swap (i : info) : bool := download_slot_valid i.
Definition pfb_is_after_firmware_update (i : info) : bool := has_new_firmware i.
Definition pfb_is_after_rollback (i : info) : bool := after_rollback i.
Definition _pfb_firmware_swap_size (i : info) : Z := u32 (swap_size i).

(** ** Calls to collaborators, in the order [main] makes them *)

(** The four branches of [main].  [enter] marks the point where [main]
    announces one: [puts("RUNNING A RECOVERY MINIMAL WEB SERVER")] for
    Recovery, the three [BOOTLOADER_LOG] lines of the tail for the others. *)
Inductive action : Type := Recovery | Rollback | SwapAndArm | Passthrough.

Inductive call : Type :=
| enter (a : action)
| c_swap_images
| c_save_and_disable_interrupts
| c_restore_interrupts
| c_flash_range_erase (offs count : Z)
| c_flash_range_program (offs : Z) (data : list Z) (count : Z)
| c_pfb_firmware_commit
| c_mark_pico_has_new_firmware
| c_mark_pico_has_no_new_firmware
| c_mark_is_after_rollback
| c_mark_is_not_after_rollback
| c_mark_should_rollback
| c_pfb_mark_download_slot_as_valid (size : Z)
| c_pfb_mark_download_slot_as_invalid
| c_pfb_initialize_download_slot
| c_pfb_write_to_flash_aligned_256_bytes (buf : list Z) (offset len : Z)
| c_pfb_firmware_sha256_check (len : Z)
| c_pfb_perform_update
| c_socket
| c_listen
| c_send (bytes : list Z)
| c_disconnect
| c_close
| c_watchdog_reboot
| c_disable_interrupts
| c_reset_peripherals
| c_jump_to_vtor.

(** ** Device state *)

Record device : Type := Device {
  meta : info;                 (* INFO sector *)
  flash : Z -> Z;              (* flash bytes, by offset from the start of flash *)
  upload_buffer : list Z;      (* static char upload_buffer[PFB_ALIGN_SIZE] *)
  upload_pos : Z;              (* static int upload_pos *)
  trace : list call            (* calls made so far, oldest first *)
}.

(** Updates of one component.  They take the record apart, so a chain of
    updates on a known state computes one step at a time. *)
Definition log (c : call) (d : device) : device :=
  let 'Device i m buf pos tr := d in Device i m buf pos (tr ++ [c]).
Definition set_meta (f : info -> info) (d : device) : device :=
  let 'Device i m buf pos tr := d in Device (f i) m buf pos tr.
Definition set_flash (f : (Z -> Z) -> Z -> Z) (d : device) : device :=
  let 'Device i m buf pos tr := d in Device i (f m) buf pos tr.
Definition set_upload (buf : list Z) (pos : Z) (d : device) : device :=
  let 'Device i m _ _ tr := d in Device i m buf pos tr.

(** ** Block device *)

Definition in_range (offs count a : Z) : bool := (offs <=? a) && (a <? offs + count).

(** An erased byte reads 0xFF; programming can only clear bits, so the
    byte stored is the AND of what was there and what is written. *)
Definition erase_bytes (offs count : Z) (m : Z -> Z) : Z -> Z :=
  fun a => if in_range offs count a then 255 else m a.
Definition program_bytes (offs : Z) (data : list Z) (count : Z) (m : Z -> Z) : Z -> Z :=
  fun a => if in_range offs count a
           then Z.land (m a) (nth (Z.to_nat (a - offs)) data 255)
           else m a.

Definition flash_range_erase (offs count : Z) (d : device) : device :=
  log (c_flash_range_erase offs count) (set_flash (erase_bytes offs count) d).
Definition flash_range_program (offs : Z) (data : list Z) (count : Z) (d : device) : device :=
  log (c_flash_range_program offs data count)
      (set_flash (program_bytes offs data count) d).

(** The bytes of one connection: [first] is what the first [recv] put in
    [g_ethernet_buf] (empty when [getSn_RX_RSR] stayed 0), [more] what the
    later [recv] calls of a POST return, [sha256_ret] the value
    [pfb_firmware_sha256_check] returns for the upload. *)
Record conn : Type := Conn {
  first : list Z;
  more : list (list Z);
  sha256_ret : Z
}.

Section Bootloader.
Context `{Platform}.

Definition PFB_ADDR_WITH_XIP_OFFSET_AS_U32 (a : Z) : Z := u32 (a - XIP_BASE).

(** [memcpy(dst, (void * ) src, n)] out of the memory-mapped flash. *)
Definition memcpy (m : Z -> Z) (src n : Z) : list Z :=
  map (fun k => m (u32 (src + Z.of_nat k) - XIP_BASE)) (seq 0 (Z.to_nat n)).

(** ** swap_images *)

(** The body of the [for] loop, at index [i]. *)
Definition swap_sector (i : Z) (d : device) : device :=
  let swap_buff_from_downlaod_slot :=
    memcpy (flash d) (u32 (__FLASH_DOWNLOAD_SLOT_START + u32 (i * FLASH_SECTOR_SIZE)))
           FLASH_SECTOR_SIZE in
  let swap_buff_from_application_slot :=
    memcpy (flash d) (u32 (__FLASH_APP_START + u32 (i * FLASH_SECTOR_SIZE)))
           FLASH_SECTOR_SIZE in
  let d := flash_range_erase
             (u32 (PFB_ADDR_WITH_XIP_OFFSET_AS_U32 __FLASH_APP_START
                   + u32 (i * FLASH_SECTOR_SIZE))) FLASH_SECTOR_SIZE d in
  let d := flash_range_erase
             (u32 (PFB_ADDR_WITH_XIP_OFFSET_AS_U32 __FLASH_DOWNLOAD_SLOT_START
                   + u32 (i * FLASH_SECTOR_SIZE))) FLASH_SECTOR_SIZE d in
  let d := flash_range_program
             (u32 (PFB_ADDR_WITH_XIP_OFFSET_AS_U32 __FLASH_APP_START
                   + u32 (i * FLASH_SECTOR_SIZE)))
             swap_buff_from_downlaod_slot FLASH_SECTOR_SIZE d in
  flash_range_program
    (u32 (PFB_ADDR_WITH_XIP_OFFSET_AS_U32 __FLASH_DOWNLOAD_SLOT_START
          + u32 (i * FLASH_SECTOR_SIZE)))
    swap_buff_from_application_slot FLASH_SECTOR_SIZE d.

(** [for (uint32_t i = i0; i < i0 + n; i++)] *)
Fixpoint swap_loop (n : nat) (i : Z) (d : device) : device :=
  match n with
  | O => d
  | S n' => swap_loop n' (u32 (i + 1)) (swap_sector i d)
  end.

Definition SWAP_ITERATIONS (d : device) : Z :=
  let swap_size := _pfb_firmware_swap_size (meta d) in
  let swap_size :=
    if (swap_size =? 0) || (swap_size >? u32 __FLASH_SWAP_SPACE_LENGTH)
    then u32 __FLASH_SWAP_SPACE_LENGTH else swap_size in
  swap_size / FLASH_SECTOR_SIZE.

Definition swap_images (d : device) : device :=
  let n := SWAP_ITERATIONS d in
  let d := log c_swap_images d in
  let d := log c_save_and_disable_interrupts d in
  let d := swap_loop (Z.to_nat n) 0 d in
  log c_restore_interrupts d.

(** ** The recovery upload *)

(** Modelled from the spec: [pfb_initialize_download_slot] and
    [pfb_write_to_flash_aligned_256_bytes] of [pico_fota_bootloader.c],
    which is outside the sources at hand.  The first erases the download
    slot, the second programs [len] bytes of [buf] at [offset] into it. *)
Definition pfb_initialize_download_slot (d : device) : device :=
  log c_pfb_initialize_download_slot
      (set_flash (erase_bytes (PFB_ADDR_WITH_XIP_OFFSET_AS_U32 __FLASH_DOWNLOAD_SLOT_START)
                              (u32 __FLASH_SWAP_SPACE_LENGTH)) d).
Definition pfb_write_to_flash_aligned_256_bytes
    (buf : list Z) (offset len : Z) (d : device) : device :=
  log (c_pfb_write_to_flash_aligned_256_bytes buf offset len)
      (set_flash (program_bytes
                    (u32 (PFB_ADDR_WITH_XIP_OFFSET_AS_U32 __FLASH_DOWNLOAD_SLOT_START + offset))
                    buf len) d).

(** The inner loop
    [while (len && (upload_pos < (int) sizeof(upload_buffer)))
       { upload_buffer[upload_pos++] = *data++; len--; }]:
    returns what is left of [data], the buffer and the position. *)
Fixpoint fill (data buf : list Z) (pos : Z) : list Z * list Z * Z :=
  match data with
  | [] => (data, buf, pos)
  | b :: rest =>
      if pos <? PFB_ALIGN_SIZE
      then fill rest (<[Z.to_nat pos := b]> buf) (pos + 1)
      else (data, buf, pos)
  end.

(** The end of the loop body,
    [if (len == 0) { len = getSn_RX_RSR(1); if (len > 0) { ... recv ... } }]:
    when the chunk is used up the next one is received, if the socket has
    one.  [pending] lists the results of the [recv] calls still to come; the
    socket reads empty after the last. *)
Definition poll (data : list Z) (pending : list (list Z)) : list Z * list (list Z) :=
  match data with
  | [] =>
      match pending with
      | [] => ([], [])
      | chunk :: pending' => (chunk, pending')
      end
  | _ :: _ => (data, pending)
  end.

(** The loop [while (len > 0) { ... }] of the POST branch.  [data] is what
    is left of the chunk in [g_ethernet_buf].  One unit of [fuel] is spent
    per iteration; [None] is fuel running out. *)
Fixpoint upload_loop (fuel : nat) (data : list Z) (pending : list (list Z))
    (upload_done : Z) (d : device) : option (device * Z) :=
  match data with
  | [] => Some (d, upload_done)
  | _ :: _ =>
      match fuel with
      | O => None
      | S fuel' =>
          let '(data, buf, pos) := fill data (upload_buffer d) (upload_pos d) in
          let '(d, upload_done) :=
            if pos =? PFB_ALIGN_SIZE then
              (set_upload buf 0
                 (pfb_write_to_flash_aligned_256_bytes buf upload_done pos d),
               upload_done + pos)
            else (set_upload buf pos d, upload_done) in
          let '(data, pending) := poll data pending in
          upload_loop fuel' data pending upload_done d
      end
  end.

Definition total_bytes (data : list Z) (pending : list (list Z)) : nat :=
  (length data + length (concat pending))%nat.

(** Every iteration that starts with room in the buffer uses up a byte, so
    this is fuel enough (lemma [post_upload_spec]). *)
Definition upload_fuel (data : list Z) (pending : list (list Z)) : nat :=
  S (S (total_bytes data pending)).

(** The POST branch from [pfb_initialize_download_slot] to the end of the
    upload loop; [k] is the offset [strstr] found the header terminator at.
    The two revisions differ here only in the unused argument of
    [pfb_initialize_download_slot]. *)
Definition post_upload (c : conn) (k : nat) (d : device) : option (device * Z) :=
  let data := drop (k + 4) (first c) in
  let d := pfb_initialize_download_slot d in
  upload_loop (upload_fuel data (more c)) data (more c) 0 d.

(** ** Hand-off and the final branch on the metadata flags *)

Definition call_meta (c : call) (f : info -> info) (d : device) : device :=
  log c (set_meta f d).

Definition hand_off (d : device) : device :=
  log c_jump_to_vtor (log c_reset_peripherals (log c_disable_interrupts d)).

(** How a run of [main] ends. *)
Inductive outcome : Type :=
| Listening   (* in the server loop, waiting for the next connection *)
| Expired     (* the server loop was left because its window ran out *)
| HandOff     (* [jump_to_vtor]: the application runs *)
| Reset       (* [watchdog_reboot] or [pfb_perform_update] *)
| Fault       (* [strstr] returned NULL and the result was used *)
| Stuck.      (* the upload loop ran out of fuel: [upload_pos] was beyond the buffer *)

(** The tail of [main], from [if (_pfb_should_rollback())] on. *)
Definition boot (d : device) : device * outcome :=
  let d :=
    if _pfb_should_rollback (meta d) then
      let d := log (enter Rollback) d in
      let d := swap_images d in
      let d := call_meta c_pfb_firmware_commit pfb_firmware_commit d in
      let d := call_meta c_mark_pico_has_no_new_firmware _pfb_mark_pico_has_no_new_firmware d in
      call_meta c_mark_is_after_rollback _pfb_mark_is_after_rollback d
    else if _pfb_has_firmware_to_swap (meta d) then
      let d := log (enter SwapAndArm) d in
      let d := swap_images d in
      let d := call_meta c_mark_pico_has_new_firmware _pfb_mark_pico_has_new_firmware d in
      let d := call_meta c_mark_is_not_after_rollback _pfb_mark_is_not_after_rollback d in
      call_meta c_mark_should_rollback _pfb_mark_should_rollback d
    else
      let d := log (enter Passthrough) d in
      let d := call_meta c_pfb_firmware_commit pfb_firmware_commit d in
      call_meta c_mark_pico_has_no_new_firmware _pfb_mark_pico_has_no_new_firmware d in
  let d := call_meta c_pfb_mark_download_slot_as_invalid pfb_mark_download_slot_as_invalid d in
  (hand_off d, HandOff).

End Bootloader.

(** ** Requests *)

Definition bytes_of_string (s : string) : list Z :=
  map (fun c => Z.of_nat (nat_of_ascii c)) (list_ascii_of_string s).

Definition cr : string := String (ascii_of_nat 13) EmptyString.
Definition lf : string := String (ascii_of_nat 10) EmptyString.
Definition dq : string := String (ascii_of_nat 34) EmptyString.
Definition crlfcrlf : string := String.concat EmptyString [cr; lf; cr; lf].

(** The C string held in a buffer: the bytes before the first NUL. *)
Fixpoint c_str (buf : list Z) : list Z :=
  match buf with
  | [] => []
  | b :: rest => if b =? 0 then [] else b :: c_str rest
  end.

Fixpoint is_prefix (p s : list Z) : bool :=
  match p, s with
  | [], _ => true
  | _ :: _, [] => false
  | x :: p', y :: s' => (x =? y) && is_prefix p' s'
  end.

Fixpoint find_from (k : nat) (needle hay : list Z) : option nat :=
  if is_prefix needle hay then Some k
  else match hay with
       | [] => None
       | _ :: hay' => find_from (S k) needle hay'
       end.

(** [strstr(buf, needle)]: the offset of the first occurrence, [None] for NULL. *)
Definition strstr (buf : list Z) (needle : string) : option nat :=
  find_from 0 (bytes_of_string needle) (c_str buf).

Definition found (buf : list Z) (needle : string) : bool :=
  match strstr buf needle with Some _ => true | None => false end.

(** [sizeof] of a [char] array initialised by a literal counts the NUL. *)
Definition sizeof_bytes (s : string) : list Z := bytes_of_string s ++ [0].

(** ** [main], GPIO recovery trigger *)

Module Gpio.

Section Page.
Local Open Scope string_scope.

Definition page_recover : string := String.concat EmptyString [
  "HTTP/1.1 200 OK"; cr; lf; "Content-Type: HTML"; cr; lf;
  "Content-Length: 983"; cr; lf; cr; lf;
  "<!DOCTYPE html><html lang="; dq; "en"; dq; "><head><meta charset="; dq; "UTF-8"; dq; "><title>DA Dongle</title></head><body>";
  "<h1>SYSTEM RECOVERY</h1>";
  "Booted in recovery mode.  A new firmware can be loaded here.<br><br>";
  "This will take about 2 minutes.<br><br>";
  "New firmware should boot successfully, after which refresh this page.<br><br>";
  "<input type="; dq; "file"; dq; " id="; dq; "input"; dq; " onchange="; dq; "upload()"; dq; "><br><br>";
  "  <script>";
  "      function upload() {";
  "          const input = document.getElementById('input');";
  "          if (input.files.length > 0) {";
  "              const rdr = new FileReader();";
  "              rdr.onload = e => fetch('upload', {";
  "                  method: 'POST',";
  "                  headers: {'Content-Type': 'application/octet-stream'},";
  "                  body: e.target.result";
  "              }).then(res => res.text()).catch(err => console.error('Error:', err));";
  "              rdr.readAsArrayBuffer(input.files[0]);";
  "          }";
  "      }";
  "  </script><br><br>";
  "<button onclick="; dq; "location.href='reboot'"; dq; ">REBOOT</button>&nbsp;&nbsp";
  "</body></html>"; cr; lf; cr; lf
].

End Page.

Section Main.
Context `{Platform}.

(** The block after [SHA PASSED AND NOW SWAPPING IN THIS FIRMWARE]. *)
Definition swap_and_commit (upload_done : Z) (d : device) : device :=
  let d := call_meta (c_pfb_mark_download_slot_as_valid upload_done)
                     (pfb_mark_download_slot_as_valid upload_done) d in
  let d := swap_images d in
  let d := call_meta c_pfb_firmware_commit pfb_firmware_commit d in
  let d := call_meta c_mark_pico_has_no_new_firmware _pfb_mark_pico_has_no_new_firmware d in
  let d := call_meta c_mark_is_not_after_rollback _pfb_mark_is_not_after_rollback d in
  let d := call_meta c_pfb_mark_download_slot_as_invalid pfb_mark_download_slot_as_invalid d in
  hand_off d.

(** One iteration of [while (1)]. *)
Definition serve (c : conn) (d : device) : device * outcome :=
  let d := log c_listen (log c_socket d) in
  match first c with
  | [] => (d, Listening)
  | _ :: _ =>
      let buf := first c in
      if found buf "GET" || found buf "get" then
        if found buf "REBOOT" || found buf "reboot" then
          (log c_watchdog_reboot d, Reset)
        else
          let d := log (c_send (sizeof_bytes page_recover)) d in
          let d := log c_disconnect d in
          (log c_close d, Listening)
      else if found buf "POST" || found buf "post" then
        match strstr buf crlfcrlf with
        | None => (d, Fault)
        | Some k =>
            match post_upload c k d with
            | None => (d, Stuck)
            | Some (d, upload_done) =>
                let d := log (c_pfb_firmware_sha256_check upload_done) d in
                if sha256_ret c =? 0
                then (swap_and_commit upload_done d, HandOff)
                else (log c_close d, Listening)
            end
        end
      else (log c_close d, Listening)
  end.

(** How [serve] classifies what the first [recv] delivered. *)
Definition is_get (buf : list Z) : Prop :=
  (found buf "GET" || found buf "get") = true
  /\ (found buf "REBOOT" || found buf "reboot") = false.
Definition is_post (buf : list Z) (k : nat) : Prop :=
  (found buf "GET" || found buf "get") = false
  /\ (found buf "POST" || found buf "post") = true
  /\ strstr buf crlfcrlf = Some k.

Fixpoint server (cs : list conn) (d : device) : device * outcome :=
  match cs with
  | [] => (d, Listening)
  | c :: cs' =>
      match serve c d with
      | (d', Listening) => server cs' d'
      | r => r
      end
  end.

(** The two board pins, as [gpio_get] reads them (active low). *)
Record pins : Type := Pins { gpio0 : bool; gpio8 : bool }.

Definition recovery_trigger (at_reset after_blink : pins) : bool :=
  let recover := negb (gpio0 at_reset) || negb (gpio8 at_reset) in
  if recover then negb (gpio0 after_blink) || negb (gpio8 after_blink) else recover.

(** [while (1)] has no exit, so the tail of [main] runs only when
    [recover] is false. *)
Definition main (at_reset after_blink : pins) (cs : list conn) (d : device)
    : device * outcome :=
  if recovery_trigger at_reset after_blink
  then server cs (log (enter Recovery) d)
  else boot d.

End Main.
End Gpio.

(** ** [main], flag-union recovery trigger *)

Module FlagUnion.

Section Page.
Local Open Scope string_scope.

Definition page_recover : string := String.concat EmptyString [
  "<!DOCTYPE html><html lang="; dq; "en"; dq; "><head><meta charset="; dq; "UTF-8"; dq; "><title>DA Dongle</title></head><body>";
  "<h1>SYSTEM RECOVERY</h1>";
  "Bootloader interrupted.  Would be running non-committed or rollback firmware.<br><br>";
  "If device is no longer booting, it is likely that power was interrupted<br>";
  "during the last device firmware update or rollback.<br><br>";
  "A new firmware can be loaded here.  This will take about 2 minutes.<br><br>";
  "New firmware should boot successfully, after which refresh this page or<br>";
  "return to main pages.<br><br>";
  "<input type="; dq; "file"; dq; " id="; dq; "input"; dq; " onchange="; dq; "upload()"; dq; "><br><br>";
  "  <script>";
  "      function upload() {";
  "          const input = document.getElementById('input');";
  "          if (input.files.length > 0) {";
  "              const rdr = new FileReader();";
  "              rdr.onload = e => fetch('upload', {";
  "                  method: 'POST',";
  "                  headers: {'Content-Type': 'application/octet-stream'},";
  "                  body: e.target.result";
  "              }).then(res => res.text()).catch(err => console.error('Error:', err));";
  "              rdr.readAsArrayBuffer(input.files[0]);";
  "          }";
  "      }";
  "  </script>";
  "</body></html>"
].

End Page.

Section Main.
Context `{Platform}.

(** One iteration of [while ((time_us_64() - start < WAIT) || contact)];
    the [bool] is [contact]. *)
Definition serve (c : conn) (contact : bool) (d : device) : device * bool * outcome :=
  let d := log c_listen (log c_socket d) in
  match first c with
  | [] => (d, contact, Listening)
  | _ :: _ =>
      let buf := first c in
      if found buf "GET /recover" then
        let d := log (c_send (sizeof_bytes page_recover)) d in
        let d := log c_disconnect d in
        (log c_close d, true, Listening)
      else if found buf "POST" then
        match strstr buf crlfcrlf with
        | None => (d, contact, Fault)
        | Some k =>
            match post_upload c k d with
            | None => (d, contact, Stuck)
            | Some (d, upload_done) =>
                let d := log (c_pfb_firmware_sha256_check upload_done) d in
                if sha256_ret c =? 0 then
                  let d := call_meta (c_pfb_mark_download_slot_as_valid 0)
                                     (pfb_mark_download_slot_as_valid 0) d in
                  (log c_pfb_perform_update d, contact, Reset)
                else (log c_close d, contact, Listening)
            end
        end
      else (d, contact, Listening)
  end.

Definition is_get (buf : list Z) : Prop :=
  found buf "GET /recover" = true.
Definition is_post (buf : list Z) (k : nat) : Prop :=
  found buf "GET /recover" = false
  /\ found buf "POST" = true
  /\ strstr buf crlfcrlf = Some k.

(** Each element is one evaluation of the loop test that found
    [time_us_64() - start < WAIT] to be the [bool], and the connection
    served if the loop goes on. *)
Fixpoint server (ts : list (bool * conn)) (contact : bool) (d : device)
    : device * outcome :=
  match ts with
  | [] => (d, Listening)
  | (in_window, c) :: ts' =>
      if in_window || contact then
        match serve c contact d with
        | (d', contact', Listening) => server ts' contact' d'
        | (d', _, o) => (d', o)
        end
      else (d, Expired)
  end.

Definition recovery_trigger (i : info) : bool :=
  _pfb_should_rollback i || _pfb_has_firmware_to_swap i
  || pfb_is_after_firmware_update i || pfb_is_after_rollback i.

Definition main (ts : list (bool * conn)) (d : device) : device * outcome :=
  if recovery_trigger (meta d) then
    match server ts false (log (enter Recovery) d) with
    | (d', Expired) => boot d'
    | r => r
    end
  else boot d.

End Main.
End FlagUnion.

(** ** Layout of the flash and the contract of the swap *)

Section Layout.
Context `{Platform}.

(** Offsets of the slots from the start of flash. *)
Definition app_offs : Z := __FLASH_APP_START - XIP_BASE.
Definition download_offs : Z := __FLASH_DOWNLOAD_SLOT_START - XIP_BASE.
Definition info_offs : Z := __FLASH_INFO_START - XIP_BASE.

(** The slots are mapped above [XIP_BASE], end below the top of the 32-bit
    address space and do not overlap. *)
Record layout_ok : Prop := {
  sector_pos : 0 < FLASH_SECTOR_SIZE;
  xip_nonneg : 0 <= XIP_BASE;
  app_mapped : XIP_BASE <= __FLASH_APP_START;
  download_mapped : XIP_BASE <= __FLASH_DOWNLOAD_SLOT_START;
  length_nonneg : 0 <= __FLASH_SWAP_SPACE_LENGTH;
  app_fits : __FLASH_APP_START + __FLASH_SWAP_SPACE_LENGTH < 2 ^ 32;
  download_fits : __FLASH_DOWNLOAD_SLOT_START + __FLASH_SWAP_SPACE_LENGTH < 2 ^ 32;
  slots_disjoint :
    __FLASH_APP_START + __FLASH_SWAP_SPACE_LENGTH <= __FLASH_DOWNLOAD_SLOT_START
    \/ __FLASH_DOWNLOAD_SLOT_START + __FLASH_SWAP_SPACE_LENGTH <= __FLASH_APP_START
}.

(** The INFO sector lies in the mapped flash, clear of both slots. *)
Record info_ok : Prop := {
  info_mapped : XIP_BASE <= __FLASH_INFO_START;
  info_clear_of_app :
    __FLASH_INFO_START + FLASH_SECTOR_SIZE <= __FLASH_APP_START
    \/ __FLASH_APP_START + __FLASH_SWAP_SPACE_LENGTH <= __FLASH_INFO_START;
  info_clear_of_download :
    __FLASH_INFO_START + FLASH_SECTOR_SIZE <= __FLASH_DOWNLOAD_SLOT_START
    \/ __FLASH_DOWNLOAD_SLOT_START + __FLASH_SWAP_SPACE_LENGTH <= __FLASH_INFO_START
}.

Definition bytes_ok (m : Z -> Z) : Prop := forall a, 0 <= m a < 256.

(** The contract of the swap, in the spec's words: for every sector
    [lo <= i < hi] the bytes previously at [APP + i*S] are at
    [DOWNLOAD + i*S] and vice versa; everything else is as before. *)
Definition exchanged (lo hi : Z) (m : Z -> Z) : Z -> Z :=
  fun a =>
    if in_range (app_offs + lo * FLASH_SECTOR_SIZE) ((hi - lo) * FLASH_SECTOR_SIZE) a
    then m (a - app_offs + download_offs)
    else if in_range (download_offs + lo * FLASH_SECTOR_SIZE)
                     ((hi - lo) * FLASH_SECTOR_SIZE) a
    then m (a - download_offs + app_offs)
    else m a.

(** The flash bytes a call erases or programs. *)
Definition touches (c : call) (a : Z) : bool :=
  match c with
  | c_flash_range_erase offs count => in_range offs count a
  | c_flash_range_program offs _ count => in_range offs count a
  | _ => false
  end.

(** [a] is among the first [n] bytes of one of the two slots. *)
Definition in_swapped (n a : Z) : bool :=
  in_range app_offs n a || in_range download_offs n a.

End Layout.

(** ** A concrete platform *)

(** A 2 MiB flash behind [XIP_BASE = 0x10000000]: 36 KiB of bootloader, the
    INFO sector, then two slots of 1004 KiB each; 4 KiB sectors and 256-byte
    pages. *)
Definition pico : Platform := {|
  FLASH_SECTOR_SIZE := 4096;
  PFB_ALIGN_SIZE := 256;
  XIP_BASE := 0x10000000;
  __FLASH_APP_START := 0x1000A000;
  __FLASH_DOWNLOAD_SLOT_START := 0x10105000;
  __FLASH_SWAP_SPACE_LENGTH := 0xFB000;
  __FLASH_INFO_START := 0x10009000
|}.

(** A device whose APP slot holds 0xAA bytes and whose DOWNLOAD slot holds
    0x55 bytes, with the statics zero-initialised and nothing logged. *)
Definition two_tone : Z -> Z := fun a => if a <? 0x105000 then 0xAA else 0x55.
Definition device0 (i : info) : device := Device i two_tone (repeat 0 256) 0 [].

(** ** Observations on the trace *)

(** The branches of [main] a trace went through. *)
Definition entered (tr : list call) : list action :=
  omap (fun c => match c with enter a => Some a | _ => None end) tr.

Section TraceContracts.
Context `{Platform}.

(** What the loop logs: erase and program calls only, each inside the first
    sectors of one of the two slots. *)
Definition swap_call_ok (n : Z) (c : call) : Prop :=
  entered [c] = [] /\ c <> c_swap_images
  /\ forall a, touches c a = true -> in_swapped (n * FLASH_SECTOR_SIZE) a = true.

(** The bytes a call hands to the flash writer of the download slot. *)
Definition written (c : call) : list Z :=
  match c with
  | c_pfb_write_to_flash_aligned_256_bytes buf _ len => take (Z.to_nat len) buf
  | _ => []
  end.

(** [ws] is a run of writes of one full upload buffer each, at consecutive
    offsets from [offs] on. *)
Fixpoint aligned_writes (offs : Z) (ws : list call) : Prop :=
  match ws with
  | [] => True
  | c_pfb_write_to_flash_aligned_256_bytes buf o len :: ws' =>
      o = offs /\ len = PFB_ALIGN_SIZE /\ length buf = Z.to_nat PFB_ALIGN_SIZE
      /\ aligned_writes (offs + PFB_ALIGN_SIZE) ws'
  | _ :: _ => False
  end.

(** The bytes the later [recv] calls deliver: a [recv] that returns
    nothing ends the upload. *)
Fixpoint received (pending : list (list Z)) : list Z :=
  match pending with
  | [] => []
  | [] :: _ => []
  | (_ :: _) as chunk :: pending' => chunk ++ received pending'
  end.

(** The bytes the upload loop gets to see: nothing is read from the socket
    when the first chunk carries no body byte. *)
Definition stream (data : list Z) (pending : list (list Z)) : list Z :=
  match data with
  | [] => []
  | _ :: _ => data ++ received pending
  end.

(** The upload statics are in the state the loop leaves them in. *)
Definition statics_ok (d : device) : Prop :=
  0 < PFB_ALIGN_SIZE
  /\ 0 <= upload_pos d < PFB_ALIGN_SIZE
  /\ length (upload_buffer d) = Z.to_nat PFB_ALIGN_SIZE.

(** Calls that exchange the slots, write the metadata or leave recovery. *)
Definition swaps_or_commits (c : call) : bool :=
  match c with
  | enter _ | c_swap_images | c_flash_range_erase _ _ | c_flash_range_program _ _ _
  | c_pfb_firmware_commit | c_mark_pico_has_new_firmware
  | c_mark_pico_has_no_new_firmware | c_mark_is_after_rollback
  | c_mark_is_not_after_rollback | c_mark_should_rollback
  | c_pfb_mark_download_slot_as_valid _ | c_pfb_mark_download_slot_as_invalid
  | c_pfb_perform_update | c_watchdog_reboot | c_jump_to_vtor => true
  | _ => false
  end.

Definition is_swap_images (c : call) : bool :=
  match c with c_swap_images => true | _ => false end.

(** Erase and program calls. *)
Definition is_flash_op (c : call) : bool :=
  match c with
  | c_flash_range_erase _ _ | c_flash_range_program _ _ _ => true
  | _ => false
  end.

(** The boot decision in the spec's words (the table of section 4.E). *)
Definition boot_action (recovery_trigger : bool) (i : info) : action :=
  if recovery_trigger then Recovery
  else if _pfb_should_rollback i then Rollback
  else if _pfb_has_firmware_to_swap i then SwapAndArm
  else Passthrough.

End TraceContracts.

(** ** Reading a response the way a client does *)

Fixpoint parse_decimal (acc : Z) (s : list Z) : Z :=
  match s with
  | [] => acc
  | c :: s' =>
      if (48 <=? c) && (c <=? 57) then parse_decimal (10 * acc + (c - 48)) s' else acc
  end.

(** The number the [Content-Length] header of a response carries. *)
Definition content_length (response : list Z) : option Z :=
  match strstr response "Content-Length: " with
  | Some k => Some (parse_decimal 0 (drop (k + 16) response))
  | None => None
  end.

(** The bytes of a response after the header terminator. *)
Definition payload (response : list Z) : list Z :=
  match strstr response crlfcrlf with
  | Some k => drop (k + 4) response
  | None => []
  end.

(** The HTML document at the head of a payload, up to its closing tag. *)
Definition html_document (p : list Z) : list Z :=
  match strstr p "</html>" with
  | Some j => take (j + 7) p
  | None => []
  end.

(** ** Concrete requests and states *)

Definition request (line : string) (body : list Z) : list Z :=
  bytes_of_string line ++ bytes_of_string crlfcrlf ++ body.

(** [n] body bytes 1, 2, 3, ... (modulo 256). *)
Definition body_of (n : nat) : list Z := map (fun k => Z.of_nat k mod 256) (seq 1 n).

(** A 300-byte upload in one chunk, passing and failing verification. *)
Definition upload_ok : conn := Conn (request "POST /upload HTTP/1.1" (body_of 300)) [] 0.
Definition upload_bad : conn := Conn (request "POST /upload HTTP/1.1" (body_of 300)) [] 1.
Definition get_root : conn := Conn (request "GET / HTTP/1.1" []) [] 0.
Definition get_recover : conn := Conn (request "GET /recover HTTP/1.1" []) [] 0.
Definition idle : conn := Conn [] [] 0.

(** A 4352-byte upload (one sector and one page) in two chunks, passing
    verification. *)
Definition upload_4352 : conn :=
  Conn (request "POST /upload HTTP/1.1" (body_of 2000)) [body_of 2352] 0.

(** Neither button pressed. *)
Definition released : Gpio.pins := Gpio.Pins true true.

(** Metadata: nothing pending; an update staged with [swap_size] 4096; a
    rollback armed with [swap_size] 4096; an update staged with [swap_size]
    one sector and one page. *)
Definition info_idle : info := Info false false false false 0.
Definition info_staged : info := Info false false false true 4096.
Definition info_armed : info := Info true false true false 4096.
Definition info_4352 : info := Info false false false true 4352.

(** ** Network bring-up: the DHCP retry loop of [main] *)

Inductive net_call : Type :=
| n_DHCP_init
| n_DHCP_run
| n_sleep_ms_100
| n_DHCP_stop
| n_network_initialize.

(** [for (; wait > 0; wait--) { if (DHCP_run() == DHCP_IP_LEASED) break;
    sleep_ms(100); }]: [leased k] tells whether the [k]-th call of
    [DHCP_run] since reset returns [DHCP_IP_LEASED]; [polls] counts the
    calls made so far.  Returns [wait] as the loop leaves it. *)
Fixpoint dhcp_wait (leased : nat -> bool) (wait polls : nat) (tr : list net_call)
    : nat * nat * list net_call :=
  match wait with
  | O => (O, polls, tr)
  | S wait' =>
      if leased polls then (wait, S polls, tr ++ [n_DHCP_run])
      else dhcp_wait leased wait' (S polls) (tr ++ [n_DHCP_run; n_sleep_ms_100])
  end.

(** [for (int tries = ...; tries < N; tries++) { wait = 20; DHCP_init(...);
    ...; DHCP_stop(); if (wait > 0) break; }] with [tries] passes left;
    [wait] is the value the variable has when no pass is left. *)
Fixpoint dhcp_tries (leased : nat -> bool) (tries wait polls : nat) (tr : list net_call)
    : nat * nat * list net_call :=
  match tries with
  | O => (wait, polls, tr)
  | S tries' =>
      let '(wait, polls, tr) := dhcp_wait leased 20 polls (tr ++ [n_DHCP_init]) in
      let tr := tr ++ [n_DHCP_stop] in
      if (0 <? wait)%nat then (wait, polls, tr)
      else dhcp_tries leased tries' wait polls tr
  end.

(** From [int wait = 0;] to [if (wait == 0) network_initialize(net_info);].
    [N] is 5 in the GPIO revision and 10 in the flag-union revision. *)
Definition dhcp_or_static (N : nat) (leased : nat -> bool) : nat * list net_call :=
  let '(wait, polls, tr) := dhcp_tries leased N 0 0 [] in
  if (wait =? 0)%nat then (polls, tr ++ [n_network_initialize]) else (polls, tr).

(** One poll without a lease, and one attempt of 20 such polls. *)
Definition dhcp_miss : list net_call := [n_DHCP_run; n_sleep_ms_100].
Definition dhcp_attempt_failed : list net_call :=
  n_DHCP_init :: concat (replicate 20 dhcp_miss) ++ [n_DHCP_stop].

(** ** Hand-off: the registers *)

(** [SysTick->CTRL &= ~1; NVIC->ICER[0] = 0xFFFFFFFF; NVIC->ICPR[0] =
    0xFFFFFFFF;]: the new values of the three registers. *)
Definition disable_interrupts (SysTick_CTRL : Z) : Z * Z * Z :=
  (Z.land SysTick_CTRL (u32 (Z.lnot 1)), 0xFFFFFFFF, 0xFFFFFFFF).

(** The argument of [reset_block] in [reset_peripherals]; the four
    [RESETS_RESET_..._BITS] masks are SDK constants. *)
Definition reset_peripherals
    (RESETS_RESET_IO_QSPI_BITS RESETS_RESET_PADS_QSPI_BITS
     RESETS_RESET_SYSCFG_BITS RESETS_RESET_PLL_SYS_BITS : Z) : Z :=
  u32 (Z.lnot (Z.lor (Z.lor (Z.lor RESETS_RESET_IO_QSPI_BITS RESETS_RESET_PADS_QSPI_BITS)
                            RESETS_RESET_SYSCFG_BITS)
                     RESETS_RESET_PLL_SYS_BITS)).

(** ** More observations on the trace *)

Section MoreContracts.
Context `{Platform}.

(** Calls that change the flash or the metadata. *)
Definition mutates (c : call) : bool :=
  match c with
  | c_swap_images | c_flash_range_erase _ _ | c_flash_range_program _ _ _
  | c_pfb_firmware_commit | c_mark_pico_has_new_firmware
  | c_mark_pico_has_no_new_firmware | c_mark_is_after_rollback
  | c_mark_is_not_after_rollback | c_mark_should_rollback
  | c_pfb_mark_download_slot_as_valid _ | c_pfb_mark_download_slot_as_invalid
  | c_pfb_initialize_download_slot | c_pfb_write_to_flash_aligned_256_bytes _ _ _ => true
  | _ => false
  end.

(** Calls of the upload: the erase of the download slot and the writes
    into it. *)
Definition uploads (c : call) : bool :=
  match c with
  | c_pfb_initialize_download_slot | c_pfb_write_to_flash_aligned_256_bytes _ _ _ => true
  | _ => false
  end.

(** Calls that leave the flash and the metadata alone, or belong to an
    upload into the download slot. *)
Definition harmless (c : call) : bool := negb (mutates c) || uploads c.

(** The call that stages the download slot. *)
Definition stages (c : call) : bool :=
  match c with c_pfb_mark_download_slot_as_valid _ => true | _ => false end.

(** What a call of the upload does to the flash [m]. *)
Definition replay (m : Z -> Z) (c : call) : Z -> Z :=
  match c with
  | c_pfb_initialize_download_slot =>
      erase_bytes (PFB_ADDR_WITH_XIP_OFFSET_AS_U32 __FLASH_DOWNLOAD_SLOT_START)
                  (u32 __FLASH_SWAP_SPACE_LENGTH) m
  | c_pfb_write_to_flash_aligned_256_bytes buf offset len =>
      program_bytes (u32 (PFB_ADDR_WITH_XIP_OFFSET_AS_U32 __FLASH_DOWNLOAD_SLOT_START + offset))
                    buf len m
  | _ => m
  end.

(** The first [n] full buffers of the byte sequence [s], as the writes that
    put them at consecutive offsets from [offs] on. *)
Fixpoint blocks (offs : Z) (s : list Z) (n : nat) : list call :=
  match n with
  | O => []
  | S n' =>
      c_pfb_write_to_flash_aligned_256_bytes
        (take (Z.to_nat PFB_ALIGN_SIZE) s) offs PFB_ALIGN_SIZE
      :: blocks (offs + PFB_ALIGN_SIZE) (drop (Z.to_nat PFB_ALIGN_SIZE) s) n'
  end.

(** The four flash calls of the loop of [swap_images] at sector [i], for
    the flash contents [m] the call of [swap_images] started from. *)
Definition sector_calls (m : Z -> Z) (i : Z) : list call :=
  [c_flash_range_erase (app_offs + i * FLASH_SECTOR_SIZE) FLASH_SECTOR_SIZE;
   c_flash_range_erase (download_offs + i * FLASH_SECTOR_SIZE) FLASH_SECTOR_SIZE;
   c_flash_range_program (app_offs + i * FLASH_SECTOR_SIZE)
     (map (fun k => m (download_offs + i * FLASH_SECTOR_SIZE + Z.of_nat k))
          (seq 0 (Z.to_nat FLASH_SECTOR_SIZE)))
     FLASH_SECTOR_SIZE;
   c_flash_range_program (download_offs + i * FLASH_SECTOR_SIZE)
     (map (fun k => m (app_offs + i * FLASH_SECTOR_SIZE + Z.of_nat k))
          (seq 0 (Z.to_nat FLASH_SECTOR_SIZE)))
     FLASH_SECTOR_SIZE].

(** [swap_images] called [k] times in a row. *)
Fixpoint swap_images_times (k : nat) (d : device) : device :=
  match k with
  | O => d
  | S k' => swap_images_times k' (swap_images d)
  end.

End MoreContracts.

(** A POST whose first chunk holds the header only, the body coming in a
    later chunk; a POST whose body has the letters [get] in it. *)
Definition upload_late_body : conn :=
  Conn (request "POST /upload HTTP/1.1" []) [body_of 300] 0.
Definition upload_with_get : conn :=
  Conn (request "POST /upload HTTP/1.1" (bytes_of_string "widget" ++ body_of 300)) [] 0.

(** A lease on the 37th poll; never a lease. *)
Definition lease_at_36 : nat -> bool := fun k => (k =? 36)%nat.
Definition no_lease : nat -> bool := fun _ => false.

(** Metadata after a rollback that the application has not cleared. *)
Definition info_rolled_back : info := Info false true false false 4096.
(** ** Swap: proofs *)

Section SwapProofs.
Context `{Platform}.

Lemma u32_small x : 0 <= x < 2 ^ 32 -> u32 x = x.
Proof. intros Hx. unfold u32. now apply Z.mod_small. Qed.

Lemma land_erased x : 0 <= x < 256 -> Z.land 255 x = x.
Proof.
  intros Hx. rewrite Z.land_comm. change 255 with (Z.ones 8).
  rewrite Z.land_ones by lia. now apply Z.mod_small.
Qed.

Lemma in_range_true offs count a :
  in_range offs count a = true <-> offs <= a < offs + count.
Proof. unfold in_range. rewrite andb_true_iff, Z.leb_le, Z.ltb_lt. tauto. Qed.

Lemma in_range_false offs count a :
  in_range offs count a = false <-> (a < offs \/ offs + count <= a).
Proof.
  unfold in_range. rewrite andb_false_iff, Z.leb_gt, Z.ltb_ge. tauto.
Qed.

Lemma nth_map_seq {A} (f : nat -> A) n k x :
  (k < n)%nat -> nth k (map f (seq 0 n)) x = f k.
Proof.
  intros Hk. rewrite nth_lookup, list_lookup_fmap, lookup_seq_lt by lia. reflexivity.
Qed.

Lemma nth_memcpy m src n k :
  0 <= k < n ->
  nth (Z.to_nat k) (memcpy m src n) 255 = m (u32 (src + k) - XIP_BASE).
Proof.
  intros Hk. unfold memcpy. rewrite nth_map_seq by lia.
  now rewrite Z2Nat.id by lia.
Qed.

Ltac range_cases :=
  repeat match goal with
  | |- context [in_range ?o ?n ?a] =>
      let E := fresh "E" in
      destruct (in_range o n a) eqn:E;
      [apply in_range_true in E | apply in_range_false in E]
  end.

Lemma sector_offsets i :
  layout_ok -> 0 <= i -> (i + 1) * FLASH_SECTOR_SIZE <= __FLASH_SWAP_SPACE_LENGTH ->
  u32 (PFB_ADDR_WITH_XIP_OFFSET_AS_U32 __FLASH_APP_START + u32 (i * FLASH_SECTOR_SIZE))
  = app_offs + i * FLASH_SECTOR_SIZE
  /\ u32 (PFB_ADDR_WITH_XIP_OFFSET_AS_U32 __FLASH_DOWNLOAD_SLOT_START
          + u32 (i * FLASH_SECTOR_SIZE))
     = download_offs + i * FLASH_SECTOR_SIZE
  /\ u32 (__FLASH_APP_START + u32 (i * FLASH_SECTOR_SIZE))
     = __FLASH_APP_START + i * FLASH_SECTOR_SIZE
  /\ u32 (__FLASH_DOWNLOAD_SLOT_START + u32 (i * FLASH_SECTOR_SIZE))
     = __FLASH_DOWNLOAD_SLOT_START + i * FLASH_SECTOR_SIZE.
Proof.
  intros L Hi Hfit. destruct L.
  assert (HiS : 0 <= i * FLASH_SECTOR_SIZE) by nia.
  unfold PFB_ADDR_WITH_XIP_OFFSET_AS_U32, app_offs, download_offs.
  rewrite (u32_small (i * FLASH_SECTOR_SIZE)) by lia.
  rewrite (u32_small (__FLASH_APP_START - XIP_BASE)) by lia.
  rewrite (u32_small (__FLASH_DOWNLOAD_SLOT_START - XIP_BASE)) by lia.
  repeat split; apply u32_small; lia.
Qed.

Lemma swap_sector_flash i d :
  layout_ok -> 0 <= i -> (i + 1) * FLASH_SECTOR_SIZE <= __FLASH_SWAP_SPACE_LENGTH ->
  bytes_ok (flash d) ->
  forall a, flash (swap_sector i d) a = exchanged i (i + 1) (flash d) a.
Proof.
  intros L Hi Hfit Hb a.
  destruct (sector_offsets i L Hi Hfit) as (E1 & E2 & E3 & E4).
  unfold swap_sector. rewrite E1, E2, E3, E4. destruct L. destruct d as [mi m buf pos tr].
  assert (HiS : 0 <= i * FLASH_SECTOR_SIZE) by nia.
  cbn [flash flash_range_program flash_range_erase log set_flash] in *.
  unfold exchanged, program_bytes, erase_bytes, app_offs, download_offs.
  replace ((i + 1 - i) * FLASH_SECTOR_SIZE) with FLASH_SECTOR_SIZE by lia.
  range_cases; try lia.
  - rewrite nth_memcpy by lia. rewrite u32_small by lia.
    rewrite land_erased by apply Hb. f_equal. lia.
  - rewrite nth_memcpy by lia. rewrite u32_small by lia.
    rewrite land_erased by apply Hb. f_equal. lia.
Qed.

Lemma swap_sector_bytes_ok i d :
  layout_ok -> 0 <= i -> (i + 1) * FLASH_SECTOR_SIZE <= __FLASH_SWAP_SPACE_LENGTH ->
  bytes_ok (flash d) -> bytes_ok (flash (swap_sector i d)).
Proof.
  intros L Hi Hfit Hb a.
  pose proof (swap_sector_flash i d L Hi Hfit Hb a) as E.
  rewrite E. unfold exchanged.
  destruct (in_range _ _ _); [apply Hb|]. destruct (in_range _ _ _); apply Hb.
Qed.

Lemma swap_loop_flash n : forall i d,
  layout_ok -> 0 <= i ->
  (i + Z.of_nat n) * FLASH_SECTOR_SIZE <= __FLASH_SWAP_SPACE_LENGTH ->
  bytes_ok (flash d) ->
  bytes_ok (flash (swap_loop n i d)) /\
  forall a, flash (swap_loop n i d) a = exchanged i (i + Z.of_nat n) (flash d) a.
Proof.
  induction n as [|n IH]; intros i d L Hi Hfit Hb.
  - split; [exact Hb|]. intros a. simpl. unfold exchanged.
    replace ((i + Z.of_nat 0 - i) * FLASH_SECTOR_SIZE) with 0 by lia.
    range_cases; lia.
  - assert (HS := sector_pos L).
    assert (Hfit1 : (i + 1) * FLASH_SECTOR_SIZE <= __FLASH_SWAP_SPACE_LENGTH) by nia.
    assert (Hu : u32 (i + 1) = i + 1).
    { apply u32_small. destruct L. nia. }
    simpl swap_loop. rewrite Hu.
    destruct (IH (i + 1) (swap_sector i d) L) as [Hb' Hfl].
    + lia.
    + replace (i + 1 + Z.of_nat n) with (i + Z.of_nat (S n)) by lia. exact Hfit.
    + now apply swap_sector_bytes_ok.
    + split; [exact Hb'|]. intros a. rewrite Hfl.
      unfold exchanged at 1. rewrite !swap_sector_flash by assumption.
      unfold exchanged.
      replace ((i + 1 + Z.of_nat n - (i + 1)) * FLASH_SECTOR_SIZE)
        with (Z.of_nat n * FLASH_SECTOR_SIZE) by lia.
      replace ((i + 1 - i) * FLASH_SECTOR_SIZE) with FLASH_SECTOR_SIZE by lia.
      replace ((i + Z.of_nat (S n) - i) * FLASH_SECTOR_SIZE)
        with (Z.of_nat n * FLASH_SECTOR_SIZE + FLASH_SECTOR_SIZE) by lia.
      destruct L. unfold app_offs, download_offs.
      range_cases; try lia; try reflexivity.
Qed.

Lemma swap_sector_frame i d a :
  layout_ok -> 0 <= i -> (i + 1) * FLASH_SECTOR_SIZE <= __FLASH_SWAP_SPACE_LENGTH ->
  in_swapped ((i + 1) * FLASH_SECTOR_SIZE) a = false ->
  flash (swap_sector i d) a = flash d a.
Proof.
  intros L Hi Hfit Ha.
  destruct (sector_offsets i L Hi Hfit) as (E1 & E2 & E3 & E4).
  unfold swap_sector. rewrite E1, E2, E3, E4. destruct L. destruct d as [mi m buf pos tr].
  apply orb_false_iff in Ha as [Ha Hd].
  apply in_range_false in Ha, Hd. unfold app_offs, download_offs in *.
  assert (HiS : 0 <= i * FLASH_SECTOR_SIZE) by nia.
  cbn [flash flash_range_program flash_range_erase log set_flash] in *.
  unfold program_bytes, erase_bytes.
  range_cases; lia.
Qed.

(** The calls one pass of the loop makes, with the offsets and lengths the
    source computes. *)
Lemma swap_sector_trace i d :
  exists e1 e2 b1 b2,
    trace (swap_sector i d)
    = trace d ++ [c_flash_range_erase e1 FLASH_SECTOR_SIZE;
                  c_flash_range_erase e2 FLASH_SECTOR_SIZE;
                  c_flash_range_program e1 b1 FLASH_SECTOR_SIZE;
                  c_flash_range_program e2 b2 FLASH_SECTOR_SIZE]
    /\ e1 = u32 (PFB_ADDR_WITH_XIP_OFFSET_AS_U32 __FLASH_APP_START
                 + u32 (i * FLASH_SECTOR_SIZE))
    /\ e2 = u32 (PFB_ADDR_WITH_XIP_OFFSET_AS_U32 __FLASH_DOWNLOAD_SLOT_START
                 + u32 (i * FLASH_SECTOR_SIZE)).
Proof.
  destruct d as [mi m buf pos tr].
  do 4 eexists. split; [|split; reflexivity].
  unfold swap_sector. cbn [trace flash flash_range_program flash_range_erase log set_flash].
  rewrite <- !app_assoc. reflexivity.
Qed.

Lemma swap_sector_static i d :
  meta (swap_sector i d) = meta d
  /\ upload_buffer (swap_sector i d) = upload_buffer d
  /\ upload_pos (swap_sector i d) = upload_pos d.
Proof. destruct d. repeat split. Qed.

Lemma swap_loop_static n : forall i d,
  meta (swap_loop n i d) = meta d
  /\ upload_buffer (swap_loop n i d) = upload_buffer d
  /\ upload_pos (swap_loop n i d) = upload_pos d.
Proof.
  induction n as [|n IH]; intros i d; [repeat split|].
  simpl. destruct (IH (u32 (i + 1)) (swap_sector i d)) as (-> & -> & ->).
  apply swap_sector_static.
Qed.

Lemma swap_loop_frame n : forall i d a,
  layout_ok -> 0 <= i ->
  (i + Z.of_nat n) * FLASH_SECTOR_SIZE <= __FLASH_SWAP_SPACE_LENGTH ->
  in_swapped ((i + Z.of_nat n) * FLASH_SECTOR_SIZE) a = false ->
  flash (swap_loop n i d) a = flash d a.
Proof.
  induction n as [|n IH]; intros i d a L Hi Hfit Ha; [reflexivity|].
  assert (HS := sector_pos L).
  assert (Hu : u32 (i + 1) = i + 1) by (apply u32_small; destruct L; nia).
  assert (Hfit' : (i + 1 + Z.of_nat n) * FLASH_SECTOR_SIZE <= __FLASH_SWAP_SPACE_LENGTH)
    by now replace (i + 1 + Z.of_nat n) with (i + Z.of_nat (S n)) by lia.
  assert (Ha' : in_swapped ((i + 1 + Z.of_nat n) * FLASH_SECTOR_SIZE) a = false)
    by now replace (i + 1 + Z.of_nat n) with (i + Z.of_nat (S n)) by lia.
  simpl. rewrite Hu, (IH (i + 1)) by (assumption || lia).
  apply swap_sector_frame; try assumption; try nia.
  apply orb_false_iff in Ha as [Ha Hd]. apply in_range_false in Ha, Hd.
  apply orb_false_iff; split; apply in_range_false; nia.
Qed.

Lemma swap_call_ok_mono n n' c : n <= n' -> layout_ok -> swap_call_ok n c -> swap_call_ok n' c.
Proof.
  intros Hn L (He & Hs & Ht). assert (HS := sector_pos L).
  repeat split; try assumption.
  intros a Ha. specialize (Ht a Ha).
  apply orb_true_iff in Ht. apply orb_true_iff.
  destruct Ht as [Ht|Ht]; [left|right]; apply in_range_true in Ht;
    apply in_range_true; nia.
Qed.

Lemma swap_loop_trace n : forall i d,
  layout_ok -> 0 <= i ->
  (i + Z.of_nat n) * FLASH_SECTOR_SIZE <= __FLASH_SWAP_SPACE_LENGTH ->
  exists cs, trace (swap_loop n i d) = trace d ++ cs
             /\ Forall (swap_call_ok (i + Z.of_nat n)) cs.
Proof.
  induction n as [|n IH]; intros i d L Hi Hfit.
  - exists []. split; [now rewrite app_nil_r|constructor].
  - assert (HS := sector_pos L).
    assert (Hu : u32 (i + 1) = i + 1) by (apply u32_small; destruct L; nia).
    simpl. rewrite Hu.
    destruct (IH (i + 1) (swap_sector i d) L) as (cs & Hcs & Hok); [lia| |].
    { now replace (i + 1 + Z.of_nat n) with (i + Z.of_nat (S n)) by lia. }
    destruct (swap_sector_trace i d) as (e1 & e2 & b1 & b2 & Htr & He1 & He2).
    assert (Hfit1 : (i + 1) * FLASH_SECTOR_SIZE <= __FLASH_SWAP_SPACE_LENGTH) by nia.
    destruct (sector_offsets i L Hi Hfit1) as (E1 & E2 & _ & _).
    rewrite E1 in He1. rewrite E2 in He2. clear E1 E2.
    assert (HiS : 0 <= i * FLASH_SECTOR_SIZE) by nia.
    eexists. split.
    { rewrite Hcs, Htr, <- app_assoc. reflexivity. }
    replace (i + Z.of_nat (S n)) with (i + 1 + Z.of_nat n) by lia.
    apply Forall_app. split; [|exact Hok].
    assert (Hin : forall a,
               in_range e1 FLASH_SECTOR_SIZE a = true \/ in_range e2 FLASH_SECTOR_SIZE a = true ->
               in_swapped ((i + 1 + Z.of_nat n) * FLASH_SECTOR_SIZE) a = true).
    { intros a Ha. apply orb_true_iff.
      destruct Ha as [Ha|Ha]; [left|right]; apply in_range_true in Ha;
        apply in_range_true; subst e1 e2; nia. }
    repeat constructor; try discriminate; simpl; intros a Ha; apply Hin; auto.
Qed.

Lemma SWAP_ITERATIONS_bounds d :
  layout_ok ->
  0 <= SWAP_ITERATIONS d
  /\ SWAP_ITERATIONS d * FLASH_SECTOR_SIZE <= __FLASH_SWAP_SPACE_LENGTH.
Proof.
  intros L. assert (HS := sector_pos L). unfold SWAP_ITERATIONS.
  assert (HL : u32 __FLASH_SWAP_SPACE_LENGTH = __FLASH_SWAP_SPACE_LENGTH).
  { apply u32_small. destruct L. lia. }
  rewrite HL.
  assert (Hsz : 0 <= _pfb_firmware_swap_size (meta d)).
  { unfold _pfb_firmware_swap_size, u32. apply Z.mod_pos_bound. lia. }
  set (s0 := _pfb_firmware_swap_size (meta d)) in *.
  assert (Hrange :
    0 <= (if (s0 =? 0) || (s0 >? __FLASH_SWAP_SPACE_LENGTH)
          then __FLASH_SWAP_SPACE_LENGTH else s0) <= __FLASH_SWAP_SPACE_LENGTH).
  { destruct L.
    destruct ((s0 =? 0) || (s0 >? __FLASH_SWAP_SPACE_LENGTH)) eqn:E; [lia|].
    apply orb_false_iff in E as [_ E]. rewrite Z.gtb_ltb in E.
    apply Z.ltb_ge in E. lia. }
  set (sz := if (s0 =? 0) || (s0 >? __FLASH_SWAP_SPACE_LENGTH)
             then __FLASH_SWAP_SPACE_LENGTH else s0) in *.
  split.
  - apply Z.div_pos; lia.
  - pose proof (Z.mul_div_le sz FLASH_SECTOR_SIZE HS) as Hd. lia.
Qed.

Lemma swap_images_static d :
  meta (swap_images d) = meta d
  /\ upload_buffer (swap_images d) = upload_buffer d
  /\ upload_pos (swap_images d) = upload_pos d.
Proof.
  unfold swap_images.
  set (d0 := log c_save_and_disable_interrupts (log c_swap_images d)).
  destruct (swap_loop_static (Z.to_nat (SWAP_ITERATIONS d)) 0 d0) as (E1 & E2 & E3).
  destruct (swap_loop _ _ _) as [mi m buf pos tr]. cbn in *.
  subst d0. destruct d. cbn in *. now subst.
Qed.

Lemma swap_images_flash d a :
  layout_ok -> bytes_ok (flash d) ->
  flash (swap_images d) a = exchanged 0 (SWAP_ITERATIONS d) (flash d) a.
Proof.
  intros L Hb. destruct (SWAP_ITERATIONS_bounds d L) as [Hn Hfit].
  unfold swap_images.
  set (d0 := log c_save_and_disable_interrupts (log c_swap_images d)).
  assert (Hd0 : flash d0 = flash d) by (subst d0; now destruct d).
  destruct (swap_loop_flash (Z.to_nat (SWAP_ITERATIONS d)) 0 d0 L) as [_ Hfl];
    try lia; [rewrite Z2Nat.id by lia; lia | now rewrite Hd0 |].
  specialize (Hfl a). rewrite Z2Nat.id, Hd0, Z.add_0_l in Hfl by lia. rewrite <- Hfl.
  now destruct (swap_loop _ _ _).
Qed.

Lemma exchanged_twice lo hi m a :
  layout_ok -> 0 <= lo <= hi -> hi * FLASH_SECTOR_SIZE <= __FLASH_SWAP_SPACE_LENGTH ->
  exchanged lo hi (exchanged lo hi m) a = m a.
Proof.
  intros L Hlo Hfit. assert (HS := sector_pos L). destruct L.
  unfold exchanged, app_offs, download_offs.
  assert (0 <= lo * FLASH_SECTOR_SIZE) by nia.
  assert (0 <= (hi - lo) * FLASH_SECTOR_SIZE) by nia.
  assert (lo * FLASH_SECTOR_SIZE + (hi - lo) * FLASH_SECTOR_SIZE
          <= __FLASH_SWAP_SPACE_LENGTH) by nia.
  range_cases; try lia; f_equal; lia.
Qed.


End SwapProofs.

Section SwapTheorems.
Context `{Platform}.

Lemma swap_images_trace d :
  layout_ok ->
  exists cs,
    trace (swap_images d)
    = trace d ++ c_swap_images :: c_save_and_disable_interrupts :: cs ++ [c_restore_interrupts]
    /\ Forall (swap_call_ok (SWAP_ITERATIONS d)) cs.
Proof.
  intros L. destruct (SWAP_ITERATIONS_bounds d L) as [Hn Hfit].
  unfold swap_images.
  set (d0 := log c_save_and_disable_interrupts (log c_swap_images d)).
  destruct (swap_loop_trace (Z.to_nat (SWAP_ITERATIONS d)) 0 d0 L) as (cs & Hcs & Hok);
    [lia | rewrite Z2Nat.id by lia; lia |].
  rewrite Z2Nat.id, Z.add_0_l in Hok by lia.
  exists cs. split; [|exact Hok].
  destruct (swap_loop _ _ _) as [mi m buf pos tr]. cbn in *. subst tr.
  subst d0. destruct d. cbn. rewrite <- !app_assoc. reflexivity.
Qed.

Lemma swap_images_frame_flash d a :
  layout_ok ->
  in_swapped (SWAP_ITERATIONS d * FLASH_SECTOR_SIZE) a = false ->
  flash (swap_images d) a = flash d a.
Proof.
  intros L Ha. destruct (SWAP_ITERATIONS_bounds d L) as [Hn Hfit].
  unfold swap_images.
  set (d0 := log c_save_and_disable_interrupts (log c_swap_images d)).
  assert (Hd0 : flash d0 = flash d) by (subst d0; now destruct d).
  rewrite <- Hd0.
  rewrite <- (swap_loop_frame (Z.to_nat (SWAP_ITERATIONS d)) 0 d0 a L);
    [now destruct (swap_loop _ _ _) | lia | |];
    rewrite Z2Nat.id, Z.add_0_l by lia; assumption.
Qed.

(** Whatever the persisted [swap_size], the source divides rounding down;
    a zero or oversized [swap_size] stands for the whole slot. *)
Lemma SWAP_ITERATIONS_floor d :
  layout_ok ->
  let sz := _pfb_firmware_swap_size (meta d) in
  (sz = 0 \/ __FLASH_SWAP_SPACE_LENGTH < sz ->
   SWAP_ITERATIONS d = __FLASH_SWAP_SPACE_LENGTH / FLASH_SECTOR_SIZE)
  /\ (0 < sz <= __FLASH_SWAP_SPACE_LENGTH ->
      SWAP_ITERATIONS d = sz / FLASH_SECTOR_SIZE
      /\ (sz mod FLASH_SECTOR_SIZE <> 0 -> SWAP_ITERATIONS d * FLASH_SECTOR_SIZE < sz)).
Proof.
  intros L sz. assert (HS := sector_pos L).
  assert (HL : u32 __FLASH_SWAP_SPACE_LENGTH = __FLASH_SWAP_SPACE_LENGTH).
  { apply u32_small. destruct L. lia. }
  unfold SWAP_ITERATIONS. fold sz. rewrite HL. split.
  - intros [E|E].
    + rewrite E. reflexivity.
    + replace (sz >? __FLASH_SWAP_SPACE_LENGTH) with true
        by (symmetry; rewrite Z.gtb_ltb; now apply Z.ltb_lt).
      now rewrite orb_true_r.
  - intros Hsz.
    replace (sz =? 0) with false by (symmetry; apply Z.eqb_neq; lia).
    replace (sz >? __FLASH_SWAP_SPACE_LENGTH) with false
      by (symmetry; rewrite Z.gtb_ltb; apply Z.ltb_ge; lia).
    cbn [orb]. split; [reflexivity|]. intros Hm.
    assert (Hne : FLASH_SECTOR_SIZE <> 0) by lia.
    pose proof (Z.div_mod sz FLASH_SECTOR_SIZE Hne) as Hdm.
    pose proof (Z.mod_pos_bound sz FLASH_SECTOR_SIZE HS) as Hmb.
    clearbody sz. lia.
Qed.

(** C5: swap is self-inverse.  Running the loop of [swap_images] twice over
    the same [n] sectors (any [n] that fits the slot) gives back every byte
    of the flash, and so does calling [swap_images] twice, whatever
    [swap_size] is persisted. *)
Theorem swap_twice_restores (d : device) :
  layout_ok -> bytes_ok (flash d) ->
  (forall (n : nat) (a : Z),
      Z.of_nat n * FLASH_SECTOR_SIZE <= __FLASH_SWAP_SPACE_LENGTH ->
      flash (swap_loop n 0 (swap_loop n 0 d)) a = flash d a)
  /\ (forall a : Z, flash (swap_images (swap_images d)) a = flash d a).
Proof.
  intros L Hb. split.
  - intros n a Hfit.
    destruct (swap_loop_flash n 0 d L) as [Hb1 H1]; [lia | lia | exact Hb |].
    destruct (swap_loop_flash n 0 (swap_loop n 0 d) L) as [_ H2];
      [lia | lia | exact Hb1 |].
    rewrite H2. unfold exchanged at 1. rewrite !H1.
    apply (exchanged_twice 0 (0 + Z.of_nat n) (flash d) a L); lia.
  - intros a. destruct (SWAP_ITERATIONS_bounds d L) as [Hn Hfit].
    assert (Hb1 : bytes_ok (flash (swap_images d))).
    { intros x. rewrite swap_images_flash by assumption.
      unfold exchanged.
      destruct (in_range _ _ _); [apply Hb|]. destruct (in_range _ _ _); apply Hb. }
    assert (Hsame : SWAP_ITERATIONS (swap_images d) = SWAP_ITERATIONS d).
    { unfold SWAP_ITERATIONS. now destruct (swap_images_static d) as (-> & _). }
    rewrite swap_images_flash by assumption. rewrite Hsame.
    unfold exchanged at 1. rewrite !swap_images_flash by assumption.
    apply (exchanged_twice 0 (SWAP_ITERATIONS d) (flash d) a L); lia.
Qed.

(** C10: [swap_images] changes nothing outside the first
    [SWAP_ITERATIONS * FLASH_SECTOR_SIZE] bytes of the two slots: the bytes
    of APP and DOWNLOAD from that offset on are as before, every erase and
    program call it makes stays inside those leading bytes, the metadata
    record is untouched, and no byte of the INFO sector is erased,
    programmed or changed. *)
Theorem swap_images_frame (d : device) :
  layout_ok ->
  let n := SWAP_ITERATIONS d in
  (forall offs,
      n * FLASH_SECTOR_SIZE <= offs < __FLASH_SWAP_SPACE_LENGTH ->
      flash (swap_images d) (app_offs + offs) = flash d (app_offs + offs)
      /\ flash (swap_images d) (download_offs + offs) = flash d (download_offs + offs))
  /\ meta (swap_images d) = meta d
  /\ exists cs,
       trace (swap_images d) = trace d ++ cs
       /\ (forall c a, In c cs -> touches c a = true ->
                       in_swapped (n * FLASH_SECTOR_SIZE) a = true)
       /\ (info_ok ->
           forall a, info_offs <= a < info_offs + FLASH_SECTOR_SIZE ->
                     flash (swap_images d) a = flash d a
                     /\ forall c, In c cs -> touches c a = false).
Proof.
  intros L n. destruct (SWAP_ITERATIONS_bounds d L) as [Hn Hfit]. fold n in Hn, Hfit.
  assert (HS := sector_pos L).
  destruct (swap_images_trace d L) as (cs & Htr & Hok). fold n in Hok.
  assert (Htouch : forall c a,
             In c (c_swap_images :: c_save_and_disable_interrupts
                   :: cs ++ [c_restore_interrupts]) ->
             touches c a = true -> in_swapped (n * FLASH_SECTOR_SIZE) a = true).
  { intros c a Hc Ht. destruct Hc as [<-|[<-|Hc]]; try discriminate.
    apply in_app_or in Hc as [Hc|[<-|[]]]; try discriminate.
    rewrite Forall_forall in Hok. apply list_elem_of_In in Hc.
    destruct (Hok c Hc) as (_ & _ & Hin). now apply Hin. }
  assert (Hout : forall a, info_ok -> info_offs <= a < info_offs + FLASH_SECTOR_SIZE ->
                           in_swapped (n * FLASH_SECTOR_SIZE) a = false).
  { intros a I Ha. destruct I, L. unfold info_offs in Ha.
    apply orb_false_iff. unfold app_offs, download_offs.
    split; apply in_range_false; lia. }
  split; [|split; [apply swap_images_static|]].
  - intros offs Hoffs. destruct L.
    split; apply swap_images_frame_flash; try (constructor; assumption);
      fold n; apply orb_false_iff; unfold app_offs, download_offs;
      split; apply in_range_false; lia.
  - eexists. split; [exact Htr|]. split; [exact Htouch|].
    intros I a Ha. split.
    + apply swap_images_frame_flash; [exact L|]. now apply Hout.
    + intros c Hc. destruct (touches c a) eqn:Et; [|reflexivity].
      pose proof (Htouch c a Hc Et) as Hin. rewrite (Hout a I Ha) in Hin.
      discriminate.
Qed.

End SwapTheorems.

(** ** The upload loop: proofs *)

Section UploadProofs.
Context `{Platform}.

Lemma fill_spec data : forall buf pos,
  0 <= pos <= PFB_ALIGN_SIZE -> length buf = Z.to_nat PFB_ALIGN_SIZE ->
  exists used rest buf',
    fill data buf pos = (rest, buf', pos + Z.of_nat (length used))
    /\ data = used ++ rest
    /\ take (Z.to_nat pos + length used) buf' = take (Z.to_nat pos) buf ++ used
    /\ length buf' = length buf
    /\ pos + Z.of_nat (length used) <= PFB_ALIGN_SIZE
    /\ (rest = [] \/ pos + Z.of_nat (length used) = PFB_ALIGN_SIZE)
    /\ (data <> [] -> pos < PFB_ALIGN_SIZE -> used <> []).
Proof.
  induction data as [|b data IH]; intros buf pos Hpos Hlen.
  - exists [], [], buf. simpl. rewrite Z.add_0_r, Nat.add_0_r, app_nil_r.
    repeat split; auto; lia.
  - simpl. destruct (pos <? PFB_ALIGN_SIZE) eqn:E.
    + apply Z.ltb_lt in E.
      destruct (IH (<[Z.to_nat pos := b]> buf) (pos + 1))
        as (used & rest & buf' & Hf & Hd & Ht & Hl & Hle & Hor & _);
        [lia | now rewrite length_insert |].
      exists (b :: used), rest, buf'. rewrite Hf. simpl length.
      repeat split.
      * f_equal. lia.
      * now rewrite Hd.
      * replace (Z.to_nat pos + S (length used))%nat
          with (Z.to_nat (pos + 1) + length used)%nat by lia.
        rewrite Ht. replace (Z.to_nat (pos + 1)) with (S (Z.to_nat pos)) by lia.
        rewrite (take_S_r _ _ b) by (apply list_lookup_insert_eq; lia).
        rewrite take_insert_ge by lia. now rewrite <- app_assoc.
      * now rewrite Hl, length_insert.
      * lia.
      * destruct Hor; [now left | right; lia].
      * discriminate.
    + apply Z.ltb_ge in E. exists [], (b :: data), buf. simpl.
      rewrite Z.add_0_r, Nat.add_0_r, app_nil_r.
      repeat split; auto; lia.
Qed.

Lemma poll_spec rest pending data' pending' :
  poll rest pending = (data', pending') ->
  stream data' pending' = rest ++ received pending
  /\ (total_bytes data' pending' <= total_bytes rest pending)%nat.
Proof.
  intros Hp. unfold poll in Hp.
  destruct rest as [|r rest].
  - destruct pending as [|chunk pending]; inversion Hp; subst; clear Hp.
    + split; auto.
    + destruct data' as [|x data']; split; auto.
      unfold total_bytes. simpl. rewrite length_app. lia.
  - inversion Hp; subst. split; auto.
Qed.

Lemma upload_loop_nil fuel pending done d :
  upload_loop fuel [] pending done d = Some (d, done).
Proof. destruct fuel; reflexivity. Qed.

(** With fuel for one iteration per byte the loop ends, and then: the calls
    logged are writes of full buffers at consecutive offsets; the count
    returned is the number of bytes written; what was written followed by
    what is left in the buffer is what was in the buffer before followed by
    the bytes received. *)
Lemma upload_loop_spec fuel : forall data pending done d,
  0 < PFB_ALIGN_SIZE ->
  (total_bytes data pending <= fuel)%nat ->
  0 <= upload_pos d < PFB_ALIGN_SIZE ->
  length (upload_buffer d) = Z.to_nat PFB_ALIGN_SIZE ->
  exists d' ws,
    upload_loop fuel data pending done d
      = Some (d', done + PFB_ALIGN_SIZE * Z.of_nat (length ws))
    /\ trace d' = trace d ++ ws
    /\ aligned_writes done ws
    /\ meta d' = meta d
    /\ 0 <= upload_pos d' < PFB_ALIGN_SIZE
    /\ length (upload_buffer d') = Z.to_nat PFB_ALIGN_SIZE
    /\ concat (map written ws) ++ take (Z.to_nat (upload_pos d')) (upload_buffer d')
       = take (Z.to_nat (upload_pos d)) (upload_buffer d) ++ stream data pending.
Proof.
  assert (Hnil : forall fuel pending done d,
             0 <= upload_pos d < PFB_ALIGN_SIZE ->
             length (upload_buffer d) = Z.to_nat PFB_ALIGN_SIZE ->
             exists d' ws,
               upload_loop fuel [] pending done d
               = Some (d', done + PFB_ALIGN_SIZE * Z.of_nat (length ws))
               /\ trace d' = trace d ++ ws
               /\ aligned_writes done ws
               /\ meta d' = meta d
               /\ 0 <= upload_pos d' < PFB_ALIGN_SIZE
               /\ length (upload_buffer d') = Z.to_nat PFB_ALIGN_SIZE
               /\ concat (map written ws)
                  ++ take (Z.to_nat (upload_pos d')) (upload_buffer d')
                  = take (Z.to_nat (upload_pos d)) (upload_buffer d) ++ stream [] pending).
  { intros f pending done d Hpos Hlen. exists d, [].
    rewrite upload_loop_nil. simpl. rewrite Z.mul_0_r, Z.add_0_r, !app_nil_r.
    repeat split; auto; lia. }
  induction fuel as [|fuel IH]; intros data pending done d HA Hfuel Hpos Hlen.
  - destruct data as [|b data]; [now apply Hnil|].
    unfold total_bytes in Hfuel; simpl in Hfuel; lia.
  - destruct data as [|b data]; [now apply Hnil|].
    destruct d as [mi m buf pos tr]. cbn [upload_pos upload_buffer trace meta] in *.
    destruct (fill_spec (b :: data) buf pos)
      as (used & rest & buf1 & Hf & Hd & Ht & Hl & Hle & Hor & Hused);
      [lia | assumption |].
    assert (Hu : used <> []) by (apply Hused; [discriminate | lia]).
    assert (Hulen : (1 <= length used)%nat) by (destruct used; [congruence | simpl; lia]).
    cbn [upload_loop upload_pos upload_buffer]. rewrite Hf.
    destruct (poll rest pending) as [data' pending'] eqn:Hp.
    destruct (poll_spec rest pending _ _ Hp) as (Hs & Htot).
    assert (Hfuel' : (total_bytes data' pending' <= fuel)%nat).
    { unfold total_bytes in *. rewrite Hd, length_app in Hfuel. lia. }
    assert (Hnat : Z.to_nat (pos + Z.of_nat (length used))
                   = (Z.to_nat pos + length used)%nat) by lia.
    destruct (pos + Z.of_nat (length used) =? PFB_ALIGN_SIZE) eqn:E.
    + apply Z.eqb_eq in E.
      cbn [pfb_write_to_flash_aligned_256_bytes log set_flash set_upload].
      match goal with
      | |- context [upload_loop fuel data' pending' ?dn ?st] =>
          destruct (IH data' pending' dn st HA Hfuel')
            as (d' & ws & Hr & Htr & Haw & Hm & Hp' & Hl' & Hc);
            [cbn; lia | cbn; lia |]
      end.
      cbn [upload_pos upload_buffer trace meta] in *.
      eexists d', (_ :: ws). rewrite Hr. split; [|split; [|split; [|split; [|split; [|split]]]]].
      * do 2 f_equal. simpl length. lia.
      * rewrite Htr, <- app_assoc. reflexivity.
      * simpl. repeat split; try lia. now rewrite E in Haw.
      * exact Hm.
      * exact Hp'.
      * exact Hl'.
      * rewrite map_cons, concat_cons. cbn [written].
        rewrite Hnat, Ht, <- !app_assoc. rewrite Hc, Hs. cbn [Z.to_nat take app].
        change (stream (b :: data) pending) with ((b :: data) ++ received pending).
        rewrite Hd, <- !app_assoc. reflexivity.
    + apply Z.eqb_neq in E.
      assert (Hrest : rest = []) by (destruct Hor; [assumption | contradiction]).
      cbn [set_upload].
      match goal with
      | |- context [upload_loop fuel data' pending' ?dn ?st] =>
          destruct (IH data' pending' dn st HA Hfuel')
            as (d' & ws & Hr & Htr & Haw & Hm & Hp' & Hl' & Hc);
            [cbn; lia | cbn; lia |]
      end.
      cbn [upload_pos upload_buffer trace meta] in *.
      exists d', ws. rewrite Hr. repeat split; try assumption; try lia.
      rewrite Hc, Hnat, Ht, Hs, <- !app_assoc.
      change (stream (b :: data) pending) with ((b :: data) ++ received pending).
      rewrite Hd, <- !app_assoc. reflexivity.
Qed.

Lemma aligned_writes_facts ws : forall offs,
  aligned_writes offs ws ->
  length (concat (map written ws)) = (Z.to_nat PFB_ALIGN_SIZE * length ws)%nat
  /\ forallb (fun c => negb (swaps_or_commits c)) ws = true
  /\ entered ws = [].
Proof.
  induction ws as [|w ws IH]; intros offs Haw; [simpl; repeat split; lia|].
  destruct w; try contradiction. destruct Haw as (-> & -> & Hl & Haw).
  destruct (IH _ Haw) as (IH1 & IH2 & IH3).
  rewrite map_cons, concat_cons, length_app, IH1. cbn [written].
  rewrite length_take, Hl, Nat.min_id. simpl length.
  repeat split; [lia | exact IH2 | exact IH3].
Qed.

Lemma set_flash_statics f d : statics_ok (set_flash f d) <-> statics_ok d.
Proof. now destruct d. Qed.

Lemma log_statics c d : statics_ok (log c d) <-> statics_ok d.
Proof. now destruct d. Qed.

Lemma set_meta_statics f d : statics_ok (set_meta f d) <-> statics_ok d.
Proof. now destruct d. Qed.

(** The POST branch up to the verification, from any state the loop can
    have left the statics in. *)
Lemma post_upload_spec c k d :
  statics_ok d ->
  exists d' ws,
    post_upload c k d = Some (d', PFB_ALIGN_SIZE * Z.of_nat (length ws))
    /\ trace d' = trace d ++ c_pfb_initialize_download_slot :: ws
    /\ aligned_writes 0 ws
    /\ meta d' = meta d
    /\ statics_ok d'
    /\ concat (map written ws) ++ take (Z.to_nat (upload_pos d')) (upload_buffer d')
       = take (Z.to_nat (upload_pos d)) (upload_buffer d)
         ++ stream (drop (k + 4) (first c)) (more c).
Proof.
  intros (HA & Hpos & Hlen). unfold post_upload.
  set (d0 := pfb_initialize_download_slot d).
  assert (Hd0 : trace d0 = trace d ++ [c_pfb_initialize_download_slot]
                /\ meta d0 = meta d /\ upload_pos d0 = upload_pos d
                /\ upload_buffer d0 = upload_buffer d)
    by (subst d0; now destruct d).
  destruct Hd0 as (Htr0 & Hm0 & Hp0 & Hb0).
  destruct (upload_loop_spec
              (upload_fuel (drop (k + 4) (first c)) (more c))
              (drop (k + 4) (first c)) (more c) 0 d0 HA)
    as (d' & ws & Hr & Htr & Haw & Hm & Hp' & Hl' & Hc).
  { unfold upload_fuel. lia. }
  { now rewrite Hp0. }
  { now rewrite Hb0. }
  exists d', ws. rewrite Z.add_0_l in Hr. rewrite Hr, Htr, Htr0, Hm, Hm0, Hc, Hp0, Hb0.
  rewrite <- app_assoc.
  split; [reflexivity|]. split; [reflexivity|]. split; [exact Haw|].
  split; [reflexivity|]. split; [|reflexivity].
  unfold statics_ok. auto.
Qed.

(** How many buffers get written and how many bytes stay behind. *)
Lemma upload_counts (w t p b : list Z) (n : nat) (pos' : Z) :
  0 < PFB_ALIGN_SIZE ->
  w ++ t = p ++ b ->
  length w = (Z.to_nat PFB_ALIGN_SIZE * n)%nat ->
  length t = Z.to_nat pos' -> 0 <= pos' < PFB_ALIGN_SIZE ->
  Z.of_nat n = Z.of_nat (length p + length b) / PFB_ALIGN_SIZE
  /\ pos' = Z.of_nat (length p + length b) mod PFB_ALIGN_SIZE.
Proof.
  intros HA He Hw Ht Hp.
  assert (Hlen : Z.of_nat (length p + length b)
                 = PFB_ALIGN_SIZE * Z.of_nat n + pos').
  { rewrite <- !length_app, <- He, length_app, Hw, Ht. nia. }
  rewrite Hlen. split.
  - apply (Z.div_unique_pos _ _ _ pos'); [lia | reflexivity].
  - apply (Z.mod_unique_pos _ _ (Z.of_nat n)); [lia | reflexivity].
Qed.

End UploadProofs.

(** ** Projections of the updates *)

Section Projections.
Context `{Platform}.

Lemma trace_log c d : trace (log c d) = trace d ++ [c].
Proof. now destruct d. Qed.
Lemma meta_log c d : meta (log c d) = meta d.
Proof. now destruct d. Qed.
Lemma flash_log c d : flash (log c d) = flash d.
Proof. now destruct d. Qed.
Lemma upload_pos_log c d : upload_pos (log c d) = upload_pos d.
Proof. now destruct d. Qed.
Lemma upload_buffer_log c d : upload_buffer (log c d) = upload_buffer d.
Proof. now destruct d. Qed.

Lemma trace_call_meta c f d : trace (call_meta c f d) = trace d ++ [c].
Proof. now destruct d. Qed.
Lemma meta_call_meta c f d : meta (call_meta c f d) = f (meta d).
Proof. now destruct d. Qed.
Lemma flash_call_meta c f d : flash (call_meta c f d) = flash d.
Proof. now destruct d. Qed.
Lemma upload_pos_call_meta c f d : upload_pos (call_meta c f d) = upload_pos d.
Proof. now destruct d. Qed.
Lemma upload_buffer_call_meta c f d : upload_buffer (call_meta c f d) = upload_buffer d.
Proof. now destruct d. Qed.

Lemma trace_hand_off d :
  trace (hand_off d)
  = trace d ++ [c_disable_interrupts; c_reset_peripherals; c_jump_to_vtor].
Proof. destruct d. cbn. now rewrite <- !app_assoc. Qed.
Lemma meta_hand_off d : meta (hand_off d) = meta d.
Proof. now destruct d. Qed.
Lemma flash_hand_off d : flash (hand_off d) = flash d.
Proof. now destruct d. Qed.
Lemma upload_pos_hand_off d : upload_pos (hand_off d) = upload_pos d.
Proof. now destruct d. Qed.
Lemma upload_buffer_hand_off d : upload_buffer (hand_off d) = upload_buffer d.
Proof. now destruct d. Qed.

Lemma meta_swap_images d : meta (swap_images d) = meta d.
Proof. apply swap_images_static. Qed.
Lemma upload_pos_swap_images d : upload_pos (swap_images d) = upload_pos d.
Proof. apply swap_images_static. Qed.
Lemma upload_buffer_swap_images d : upload_buffer (swap_images d) = upload_buffer d.
Proof. apply swap_images_static. Qed.

Lemma entered_app tr1 tr2 : entered (tr1 ++ tr2) = entered tr1 ++ entered tr2.
Proof. apply omap_app. Qed.

Lemma flash_ops_entered cs : forallb is_flash_op cs = true -> entered cs = [].
Proof.
  induction cs as [|c cs IH]; [reflexivity|]. simpl. intros Hc.
  apply andb_true_iff in Hc as [Hc Hcs]. destruct c; try discriminate; now apply IH.
Qed.

Lemma flash_ops_written cs :
  forallb is_flash_op cs = true -> Forall (fun c => written c = []) cs.
Proof.
  induction cs as [|c cs IH]; [constructor|]. simpl. intros Hc.
  apply andb_true_iff in Hc as [Hc Hcs].
  constructor; [destruct c; try discriminate; reflexivity | now apply IH].
Qed.

(** The calls of [swap_images], whatever the layout. *)
Lemma swap_loop_calls n : forall i d,
  exists cs, trace (swap_loop n i d) = trace d ++ cs /\ forallb is_flash_op cs = true.
Proof.
  induction n as [|n IH]; intros i d.
  - exists []. now rewrite app_nil_r.
  - simpl. destruct (IH (u32 (i + 1)) (swap_sector i d)) as (cs & Hcs & Hok).
    destruct (swap_sector_trace i d) as (e1 & e2 & b1 & b2 & Htr & _).
    eexists. split; [rewrite Hcs, Htr, <- app_assoc; reflexivity|].
    exact Hok.
Qed.

Lemma swap_images_calls d :
  exists cs,
    trace (swap_images d)
    = trace d ++ c_swap_images :: c_save_and_disable_interrupts :: cs ++ [c_restore_interrupts]
    /\ forallb is_flash_op cs = true.
Proof.
  unfold swap_images.
  set (d0 := log c_save_and_disable_interrupts (log c_swap_images d)).
  destruct (swap_loop_calls (Z.to_nat (SWAP_ITERATIONS d)) 0 d0) as (cs & Hcs & Hok).
  exists cs. split; [|exact Hok].
  rewrite trace_log, Hcs. subst d0. rewrite !trace_log, <- !app_assoc. reflexivity.
Qed.

Lemma entered_swap_images d : entered (trace (swap_images d)) = entered (trace d).
Proof.
  destruct (swap_images_calls d) as (cs & -> & Hok).
  change (c_swap_images :: c_save_and_disable_interrupts :: cs ++ [c_restore_interrupts])
    with ([c_swap_images; c_save_and_disable_interrupts] ++ cs ++ [c_restore_interrupts]).
  rewrite !entered_app, (flash_ops_entered cs Hok). cbn. now rewrite app_nil_r.
Qed.

End Projections.

(** Lists of calls, re-associated to the right. *)
Ltac list_norm := repeat (progress (rewrite <- ?app_assoc; cbn [app])).

Create Rewrite HintDb dev.
#[local] Hint Rewrite @trace_log @meta_log @flash_log @upload_pos_log @upload_buffer_log
  @trace_call_meta @meta_call_meta @flash_call_meta @upload_pos_call_meta
  @upload_buffer_call_meta @trace_hand_off @meta_hand_off @flash_hand_off
  @upload_pos_hand_off @upload_buffer_hand_off @meta_swap_images
  @upload_pos_swap_images @upload_buffer_swap_images : dev.

(** ** One connection *)

Section ServeProofs.
Context `{Platform}.

Lemma strstr_some_nonempty buf k : strstr buf crlfcrlf = Some k -> buf <> [].
Proof. intros Hs ->. vm_compute in Hs. discriminate. Qed.

Lemma found_nonempty buf needle : found buf needle = true -> needle <> EmptyString -> buf <> [].
Proof.
  intros Hf Hn ->. unfold found, strstr in Hf. destruct needle as [|a s]; [congruence|].
  discriminate.
Qed.

Lemma Gpio_serve_post c k d :
  Gpio.is_post (first c) k ->
  Gpio.serve c d =
  match post_upload c k (log c_listen (log c_socket d)) with
  | None => (log c_listen (log c_socket d), Stuck)
  | Some (d1, upload_done) =>
      let d2 := log (c_pfb_firmware_sha256_check upload_done) d1 in
      if sha256_ret c =? 0 then (Gpio.swap_and_commit upload_done d2, HandOff)
      else (log c_close d2, Listening)
  end.
Proof.
  intros (Hg & Hp & Hs). unfold Gpio.serve.
  destruct (first c) as [|b l] eqn:E; [now apply strstr_some_nonempty in Hs|].
  cbv zeta. rewrite Hg, Hp, Hs. reflexivity.
Qed.

Lemma Gpio_serve_get c d :
  Gpio.is_get (first c) ->
  Gpio.serve c d =
  (log c_close (log c_disconnect
     (log (c_send (sizeof_bytes Gpio.page_recover)) (log c_listen (log c_socket d)))),
   Listening).
Proof.
  intros (Hg & Hr). unfold Gpio.serve.
  destruct (first c) as [|b l] eqn:E; [discriminate Hg|].
  cbv zeta. rewrite Hg, Hr. reflexivity.
Qed.

Lemma FlagUnion_serve_post c k contact d :
  FlagUnion.is_post (first c) k ->
  FlagUnion.serve c contact d =
  match post_upload c k (log c_listen (log c_socket d)) with
  | None => (log c_listen (log c_socket d), contact, Stuck)
  | Some (d1, upload_done) =>
      let d2 := log (c_pfb_firmware_sha256_check upload_done) d1 in
      if sha256_ret c =? 0 then
        (log c_pfb_perform_update
           (call_meta (c_pfb_mark_download_slot_as_valid 0)
                      (pfb_mark_download_slot_as_valid 0) d2), contact, Reset)
      else (log c_close d2, contact, Listening)
  end.
Proof.
  intros (Hg & Hp & Hs). unfold FlagUnion.serve.
  destruct (first c) as [|b l] eqn:E; [now apply strstr_some_nonempty in Hs|].
  cbv zeta. rewrite Hg, Hp, Hs. reflexivity.
Qed.

Lemma FlagUnion_serve_get c contact d :
  FlagUnion.is_get (first c) ->
  FlagUnion.serve c contact d =
  (log c_close (log c_disconnect
     (log (c_send (sizeof_bytes FlagUnion.page_recover)) (log c_listen (log c_socket d)))),
   true, Listening).
Proof.
  intros Hg. unfold FlagUnion.is_get in Hg. unfold FlagUnion.serve.
  destruct (first c) as [|b l] eqn:E; [discriminate Hg|].
  cbv zeta. rewrite Hg. reflexivity.
Qed.

(** The block that swaps a verified upload in. *)
Lemma swap_and_commit_spec upload_done d :
  exists cs,
    trace (Gpio.swap_and_commit upload_done d)
    = trace d
      ++ c_pfb_mark_download_slot_as_valid upload_done
      :: c_swap_images :: c_save_and_disable_interrupts :: cs
      ++ [c_restore_interrupts; c_pfb_firmware_commit; c_mark_pico_has_no_new_firmware;
          c_mark_is_not_after_rollback; c_pfb_mark_download_slot_as_invalid;
          c_disable_interrupts; c_reset_peripherals; c_jump_to_vtor]
    /\ forallb is_flash_op cs = true
    /\ meta (Gpio.swap_and_commit upload_done d)
       = Info false false false false (u32 upload_done).
Proof.
  unfold Gpio.swap_and_commit.
  set (d1 := call_meta _ _ d).
  destruct (swap_images_calls d1) as (cs & Htr & Hok).
  exists cs. split; [|split; [exact Hok|]].
  - autorewrite with dev. rewrite Htr. subst d1. autorewrite with dev.
    list_norm. reflexivity.
  - autorewrite with dev. subst d1. autorewrite with dev. reflexivity.
Qed.

End ServeProofs.

(** ** What a connection can and cannot log *)

Section Quiet.
Context `{Platform}.

Lemma trace_set_upload buf pos d : trace (set_upload buf pos d) = trace d.
Proof. now destruct d. Qed.
Lemma meta_set_upload buf pos d : meta (set_upload buf pos d) = meta d.
Proof. now destruct d. Qed.
Lemma trace_write buf offs len d :
  trace (pfb_write_to_flash_aligned_256_bytes buf offs len d)
  = trace d ++ [c_pfb_write_to_flash_aligned_256_bytes buf offs len].
Proof. now destruct d. Qed.
Lemma meta_write buf offs len d :
  meta (pfb_write_to_flash_aligned_256_bytes buf offs len d) = meta d.
Proof. now destruct d. Qed.
Lemma trace_initialize d :
  trace (pfb_initialize_download_slot d) = trace d ++ [c_pfb_initialize_download_slot].
Proof. now destruct d. Qed.
Lemma meta_initialize d : meta (pfb_initialize_download_slot d) = meta d.
Proof. now destruct d. Qed.

(** Whatever state it starts from, a finished upload loop has logged
    nothing but writes to the download slot and has left the metadata
    alone. *)
Lemma upload_loop_quiet fuel : forall data pending done d d' done',
  upload_loop fuel data pending done d = Some (d', done') ->
  exists ws, trace d' = trace d ++ ws /\ entered ws = [] /\ meta d' = meta d.
Proof.
  induction fuel as [|fuel IH]; intros data pending done d d' done' Hr;
    destruct data as [|b data];
    try (inversion Hr; subst; exists []; now rewrite app_nil_r);
    try discriminate.
  cbn [upload_loop] in Hr.
  destruct (fill (b :: data) (upload_buffer d) (upload_pos d)) as [[rest buf1] pos1].
  destruct (pos1 =? PFB_ALIGN_SIZE);
    destruct (poll rest pending) as [data' pending'];
    apply IH in Hr as (ws & Htr & He & Hm).
  - rewrite trace_set_upload, trace_write in Htr.
    rewrite meta_set_upload, meta_write in Hm.
    eexists. split; [rewrite Htr, <- app_assoc; reflexivity|]. split; [|exact Hm].
    rewrite entered_app, He. reflexivity.
  - rewrite trace_set_upload in Htr. rewrite meta_set_upload in Hm.
    exists ws. auto.
Qed.

Lemma post_upload_quiet c k d d' done :
  post_upload c k d = Some (d', done) ->
  exists ws, trace d' = trace d ++ ws /\ entered ws = [] /\ meta d' = meta d.
Proof.
  unfold post_upload. intros Hr.
  apply upload_loop_quiet in Hr as (ws & Htr & He & Hm).
  rewrite trace_initialize in Htr. rewrite meta_initialize in Hm.
  eexists. split; [rewrite Htr, <- app_assoc; reflexivity|]. split; [|exact Hm].
  rewrite entered_app, He. reflexivity.
Qed.

(** Every pass of the server loop of the GPIO revision opens with [socket]
    and [listen] and enters no branch of [main]. *)
Lemma Gpio_serve_quiet c d :
  exists rest,
    trace (fst (Gpio.serve c d)) = trace d ++ c_socket :: c_listen :: rest
    /\ entered rest = []
    /\ snd (Gpio.serve c d) <> Expired.
Proof.
  unfold Gpio.serve. destruct (first c) as [|b l] eqn:E.
  { exists []. cbn [fst snd]. autorewrite with dev. list_norm. now split. }
  cbv zeta.
  destruct (found (b :: l) "GET" || found (b :: l) "get").
  { destruct (found (b :: l) "REBOOT" || found (b :: l) "reboot");
      eexists; cbn [fst snd]; autorewrite with dev; list_norm; now split. }
  destruct (found (b :: l) "POST" || found (b :: l) "post");
    [|eexists; cbn [fst snd]; autorewrite with dev; list_norm; now split].
  destruct (strstr (b :: l) crlfcrlf) as [k|];
    [|eexists; cbn [fst snd]; autorewrite with dev; list_norm; now split].
  destruct (post_upload c k (log c_listen (log c_socket d))) as [[d1 done]|] eqn:Hp;
    [|eexists; cbn [fst snd]; autorewrite with dev; list_norm; now split].
  apply post_upload_quiet in Hp as (ws & Htr & He & Hm).
  autorewrite with dev in Htr. 
  destruct (sha256_ret c =? 0); cbn [fst snd].
  - destruct (swap_and_commit_spec done (log (c_pfb_firmware_sha256_check done) d1))
      as (cs & Hcs & Hok & _).
    rewrite Hcs. autorewrite with dev. rewrite Htr. list_norm.
    eexists. split; [reflexivity|]. split; [|discriminate].
    rewrite entered_app, He. cbn.
    change (omap _ (cs ++ ?x)) with (entered (cs ++ x)).
    rewrite entered_app, (flash_ops_entered cs Hok). reflexivity.
  - autorewrite with dev. rewrite Htr. list_norm.
    eexists. split; [reflexivity|]. split; [|discriminate].
    rewrite entered_app, He. reflexivity.
Qed.

Lemma Gpio_server_quiet cs : forall d,
  exists rest,
    trace (fst (Gpio.server cs d)) = trace d ++ rest /\ entered rest = []
    /\ snd (Gpio.server cs d) <> Expired.
Proof.
  induction cs as [|c cs IH]; intros d.
  - exists []. cbn. now rewrite app_nil_r.
  - cbn [Gpio.server].
    destruct (Gpio_serve_quiet c d) as (rest & Htr & He & Hx).
    destruct (Gpio.serve c d) as [d1 o]. cbn [fst snd] in *.
    destruct o; try (eexists; split; [exact Htr|]; now split).
    destruct (IH d1) as (rest' & Htr' & He' & Hx').
    eexists. split; [rewrite Htr', Htr, <- app_assoc; reflexivity|].
    split; [|exact Hx']. rewrite entered_app, He', app_nil_r. exact He.
Qed.

End Quiet.

Section QuietFlagUnion.
Context `{Platform}.

(** A pass of the server loop of the flag-union revision enters no branch
    of [main], never hands off, and leaves the metadata alone unless it
    ends in a reset. *)
Lemma FlagUnion_serve_quiet c contact d :
  exists rest,
    trace (fst (fst (FlagUnion.serve c contact d))) = trace d ++ c_socket :: c_listen :: rest
    /\ entered rest = []
    /\ snd (FlagUnion.serve c contact d) <> Expired
    /\ snd (FlagUnion.serve c contact d) <> HandOff
    /\ (snd (FlagUnion.serve c contact d) = Listening ->
        meta (fst (fst (FlagUnion.serve c contact d))) = meta d).
Proof.
  unfold FlagUnion.serve. destruct (first c) as [|b l] eqn:E.
  { exists []. cbn [fst snd]. autorewrite with dev. list_norm. now repeat split. }
  cbv zeta.
  destruct (found (b :: l) "GET /recover").
  { eexists; cbn [fst snd]; autorewrite with dev; list_norm; now repeat split. }
  destruct (found (b :: l) "POST");
    [|eexists; cbn [fst snd]; autorewrite with dev; list_norm; now repeat split].
  destruct (strstr (b :: l) crlfcrlf) as [k|];
    [|eexists; cbn [fst snd]; autorewrite with dev; list_norm; now repeat split].
  destruct (post_upload c k (log c_listen (log c_socket d))) as [[d1 done]|] eqn:Hp;
    [|eexists; cbn [fst snd]; autorewrite with dev; list_norm; now repeat split].
  apply post_upload_quiet in Hp as (ws & Htr & He & Hm).
  autorewrite with dev in Htr, Hm.
  destruct (sha256_ret c =? 0); cbn [fst snd]; autorewrite with dev;
    rewrite Htr; list_norm;
    (eexists; split; [reflexivity|]; split;
      [rewrite entered_app, He; reflexivity | repeat split; try discriminate; auto]).
Qed.

Lemma FlagUnion_server_quiet ts : forall contact d,
  exists rest,
    trace (fst (FlagUnion.server ts contact d)) = trace d ++ rest
    /\ entered rest = []
    /\ snd (FlagUnion.server ts contact d) <> HandOff
    /\ (snd (FlagUnion.server ts contact d) = Expired ->
        meta (fst (FlagUnion.server ts contact d)) = meta d).
Proof.
  induction ts as [|[in_window c] ts IH]; intros contact d.
  - exists []. cbn. rewrite app_nil_r. repeat split; discriminate.
  - cbn [FlagUnion.server].
    destruct (in_window || contact);
      [|exists []; cbn; rewrite app_nil_r; repeat split; discriminate].
    destruct (FlagUnion_serve_quiet c contact d) as (rest & Htr & He & Hx & Hh & Hm).
    destruct (FlagUnion.serve c contact d) as [[d1 contact1] o]. cbn [fst snd] in *.
    destruct o;
      try (eexists; split; [exact Htr|]; repeat split; (discriminate || congruence || auto)).
    destruct (IH contact1 d1) as (rest' & Htr' & He' & Hh' & Hm').
    eexists. split; [rewrite Htr', Htr, <- app_assoc; reflexivity|].
    split; [|split; [exact Hh'|]].
    + rewrite entered_app, He', app_nil_r. exact He.
    + intros Hexp. rewrite (Hm' Hexp). now apply Hm.
Qed.

(** The tail of [main] enters exactly one branch, the one the flags pick,
    and hands off. *)
Lemma boot_spec d :
  snd (boot d) = HandOff
  /\ entered (trace (fst (boot d))) = entered (trace d) ++ [boot_action false (meta d)].
Proof.
  split; [reflexivity|]. unfold boot, boot_action. cbn [fst].
  destruct (_pfb_should_rollback (meta d)); [|destruct (_pfb_has_firmware_to_swap (meta d))];
    autorewrite with dev; rewrite ?entered_app, ?entered_swap_images;
    autorewrite with dev; rewrite ?entered_app; cbn; now rewrite ?app_nil_r.
Qed.

End QuietFlagUnion.

(** ** The boot decision *)

Section BootTheorems.
Context `{Platform}.

(** C1 (as amended): in the GPIO revision [main] enters exactly one of the
    four branches, the one the table of section 4.E gives for the recovery
    trigger and the two flags, whatever connections arrive and whatever
    [swap_size] is.  In the flag-union revision a set trigger enters
    Recovery, and when [main] hands off (which it does only after the
    server window ran out) it has gone on to the branch the two flags pick;
    with the trigger clear it enters that branch alone. *)
Theorem boot_decision (d : device) :
  (forall at_reset after_blink cs,
      entered (trace (fst (Gpio.main at_reset after_blink cs d)))
      = entered (trace d)
        ++ [boot_action (Gpio.recovery_trigger at_reset after_blink) (meta d)])
  /\ (forall ts,
         entered (trace (fst (FlagUnion.main ts d)))
         = entered (trace d)
           ++ (if FlagUnion.recovery_trigger (meta d)
               then Recovery :: match snd (FlagUnion.main ts d) with
                                | HandOff => [boot_action false (meta d)]
                                | _ => []
                                end
               else [boot_action false (meta d)]))
  /\ (forall trigger i size,
         boot_action trigger
           (Info (has_new_firmware i) (after_rollback i) (should_rollback i)
                 (download_slot_valid i) size)
         = boot_action trigger i).
Proof.
  split; [|split].
  - intros at_reset after_blink cs. unfold Gpio.main.
    destruct (Gpio.recovery_trigger at_reset after_blink).
    + destruct (Gpio_server_quiet cs (log (enter Recovery) d)) as (rest & Htr & He & _).
      rewrite Htr, trace_log, !entered_app, He, app_nil_r. reflexivity.
    + apply boot_spec.
  - intros ts. unfold FlagUnion.main.
    destruct (FlagUnion.recovery_trigger (meta d)); [|apply boot_spec].
    destruct (FlagUnion_server_quiet ts false (log (enter Recovery) d))
      as (rest & Htr & He & Hh & Hm).
    destruct (FlagUnion.server ts false (log (enter Recovery) d)) as [d1 o].
    cbn [fst snd] in *.
    assert (Hd1 : entered (trace d1) = entered (trace d) ++ [Recovery]).
    { rewrite Htr, trace_log, !entered_app, He, app_nil_r. reflexivity. }
    destruct o; cbn [fst snd]; try exact Hd1; try congruence.
    destruct (boot_spec d1) as [-> ->].
    rewrite Hd1, (Hm eq_refl), meta_log, <- app_assoc. reflexivity.
  - intros trigger i size. reflexivity.
Qed.

(** The swap-and-arm branch of the tail of [main]. *)
Lemma boot_swap_and_arm d :
  _pfb_should_rollback (meta d) = false ->
  _pfb_has_firmware_to_swap (meta d) = true ->
  exists ops,
    trace (fst (boot d))
    = trace d
      ++ enter SwapAndArm :: c_swap_images :: c_save_and_disable_interrupts :: ops
      ++ [c_restore_interrupts; c_mark_pico_has_new_firmware;
          c_mark_is_not_after_rollback; c_mark_should_rollback;
          c_pfb_mark_download_slot_as_invalid;
          c_disable_interrupts; c_reset_peripherals; c_jump_to_vtor]
    /\ forallb is_flash_op ops = true
    /\ flash (fst (boot d)) = flash (swap_images (log (enter SwapAndArm) d))
    /\ meta (fst (boot d)) = Info true false true false (swap_size (meta d)).
Proof.
  intros Hsr Hfw. unfold boot. rewrite Hsr, Hfw. cbn [fst].
  destruct (swap_images_calls (log (enter SwapAndArm) d)) as (ops & Htr & Hok).
  exists ops. split; [|split; [exact Hok|split]].
  - autorewrite with dev. rewrite Htr. autorewrite with dev. list_norm. reflexivity.
  - autorewrite with dev. reflexivity.
  - autorewrite with dev. reflexivity.
Qed.

(** C3: with the recovery trigger and [should_rollback] false and a
    firmware to swap, [main] calls [swap_images], marks the firmware new,
    marks it not after a rollback, arms [should_rollback], invalidates the
    download slot and hands off, in this order.  At the next reset the tail
    of [main] then takes the rollback branch, unless the application has
    called [pfb_firmware_commit] in between, in which case it passes
    through. *)
Theorem swap_and_arm (d : device) (at_reset after_blink : Gpio.pins) (cs : list conn) :
  Gpio.recovery_trigger at_reset after_blink = false ->
  _pfb_should_rollback (meta d) = false ->
  _pfb_has_firmware_to_swap (meta d) = true ->
  let r := Gpio.main at_reset after_blink cs d in
  snd r = HandOff
  /\ (exists ops,
        trace (fst r)
        = trace d
          ++ enter SwapAndArm :: c_swap_images :: c_save_and_disable_interrupts :: ops
          ++ [c_restore_interrupts; c_mark_pico_has_new_firmware;
              c_mark_is_not_after_rollback; c_mark_should_rollback;
              c_pfb_mark_download_slot_as_invalid;
              c_disable_interrupts; c_reset_peripherals; c_jump_to_vtor]
        /\ forallb is_flash_op ops = true)
  /\ flash (fst r) = flash (swap_images (log (enter SwapAndArm) d))
  /\ has_new_firmware (meta (fst r)) = true
  /\ after_rollback (meta (fst r)) = false
  /\ should_rollback (meta (fst r)) = true
  /\ download_slot_valid (meta (fst r)) = false
  /\ entered (trace (fst (boot (fst r)))) = entered (trace (fst r)) ++ [Rollback]
  /\ entered (trace (fst (boot (set_meta pfb_firmware_commit (fst r)))))
     = entered (trace (fst r)) ++ [Passthrough].
Proof.
  intros Ht Hsr Hfw r. subst r. unfold Gpio.main. rewrite Ht.
  destruct (boot_swap_and_arm d Hsr Hfw) as (ops & Htr & Hok & Hfl & Hm).
  split; [reflexivity|]. split; [exists ops; now split|]. split; [exact Hfl|].
  rewrite Hm. cbn [has_new_firmware after_rollback should_rollback download_slot_valid].
  repeat split.
  - destruct (boot_spec (fst (boot d))) as [_ ->]. now rewrite Hm.
  - destruct (boot_spec (set_meta pfb_firmware_commit (fst (boot d)))) as [_ ->].
    destruct (fst (boot d)) as [mi m buf pos tr]. cbn in Hm |- *. now rewrite Hm.
Qed.

End BootTheorems.

(** ** The recovery upload: theorems *)

Section UploadTheorems.
Context `{Platform}.

(** A POST served from a state with empty upload buffer: what is written,
    what is counted and what stays in the buffer. *)
Lemma fresh_upload c k d :
  statics_ok d -> upload_pos d = 0 ->
  let body := stream (drop (k + 4) (first c)) (more c) in
  let L := Z.of_nat (length body) in
  let upload_done := PFB_ALIGN_SIZE * (L / PFB_ALIGN_SIZE) in
  exists d1 ws,
    post_upload c k (log c_listen (log c_socket d)) = Some (d1, upload_done)
    /\ trace d1 = trace d ++ [c_socket; c_listen; c_pfb_initialize_download_slot] ++ ws
    /\ aligned_writes 0 ws
    /\ meta d1 = meta d
    /\ statics_ok d1
    /\ upload_done = PFB_ALIGN_SIZE * Z.of_nat (length ws)
    /\ concat (map written ws) = take (Z.to_nat upload_done) body
    /\ upload_pos d1 = L mod PFB_ALIGN_SIZE
    /\ take (Z.to_nat (upload_pos d1)) (upload_buffer d1) = drop (Z.to_nat upload_done) body.
Proof.
  intros Hst Hpos body L upload_done.
  set (d0 := log c_listen (log c_socket d)).
  assert (Hst0 : statics_ok d0) by (subst d0; now rewrite !log_statics).
  assert (Hpos0 : upload_pos d0 = 0) by (subst d0; now rewrite !upload_pos_log).
  destruct (post_upload_spec c k d0 Hst0) as (d1 & ws & Hr & Htr & Haw & Hm & Hst1 & Hc).
  fold body in Hc. rewrite Hpos0 in Hc.
  change (Z.to_nat 0) with 0%nat in Hc. rewrite take_0 in Hc. cbn [app] in Hc.
  destruct (aligned_writes_facts ws 0 Haw) as (Hlen & _ & _).
  destruct Hst1 as (HA & Hp1 & Hl1).
  assert (Ht : length (take (Z.to_nat (upload_pos d1)) (upload_buffer d1))
               = Z.to_nat (upload_pos d1)) by (rewrite length_take; lia).
  destruct (upload_counts _ _ [] body (length ws) (upload_pos d1) HA Hc Hlen Ht Hp1)
    as (Hn & Hr1).
  cbn [length Nat.add] in Hn, Hr1. fold L in Hn, Hr1.
  assert (Hdone : upload_done = PFB_ALIGN_SIZE * Z.of_nat (length ws))
    by (subst upload_done; now rewrite <- Hn).
  assert (Hnat : Z.to_nat upload_done = length (concat (map written ws)))
    by (rewrite Hlen, Hdone; nia).
  exists d1, ws. rewrite Hdone at 1. split; [exact Hr|].
  split. { rewrite Htr. subst d0. rewrite !trace_log. list_norm. reflexivity. }
  split; [exact Haw|]. split. { rewrite Hm. subst d0. now rewrite !meta_log. }
  split; [now repeat split|]. split; [exact Hdone|].
  rewrite Hnat, <- Hc. rewrite take_app_length, drop_app_length. auto.
Qed.

(** C7 (as amended): a partial upload buffer is never written.  For a POST
    served from an empty upload buffer, with a body of [L] bytes, the flash
    writer is called for the leading [PFB_ALIGN_SIZE * (L / PFB_ALIGN_SIZE)]
    bytes only, one full buffer at a time; that count is what
    [pfb_firmware_sha256_check] is called with, in both revisions; the last
    [L mod PFB_ALIGN_SIZE] bytes of the body stay in the upload buffer and
    no later call of the same pass writes them. *)
Theorem partial_buffer_stays_unwritten (c : conn) (k : nat) (d : device) :
  statics_ok d -> upload_pos d = 0 ->
  let body := stream (drop (k + 4) (first c)) (more c) in
  let L := Z.of_nat (length body) in
  let upload_done := PFB_ALIGN_SIZE * (L / PFB_ALIGN_SIZE) in
  exists d1 ws,
    post_upload c k (log c_listen (log c_socket d)) = Some (d1, upload_done)
    /\ trace d1 = trace d ++ [c_socket; c_listen; c_pfb_initialize_download_slot] ++ ws
    /\ aligned_writes 0 ws
    /\ concat (map written ws) = take (Z.to_nat upload_done) body
    /\ upload_pos d1 = L mod PFB_ALIGN_SIZE
    /\ take (Z.to_nat (upload_pos d1)) (upload_buffer d1) = drop (Z.to_nat upload_done) body
    /\ (L mod PFB_ALIGN_SIZE <> 0 -> upload_done < L)
    /\ (Gpio.is_post (first c) k ->
        exists tail,
          trace (fst (Gpio.serve c d))
          = trace d1 ++ c_pfb_firmware_sha256_check upload_done :: tail
          /\ Forall (fun x => written x = []) tail)
    /\ (FlagUnion.is_post (first c) k ->
        forall contact, exists tail,
          trace (fst (fst (FlagUnion.serve c contact d)))
          = trace d1 ++ c_pfb_firmware_sha256_check upload_done :: tail
          /\ Forall (fun x => written x = []) tail).
Proof.
  intros Hst Hpos body L upload_done.
  destruct (fresh_upload c k d Hst Hpos)
    as (d1 & ws & Hr & Htr & Haw & Hm & Hst1 & Hdone & Hw & Hp1 & Hleft).
  fold body L upload_done in Hr, Hdone, Hw, Hp1, Hleft.
  exists d1, ws. do 6 (split; [assumption|]). split; [|split].
  - intros Hne. destruct Hst as (HA & _). subst upload_done.
    clear -HA Hne. clearbody L. clear body.
    assert (Hnz : PFB_ALIGN_SIZE <> 0) by lia.
    pose proof (Z.div_mod L PFB_ALIGN_SIZE Hnz) as Hdm.
    pose proof (Z.mod_pos_bound L PFB_ALIGN_SIZE HA) as Hmb. lia.
  - intros Hpost. rewrite (Gpio_serve_post c k d Hpost), Hr. cbv zeta.
    destruct (sha256_ret c =? 0); cbn [fst].
    + destruct (swap_and_commit_spec upload_done
                  (log (c_pfb_firmware_sha256_check upload_done) d1))
        as (cs & Hcs & Hok & _).
      rewrite Hcs, trace_log. list_norm. eexists. split; [reflexivity|].
      repeat (constructor; [reflexivity|]).
      apply Forall_app. split; [now apply flash_ops_written|].
      repeat (constructor; [reflexivity|]). constructor.
    + rewrite !trace_log. list_norm. eexists. split; [reflexivity|].
      repeat constructor.
  - intros Hpost contact. rewrite (FlagUnion_serve_post c k contact d Hpost), Hr. cbv zeta.
    destruct (sha256_ret c =? 0); cbn [fst]; autorewrite with dev; list_norm;
      (eexists; split; [reflexivity|]; repeat constructor).
Qed.

(** A POST served while the upload buffer still holds bytes: the first
    buffer written starts with them. *)
Lemma stale_upload c k d :
  statics_ok d ->
  let stale := take (Z.to_nat (upload_pos d)) (upload_buffer d) in
  let body := stream (drop (k + 4) (first c)) (more c) in
  PFB_ALIGN_SIZE <= upload_pos d + Z.of_nat (length body) ->
  exists d1 done ws,
    post_upload c k (log c_listen (log c_socket d)) = Some (d1, done)
    /\ trace d1
       = trace d
         ++ [c_socket; c_listen; c_pfb_initialize_download_slot;
             c_pfb_write_to_flash_aligned_256_bytes
               (stale ++ take (Z.to_nat (PFB_ALIGN_SIZE - upload_pos d)) body)
               0 PFB_ALIGN_SIZE]
         ++ ws.
Proof.
  intros Hst stale body Hlong.
  set (d0 := log c_listen (log c_socket d)).
  assert (Hst0 : statics_ok d0) by (subst d0; now rewrite !log_statics).
  destruct (post_upload_spec c k d0 Hst0) as (d1 & ws & Hr & Htr & Haw & Hm & Hst1 & Hc).
  assert (E : take (Z.to_nat (upload_pos d0)) (upload_buffer d0) = stale)
    by (subst d0 stale; now rewrite !upload_pos_log, !upload_buffer_log).
  rewrite E in Hc. fold body in Hc.
  destruct Hst as (HA & Hp & Hl). destruct Hst1 as (_ & Hp1 & Hl1).
  assert (Hsl : length stale = Z.to_nat (upload_pos d))
    by (subst stale; rewrite length_take; lia).
  destruct ws as [|w ws].
  { exfalso. cbn [map concat app] in Hc.
    apply (f_equal length) in Hc. rewrite length_app, length_take, Hsl in Hc. lia. }
  destruct w; try contradiction. destruct Haw as (-> & -> & Hlb & Haw).
  rewrite map_cons, concat_cons in Hc. cbn [written] in Hc.
  rewrite (take_ge buf) in Hc by lia.
  assert (Hbuf : buf = stale ++ take (Z.to_nat (PFB_ALIGN_SIZE - upload_pos d)) body).
  { apply (f_equal (take (Z.to_nat PFB_ALIGN_SIZE))) in Hc.
    rewrite <- app_assoc, take_app_le, (take_ge buf) in Hc by lia.
    rewrite take_app, (take_ge stale), Hsl in Hc by lia.
    rewrite Hc. do 2 f_equal. lia. }
  exists d1, (PFB_ALIGN_SIZE * Z.of_nat (length (c_pfb_write_to_flash_aligned_256_bytes
                                           buf 0 PFB_ALIGN_SIZE :: ws))), ws.
  split; [exact Hr|]. rewrite Htr, <- Hbuf. subst d0. rewrite !trace_log. list_norm.
  reflexivity.
Qed.


End UploadTheorems.

(** ** Recovery: verification, commit and the page *)

Section RecoveryTheorems.
Context `{Platform}.

(** What a failed verification leaves behind, whichever revision serves
    the POST: the calls of the upload, the check and [close]; none of them
    swaps or commits. *)
Lemma failed_upload d c k :
  statics_ok d ->
  exists d1 ws,
    post_upload c k (log c_listen (log c_socket d))
    = Some (d1, PFB_ALIGN_SIZE * Z.of_nat (length ws))
    /\ let d' := log c_close (log (c_pfb_firmware_sha256_check
                                     (PFB_ALIGN_SIZE * Z.of_nat (length ws))) d1) in
       trace d'
       = trace d
         ++ [c_socket; c_listen; c_pfb_initialize_download_slot] ++ ws
         ++ [c_pfb_firmware_sha256_check (PFB_ALIGN_SIZE * Z.of_nat (length ws)); c_close]
       /\ aligned_writes 0 ws
       /\ forallb (fun x => negb (swaps_or_commits x))
            ([c_socket; c_listen; c_pfb_initialize_download_slot] ++ ws
             ++ [c_pfb_firmware_sha256_check (PFB_ALIGN_SIZE * Z.of_nat (length ws));
                 c_close])
          = true
       /\ meta d' = meta d
       /\ statics_ok d'.
Proof.
  intros Hst.
  set (d0 := log c_listen (log c_socket d)).
  assert (Hst0 : statics_ok d0) by (subst d0; now rewrite !log_statics).
  destruct (post_upload_spec c k d0 Hst0) as (d1 & ws & Hr & Htr & Haw & Hm & Hst1 & _).
  exists d1, ws. split; [exact Hr|]. cbv zeta.
  split; [|split; [exact Haw|split; [|split]]].
  - rewrite !trace_log, Htr. subst d0. rewrite !trace_log. list_norm. reflexivity.
  - destruct (aligned_writes_facts ws 0 Haw) as (_ & Hq & _).
    cbn [app forallb swaps_or_commits negb andb]. rewrite forallb_app, Hq. reflexivity.
  - rewrite !meta_log, Hm. subst d0. now rewrite !meta_log.
  - now rewrite !log_statics.
Qed.

(** C6 (as amended): a POST whose verification fails is followed by no
    swap, no commit and no change of the metadata: after the writes of the
    upload itself [main] calls only [pfb_firmware_sha256_check] and
    [close], and the metadata record is as it was.  In the GPIO revision
    the server loop then goes on to [socket] and [listen] for the next
    connection, always.  In the flag-union revision it goes on to the next
    test of its loop with [contact] unchanged, so it keeps listening only
    if a page was served before or the window is still open. *)
Theorem failed_verification_stays_in_recovery (c : conn) (k : nat) (d : device) :
  statics_ok d -> sha256_ret c <> 0 ->
  exists d' ws,
    trace d'
    = trace d
      ++ [c_socket; c_listen; c_pfb_initialize_download_slot] ++ ws
      ++ [c_pfb_firmware_sha256_check (PFB_ALIGN_SIZE * Z.of_nat (length ws)); c_close]
    /\ aligned_writes 0 ws
    /\ forallb (fun x => negb (swaps_or_commits x))
         ([c_socket; c_listen; c_pfb_initialize_download_slot] ++ ws
          ++ [c_pfb_firmware_sha256_check (PFB_ALIGN_SIZE * Z.of_nat (length ws)); c_close])
       = true
    /\ meta d' = meta d
    /\ statics_ok d'
    /\ (Gpio.is_post (first c) k ->
        Gpio.serve c d = (d', Listening)
        /\ (forall cs, Gpio.server (c :: cs) d = Gpio.server cs d')
        /\ (forall c', exists rest,
               trace (fst (Gpio.serve c' d')) = trace d' ++ c_socket :: c_listen :: rest))
    /\ (FlagUnion.is_post (first c) k ->
        forall contact,
          FlagUnion.serve c contact d = (d', contact, Listening)
          /\ (forall in_window ts,
                 in_window || contact = true ->
                 FlagUnion.server ((in_window, c) :: ts) contact d
                 = FlagUnion.server ts contact d')
          /\ (forall c' ts,
                 FlagUnion.server ((false, c') :: ts) false d' = (d', Expired))).
Proof.
  intros Hst Hsha. apply Z.eqb_neq in Hsha.
  destruct (failed_upload d c k Hst) as (d1 & ws & Hr & Htr & Haw & Hq & Hm & Hst').
  set (done := PFB_ALIGN_SIZE * Z.of_nat (length ws)) in *.
  exists (log c_close (log (c_pfb_firmware_sha256_check done) d1)), ws.
  do 5 (split; [assumption|]). split.
  - intros Hpost.
    assert (Hserve : Gpio.serve c d
                     = (log c_close (log (c_pfb_firmware_sha256_check done) d1), Listening)).
    { rewrite (Gpio_serve_post c k d Hpost), Hr. cbv zeta. now rewrite Hsha. }
    split; [exact Hserve|]. split.
    + intros cs. cbn [Gpio.server]. now rewrite Hserve.
    + intros c'.
      destruct (Gpio_serve_quiet c' (log c_close (log (c_pfb_firmware_sha256_check done) d1)))
        as (rest & Hrest & _).
      exists rest. exact Hrest.
  - intros Hpost contact.
    assert (Hserve : FlagUnion.serve c contact d
                     = (log c_close (log (c_pfb_firmware_sha256_check done) d1),
                        contact, Listening)).
    { rewrite (FlagUnion_serve_post c k contact d Hpost), Hr. cbv zeta. now rewrite Hsha. }
    split; [exact Hserve|]. split.
    + intros in_window ts Hgo. cbn [FlagUnion.server]. now rewrite Hgo, Hserve.
    + intros c' ts. reflexivity.
Qed.


End RecoveryTheorems.

Section PageTheorem.
Context `{Platform}.

(** C8 (as amended): in the GPIO revision a GET that is not a reboot
    request is answered by sending the array [page_recover] whole, NUL
    included.  That buffer starts with [HTTP/1.1 200 OK]; its
    [Content-Length] header says 983, which is the length of the HTML
    document from [<!DOCTYPE html>] to [</html>]; the buffer goes on for
    five more bytes, CR LF CR LF and the NUL.  In the flag-union revision
    only [GET /recover] is answered, with the bare HTML page: no status
    line and no [Content-Length] header. *)
Theorem recovery_page_response (c : conn) (d : device) :
  (Gpio.is_get (first c) ->
   Gpio.serve c d
   = (log c_close (log c_disconnect
        (log (c_send (sizeof_bytes Gpio.page_recover)) (log c_listen (log c_socket d)))),
      Listening))
  /\ take 15 (sizeof_bytes Gpio.page_recover) = bytes_of_string "HTTP/1.1 200 OK"
  /\ content_length (sizeof_bytes Gpio.page_recover) = Some 983
  /\ length (html_document (payload (sizeof_bytes Gpio.page_recover))) = 983%nat
  /\ take 15 (payload (sizeof_bytes Gpio.page_recover)) = bytes_of_string "<!DOCTYPE html>"
  /\ drop 983 (payload (sizeof_bytes Gpio.page_recover)) = [13; 10; 13; 10; 0]
  /\ (FlagUnion.is_get (first c) ->
      forall contact,
        FlagUnion.serve c contact d
        = (log c_close (log c_disconnect
             (log (c_send (sizeof_bytes FlagUnion.page_recover))
                  (log c_listen (log c_socket d)))),
           true, Listening))
  /\ take 15 (sizeof_bytes FlagUnion.page_recover) = bytes_of_string "<!DOCTYPE html>"
  /\ found (sizeof_bytes FlagUnion.page_recover) "HTTP/1.1" = false
  /\ content_length (sizeof_bytes FlagUnion.page_recover) = None.
Proof.
  split; [apply Gpio_serve_get|].
  do 5 (split; [vm_compute; reflexivity|]).
  split; [intros Hg contact; now apply FlagUnion_serve_get|].
  repeat split; vm_compute; reflexivity.
Qed.

End PageTheorem.

(** ** The theorems at work on the concrete platform *)

Section Concrete.
#[local] Existing Instance pico.

Lemma pico_layout_ok : layout_ok.
Proof. constructor; cbn; lia. Defined.

Lemma pico_info_ok : info_ok.
Proof. constructor; cbn; lia. Defined.

Lemma two_tone_bytes_ok : bytes_ok two_tone.
Proof. intros a. unfold two_tone. destruct (a <? 1069056); lia. Defined.

Lemma device0_statics_ok i : statics_ok (device0 i).
Proof. repeat split; cbn; lia. Defined.

(** C4: with [swap_size] 4352, one sector and one page,
    [swap_images] runs its loop once: the first 4096 bytes are exchanged,
    and the bytes at offsets 4096 to 4351 of each slot, which lie within
    [swap_size], stay where they were.  Rounding up would give two
    sectors. *)
Theorem swap_size_4352_swaps_one_sector :
  _pfb_firmware_swap_size (meta (device0 info_4352)) = 4352
  /\ SWAP_ITERATIONS (device0 info_4352) = 1
  /\ (4352 + FLASH_SECTOR_SIZE - 1) / FLASH_SECTOR_SIZE = 2
  /\ flash (device0 info_4352) (app_offs + 4095) = 0xAA
  /\ flash (swap_images (device0 info_4352)) (app_offs + 4095) = 0x55
  /\ flash (device0 info_4352) (app_offs + 4096) = 0xAA
  /\ flash (swap_images (device0 info_4352)) (app_offs + 4096) = 0xAA
  /\ flash (swap_images (device0 info_4352)) (app_offs + 4351) = 0xAA
  /\ flash (device0 info_4352) (download_offs + 4096) = 0x55
  /\ flash (swap_images (device0 info_4352)) (download_offs + 4096) = 0x55.
Proof. repeat split; vm_compute; reflexivity. Qed.

(** The same from the network side, in the GPIO revision: a verified upload
    of 4352 bytes is recorded with that size and swapped in, yet APP ends
    up with the first 4096 bytes of it only; byte 4096 of the image stays
    in the download slot and APP keeps its old byte there. *)
Lemma verified_upload_loses_last_page :
  snd (Gpio.serve upload_4352 (device0 info_idle)) = HandOff
  /\ swap_size (meta (fst (Gpio.serve upload_4352 (device0 info_idle)))) = 4352
  /\ nth 4095 (body_of 2000 ++ body_of 2352) 0 = 48
  /\ flash (fst (Gpio.serve upload_4352 (device0 info_idle))) (app_offs + 4095) = 48
  /\ nth 4096 (body_of 2000 ++ body_of 2352) 0 = 49
  /\ flash (fst (Gpio.serve upload_4352 (device0 info_idle))) (app_offs + 4096) = 0xAA
  /\ flash (fst (Gpio.serve upload_4352 (device0 info_idle))) (download_offs + 4096) = 49.
Proof. repeat split; vm_compute; reflexivity. Qed.

(** C1, counterexample: in the flag-union revision, a reset with
    [should_rollback] set enters Recovery and, nobody connecting before the
    window runs out (two passes of the loop without a connection, then the
    test fails), goes on to Rollback: two actions in one boot. *)
Lemma flag_union_recovery_then_rollback :
  FlagUnion.recovery_trigger (meta (device0 info_armed)) = true
  /\ snd (FlagUnion.main [(true, idle); (true, idle); (false, idle)] (device0 info_armed))
     = HandOff
  /\ entered (trace (fst (FlagUnion.main [(true, idle); (true, idle); (false, idle)]
                            (device0 info_armed))))
     = [Recovery; Rollback].
Proof. repeat split; vm_compute; reflexivity. Qed.


(** C6, counterexample: in the flag-union revision, a failed upload that
    outlasts the window, with no page served before, ends the server loop:
    [main] goes on to the rollback branch, swaps the slots, rewrites the
    flags and hands off. *)
Lemma flag_union_failed_upload_leaves_recovery :
  sha256_ret upload_bad <> 0
  /\ snd (FlagUnion.main [(true, upload_bad); (false, idle)] (device0 info_armed)) = HandOff
  /\ existsb is_swap_images
       (trace (fst (FlagUnion.main [(true, upload_bad); (false, idle)] (device0 info_armed))))
     = true
  /\ entered
       (trace (fst (FlagUnion.main [(true, upload_bad); (false, idle)] (device0 info_armed))))
     = [Recovery; Rollback]
  /\ meta (fst (FlagUnion.main [(true, upload_bad); (false, idle)] (device0 info_armed)))
     = Info false true false false 4096.
Proof. split; [discriminate|]. repeat split; vm_compute; reflexivity. Qed.

(** C7, counterexample: of a 300-byte body only the first 256 bytes are
    written; verification is called with 256; the other 44 bytes stay in
    the upload buffer. *)
Lemma partial_buffer_dropped :
  length (body_of 300) = 300%nat
  /\ trace (fst (Gpio.serve upload_bad (device0 info_idle)))
     = [c_socket; c_listen; c_pfb_initialize_download_slot;
        c_pfb_write_to_flash_aligned_256_bytes (take 256 (body_of 300)) 0 256;
        c_pfb_firmware_sha256_check 256; c_close]
  /\ upload_pos (fst (Gpio.serve upload_bad (device0 info_idle))) = 44
  /\ take 44 (upload_buffer (fst (Gpio.serve upload_bad (device0 info_idle))))
     = drop 256 (body_of 300).
Proof. repeat split; vm_compute; reflexivity. Qed.

(** C8, counterexample: the flag-union revision answers [GET /recover] with
    a buffer that starts with [<!DOCTYPE html>], not with a status line, and
    has no [Content-Length]; and in the GPIO revision 988 bytes follow the
    header terminator while [Content-Length] says 983. *)
Lemma plain_page_without_status_line :
  trace (fst (fst (FlagUnion.serve get_recover false (device0 info_idle))))
  = [c_socket; c_listen; c_send (sizeof_bytes FlagUnion.page_recover);
     c_disconnect; c_close]
  /\ take 15 (sizeof_bytes FlagUnion.page_recover) <> bytes_of_string "HTTP/1.1 200 OK"
  /\ content_length (sizeof_bytes FlagUnion.page_recover) = None
  /\ content_length (sizeof_bytes Gpio.page_recover) = Some 983
  /\ length (payload (sizeof_bytes Gpio.page_recover)) = 988%nat.
Proof.
  split; [vm_compute; reflexivity|]. split; [intros E; vm_compute in E; discriminate|].
  repeat split; vm_compute; reflexivity.
Qed.

Lemma upload_is_post : Gpio.is_post (first upload_ok) 21 /\ Gpio.is_post (first upload_bad) 21.
Proof. repeat split; vm_compute; reflexivity. Defined.

Lemma upload_is_post_flag_union :
  FlagUnion.is_post (first upload_ok) 21 /\ FlagUnion.is_post (first upload_bad) 21.
Proof. repeat split; vm_compute; reflexivity. Defined.

Lemma swap_twice_restores_witness :
  layout_ok /\ bytes_ok (flash (device0 info_staged))
  /\ forall a, flash (swap_images (swap_images (device0 info_staged))) a = two_tone a.
Proof.
  split; [exact pico_layout_ok|]. split; [exact two_tone_bytes_ok|].
  exact (proj2 (swap_twice_restores (device0 info_staged)
                  pico_layout_ok two_tone_bytes_ok)).
Defined.

Lemma swap_images_frame_witness :
  layout_ok
  /\ meta (swap_images (device0 info_4352)) = info_4352
  /\ flash (swap_images (device0 info_4352)) (app_offs + 4096) = two_tone (app_offs + 4096).
Proof.
  split; [exact pico_layout_ok|].
  destruct (swap_images_frame (device0 info_4352) pico_layout_ok) as (Hfar & Hm & _).
  split; [exact Hm|].
  apply (Hfar 4096). vm_compute. split; [discriminate | reflexivity].
Defined.

Lemma swap_and_arm_witness :
  Gpio.recovery_trigger released released = false
  /\ _pfb_should_rollback (meta (device0 info_staged)) = false
  /\ _pfb_has_firmware_to_swap (meta (device0 info_staged)) = true
  /\ snd (Gpio.main released released [] (device0 info_staged)) = HandOff
  /\ should_rollback (meta (fst (Gpio.main released released [] (device0 info_staged))))
     = true.
Proof.
  do 3 (split; [reflexivity|]).
  pose proof (swap_and_arm (device0 info_staged) released released []
                eq_refl eq_refl eq_refl) as W.
  cbv zeta in W. destruct W as (H1 & _ & _ & _ & _ & H6 & _).
  split; assumption.
Defined.


Lemma failed_verification_stays_in_recovery_witness :
  statics_ok (device0 info_idle) /\ sha256_ret upload_bad <> 0
  /\ Gpio.is_post (first upload_bad) 21
  /\ exists d', Gpio.serve upload_bad (device0 info_idle) = (d', Listening)
                /\ meta d' = info_idle.
Proof.
  split; [apply device0_statics_ok|].
  assert (Hsha : sha256_ret upload_bad <> 0) by discriminate.
  split; [exact Hsha|]. split; [exact (proj2 upload_is_post)|].
  destruct (failed_verification_stays_in_recovery upload_bad 21 (device0 info_idle)
              (device0_statics_ok info_idle) Hsha)
    as (d' & ws & _ & _ & _ & Hm & _ & Hg & _).
  exists d'. split; [exact (proj1 (Hg (proj2 upload_is_post))) | exact Hm].
Defined.

Lemma partial_buffer_stays_unwritten_witness :
  statics_ok (device0 info_idle) /\ upload_pos (device0 info_idle) = 0
  /\ exists d1,
       post_upload upload_bad 21 (log c_listen (log c_socket (device0 info_idle)))
       = Some (d1, 256)
       /\ upload_pos d1 = 44.
Proof.
  split; [apply device0_statics_ok|]. split; [reflexivity|].
  destruct (partial_buffer_stays_unwritten upload_bad 21 (device0 info_idle)
              (device0_statics_ok info_idle) eq_refl)
    as (d1 & ws & Hup & _ & _ & _ & Hpos & _).
  exists d1. split; [exact Hup | exact Hpos].
Defined.


Lemma recovery_page_response_witness :
  Gpio.is_get (first get_root)
  /\ snd (Gpio.serve get_root (device0 info_idle)) = Listening
  /\ trace (fst (Gpio.serve get_root (device0 info_idle)))
     = [c_socket; c_listen; c_send (sizeof_bytes Gpio.page_recover);
        c_disconnect; c_close].
Proof.
  assert (Hg : Gpio.is_get (first get_root)) by (split; vm_compute; reflexivity).
  split; [exact Hg|].
  rewrite (proj1 (recovery_page_response get_root (device0 info_idle)) Hg).
  split; reflexivity.
Defined.

End Concrete.

Ltac range_cases :=
  repeat match goal with
  | |- context [in_range ?o ?n ?a] =>
      let E := fresh "E" in
      destruct (in_range o n a) eqn:E;
      [apply in_range_true in E | apply in_range_false in E]
  end.

(** ** The swap engine: contract, calls and repetition *)

Section SwapExtras.
Context `{Platform}.

(** X1: the contract of the swap.  After [swap_images], for every sector
    [i] below [SWAP_ITERATIONS] and every offset within the sector, the
    byte of APP is the one DOWNLOAD had and the byte of DOWNLOAD is the one
    APP had; the flash still holds bytes. *)
Theorem swap_images_exchanges_sectors (d : device) :
  layout_ok -> bytes_ok (flash d) ->
  bytes_ok (flash (swap_images d))
  /\ forall i offs,
       0 <= i < SWAP_ITERATIONS d -> 0 <= offs < FLASH_SECTOR_SIZE ->
       flash (swap_images d) (app_offs + i * FLASH_SECTOR_SIZE + offs)
       = flash d (download_offs + i * FLASH_SECTOR_SIZE + offs)
       /\ flash (swap_images d) (download_offs + i * FLASH_SECTOR_SIZE + offs)
          = flash d (app_offs + i * FLASH_SECTOR_SIZE + offs).
Proof.
  intros L Hb. destruct (SWAP_ITERATIONS_bounds d L) as [Hn Hfit]. split.
  - intros a. rewrite swap_images_flash by assumption. unfold exchanged.
    destruct (in_range _ _ _); [apply Hb|]. destruct (in_range _ _ _); apply Hb.
  - intros i offs Hi Hoffs. rewrite !swap_images_flash by assumption.
    assert (HS := sector_pos L). destruct L. unfold exchanged, app_offs, download_offs.
    rewrite Z.sub_0_r, Z.mul_0_l, !Z.add_0_r.
    assert (i * FLASH_SECTOR_SIZE + FLASH_SECTOR_SIZE
            <= SWAP_ITERATIONS d * FLASH_SECTOR_SIZE) by nia.
    assert (0 <= i * FLASH_SECTOR_SIZE) by nia.
    split; range_cases; try lia; f_equal; lia.
Qed.

Lemma memcpy_slot m base i :
  layout_ok -> 0 <= i -> (i + 1) * FLASH_SECTOR_SIZE <= __FLASH_SWAP_SPACE_LENGTH ->
  XIP_BASE <= base -> base + __FLASH_SWAP_SPACE_LENGTH < 2 ^ 32 ->
  memcpy m (base + i * FLASH_SECTOR_SIZE) FLASH_SECTOR_SIZE
  = map (fun k => m (base - XIP_BASE + i * FLASH_SECTOR_SIZE + Z.of_nat k))
        (seq 0 (Z.to_nat FLASH_SECTOR_SIZE)).
Proof.
  intros L Hi Hfit Hb Hf. destruct L. unfold memcpy. apply map_ext_in.
  intros k Hk. apply in_seq in Hk.
  assert (0 <= i * FLASH_SECTOR_SIZE) by nia.
  rewrite u32_small by lia. f_equal. lia.
Qed.

Lemma swap_sector_calls i d :
  layout_ok -> 0 <= i -> (i + 1) * FLASH_SECTOR_SIZE <= __FLASH_SWAP_SPACE_LENGTH ->
  trace (swap_sector i d) = trace d ++ sector_calls (flash d) i.
Proof.
  intros L Hi Hfit.
  destruct (sector_offsets i L Hi Hfit) as (E1 & E2 & E3 & E4).
  destruct d as [mi m buf pos tr]. unfold swap_sector.
  rewrite E1, E2, E3, E4.
  rewrite (memcpy_slot m __FLASH_DOWNLOAD_SLOT_START i L Hi Hfit)
    by (destruct L; lia).
  rewrite (memcpy_slot m __FLASH_APP_START i L Hi Hfit) by (destruct L; lia).
  cbn [trace flash flash_range_program flash_range_erase log set_flash].
  rewrite <- !app_assoc. reflexivity.
Qed.

Lemma sector_calls_frame i j d :
  layout_ok -> 0 <= i < j -> (j + 1) * FLASH_SECTOR_SIZE <= __FLASH_SWAP_SPACE_LENGTH ->
  sector_calls (flash (swap_sector i d)) j = sector_calls (flash d) j.
Proof.
  intros L Hij Hfit. assert (HS := sector_pos L).
  assert (Hfit1 : (i + 1) * FLASH_SECTOR_SIZE <= __FLASH_SWAP_SPACE_LENGTH) by nia.
  assert (Hout : forall k, In k (seq 0 (Z.to_nat FLASH_SECTOR_SIZE)) ->
                 flash (swap_sector i d) (download_offs + j * FLASH_SECTOR_SIZE + Z.of_nat k)
                 = flash d (download_offs + j * FLASH_SECTOR_SIZE + Z.of_nat k)
                 /\ flash (swap_sector i d) (app_offs + j * FLASH_SECTOR_SIZE + Z.of_nat k)
                    = flash d (app_offs + j * FLASH_SECTOR_SIZE + Z.of_nat k)).
  { intros k Hk. apply in_seq in Hk.
    split; apply swap_sector_frame; try assumption; try lia;
      apply orb_false_iff; destruct L; unfold app_offs, download_offs;
      split; apply in_range_false; nia. }
  unfold sector_calls. do 2 f_equal.
  f_equal; [f_equal; apply map_ext_in; intros k Hk; apply (Hout k Hk)|].
  f_equal. f_equal. apply map_ext_in; intros k Hk; apply (Hout k Hk).
Qed.

Lemma swap_loop_sector_calls n : forall i d,
  layout_ok -> 0 <= i ->
  (i + Z.of_nat n) * FLASH_SECTOR_SIZE <= __FLASH_SWAP_SPACE_LENGTH ->
  trace (swap_loop n i d)
  = trace d ++ concat (map (sector_calls (flash d)) (seqZ i (Z.of_nat n))).
Proof.
  induction n as [|n IH]; intros i d L Hi Hfit.
  - cbn. now rewrite app_nil_r.
  - assert (HS := sector_pos L).
    assert (Hu : u32 (i + 1) = i + 1) by (apply u32_small; destruct L; nia).
    assert (Hfit1 : (i + 1) * FLASH_SECTOR_SIZE <= __FLASH_SWAP_SPACE_LENGTH) by nia.
    cbn [swap_loop]. rewrite Hu, IH; try assumption; try lia.
    rewrite swap_sector_calls by assumption.
    rewrite (seqZ_cons i (Z.of_nat (S n))) by lia.
    replace (Z.pred (Z.of_nat (S n))) with (Z.of_nat n) by lia.
    replace (Z.succ i) with (i + 1) by lia.
    rewrite map_cons, concat_cons, <- app_assoc. do 2 f_equal.
    f_equal. apply map_ext_in. intros j Hj.
    apply list_elem_of_In, elem_of_seqZ in Hj.
    apply sector_calls_frame; try assumption; try lia. nia.
Qed.


Lemma swap_sector_flash_ext i d d' :
  flash d = flash d' -> flash (swap_sector i d) = flash (swap_sector i d').
Proof.
  destruct d as [i1 m1 b1 p1 t1], d' as [i2 m2 b2 p2 t2]. cbn [flash].
  intros ->. reflexivity.
Qed.

Lemma swap_loop_flash_ext n : forall i d d',
  flash d = flash d' -> flash (swap_loop n i d) = flash (swap_loop n i d').
Proof.
  induction n as [|n IH]; intros i d d' E; [exact E|].
  cbn [swap_loop]. apply IH. now apply swap_sector_flash_ext.
Qed.

(** What [swap_images] does to the flash depends on the flash and the
    persisted [swap_size] it finds, not on the rest of the state. *)
Lemma swap_images_flash_ext d d' :
  flash d = flash d' -> swap_size (meta d) = swap_size (meta d') ->
  flash (swap_images d) = flash (swap_images d').
Proof.
  intros Ef Em. unfold swap_images, SWAP_ITERATIONS, _pfb_firmware_swap_size.
  rewrite Em, !flash_log. apply swap_loop_flash_ext. now rewrite !flash_log.
Qed.

Lemma swap_images_times_spec k : forall d,
  layout_ok -> bytes_ok (flash d) ->
  bytes_ok (flash (swap_images_times k d))
  /\ meta (swap_images_times k d) = meta d
  /\ forall a, flash (swap_images_times k d) a
               = if Nat.even k then flash d a
                 else exchanged 0 (SWAP_ITERATIONS d) (flash d) a.
Proof.
  induction k as [|k IH]; intros d L Hb; [cbn; split; [exact Hb|split; reflexivity]|].
  destruct (SWAP_ITERATIONS_bounds d L) as [Hn Hfit].
  assert (Hb1 : bytes_ok (flash (swap_images d))).
  { intros x. rewrite swap_images_flash by assumption. unfold exchanged.
    destruct (in_range _ _ _); [apply Hb|]. destruct (in_range _ _ _); apply Hb. }
  assert (Hsame : SWAP_ITERATIONS (swap_images d) = SWAP_ITERATIONS d).
  { unfold SWAP_ITERATIONS. now rewrite meta_swap_images. }
  cbn [swap_images_times]. destruct (IH (swap_images d) L Hb1) as (Hb2 & Hm & Hf).
  split; [exact Hb2|]. split; [now rewrite Hm, meta_swap_images|].
  intros a. rewrite Hf, Hsame, Nat.even_succ, <- Nat.negb_even.
  destruct (Nat.even k); cbn [negb].
  - now apply swap_images_flash.
  - unfold exchanged at 1. rewrite !swap_images_flash by assumption.
    apply (exchanged_twice 0 (SWAP_ITERATIONS d) (flash d) a L); lia.
Qed.

(** X3: however often [swap_images] is called in a row, each image is
    whole in one slot: after an even number of calls every byte of the
    flash is where it was, after an odd number the first [SWAP_ITERATIONS]
    sectors of APP hold what DOWNLOAD held and the other way round; the
    metadata are as before. *)
Theorem swap_images_repeated (k : nat) (d : device) :
  layout_ok -> bytes_ok (flash d) ->
  (Nat.even k = true -> forall a, flash (swap_images_times k d) a = flash d a)
  /\ (Nat.even k = false ->
      forall offs,
        0 <= offs < SWAP_ITERATIONS d * FLASH_SECTOR_SIZE ->
        flash (swap_images_times k d) (app_offs + offs) = flash d (download_offs + offs)
        /\ flash (swap_images_times k d) (download_offs + offs) = flash d (app_offs + offs))
  /\ meta (swap_images_times k d) = meta d.
Proof.
  intros L Hb. destruct (SWAP_ITERATIONS_bounds d L) as [Hn Hfit].
  destruct (swap_images_times_spec k d L Hb) as (_ & Hm & Hf).
  split; [|split; [|exact Hm]].
  - intros He a. now rewrite Hf, He.
  - intros He offs Hoffs. rewrite !Hf, He.
    destruct L. unfold exchanged, app_offs, download_offs.
    rewrite Z.sub_0_r, Z.mul_0_l, !Z.add_0_r.
    split; range_cases; try lia; f_equal; lia.
Qed.

End SwapExtras.

(** ** The tail of [main]: rollback, pass-through and what follows *)

Section BootExtras.
Context `{Platform}.

Lemma boot_meta d :
  meta (fst (boot d))
  = if _pfb_should_rollback (meta d)
    then Info false true false false (swap_size (meta d))
    else if _pfb_has_firmware_to_swap (meta d)
         then Info true false true false (swap_size (meta d))
         else Info false (after_rollback (meta d)) false false (swap_size (meta d)).
Proof.
  unfold boot. cbn [fst].
  destruct (_pfb_should_rollback (meta d)); [|destruct (_pfb_has_firmware_to_swap (meta d))];
    autorewrite with dev; reflexivity.
Qed.

Lemma boot_flash d :
  flash (fst (boot d))
  = if _pfb_should_rollback (meta d) || _pfb_has_firmware_to_swap (meta d)
    then flash (swap_images d) else flash d.
Proof.
  unfold boot. cbn [fst].
  destruct (_pfb_should_rollback (meta d)); [|destruct (_pfb_has_firmware_to_swap (meta d))];
    cbn [orb]; autorewrite with dev; try reflexivity;
    apply swap_images_flash_ext; autorewrite with dev; reflexivity.
Qed.

(** X4: the rollback branch.  With [should_rollback] set, the tail of
    [main] calls [swap_images], commits, marks the firmware not new, marks
    the boot as after a rollback, invalidates the download slot and hands
    off, in this order; the flash is what [swap_images] leaves; and the
    reset after that passes through. *)
Theorem rollback_branch (d : device) :
  _pfb_should_rollback (meta d) = true ->
  snd (boot d) = HandOff
  /\ (exists ops,
        trace (fst (boot d))
        = trace d
          ++ enter Rollback :: c_swap_images :: c_save_and_disable_interrupts :: ops
          ++ [c_restore_interrupts; c_pfb_firmware_commit;
              c_mark_pico_has_no_new_firmware; c_mark_is_after_rollback;
              c_pfb_mark_download_slot_as_invalid;
              c_disable_interrupts; c_reset_peripherals; c_jump_to_vtor]
        /\ forallb is_flash_op ops = true)
  /\ flash (fst (boot d)) = flash (swap_images d)
  /\ meta (fst (boot d)) = Info false true false false (swap_size (meta d))
  /\ boot_action false (meta (fst (boot d))) = Passthrough.
Proof.
  intros Hsr. split; [reflexivity|]. split; [|split; [|split]].
  - unfold boot. rewrite Hsr. cbn [fst].
    destruct (swap_images_calls (log (enter Rollback) d)) as (ops & Htr & Hok).
    exists ops. split; [|exact Hok].
    autorewrite with dev. rewrite Htr. autorewrite with dev. list_norm. reflexivity.
  - now rewrite boot_flash, Hsr.
  - now rewrite boot_meta, Hsr.
  - now rewrite boot_meta, Hsr.
Qed.

(** X5: an update that is never committed is undone.  From a state with a
    firmware to swap, two resets without recovery trigger and without a
    commit in between first swap and arm, then roll back: every byte of the
    flash is back where it was, [after_rollback] is set, [should_rollback]
    and [has_new_firmware] are clear, and the third reset passes through. *)
Theorem uncommitted_update_is_undone (d : device) :
  layout_ok -> bytes_ok (flash d) ->
  _pfb_should_rollback (meta d) = false ->
  _pfb_has_firmware_to_swap (meta d) = true ->
  let d1 := fst (boot d) in
  let d2 := fst (boot d1) in
  (forall offs, 0 <= offs < SWAP_ITERATIONS d * FLASH_SECTOR_SIZE ->
                flash d1 (app_offs + offs) = flash d (download_offs + offs))
  /\ (forall a, flash d2 a = flash d a)
  /\ entered (trace d2) = entered (trace d) ++ [SwapAndArm; Rollback]
  /\ meta d2 = Info false true false false (swap_size (meta d))
  /\ boot_action false (meta d2) = Passthrough.
Proof.
  intros L Hb Hsr Hfw d1 d2.
  assert (Hm1 : meta d1 = Info true false true false (swap_size (meta d)))
    by (subst d1; now rewrite boot_meta, Hsr, Hfw).
  assert (Hf1 : flash d1 = flash (swap_images d))
    by (subst d1; now rewrite boot_flash, Hsr, Hfw).
  assert (Hm2 : meta d2 = Info false true false false (swap_size (meta d)))
    by (subst d2; now rewrite boot_meta, Hm1).
  assert (Hf2 : flash d2 = flash (swap_images (swap_images d))).
  { subst d2. rewrite boot_flash, Hm1. cbn [_pfb_should_rollback should_rollback orb].
    apply swap_images_flash_ext; [exact Hf1|].
    now rewrite Hm1, meta_swap_images. }
  split; [|split; [|split; [|split]]].
  - intros offs Hoffs. rewrite Hf1.
    destruct (SWAP_ITERATIONS_bounds d L) as [Hn Hfit].
    rewrite swap_images_flash by assumption.
    destruct L. unfold exchanged, app_offs, download_offs.
    rewrite Z.sub_0_r, Z.mul_0_l, !Z.add_0_r.
    range_cases; try lia; f_equal; lia.
  - intros a. rewrite Hf2.
    destruct (swap_images_times_spec 2 d L Hb) as (_ & _ & Hf). exact (Hf a).
  - subst d2. destruct (boot_spec d1) as [_ ->]. subst d1.
    destruct (boot_spec d) as [_ ->]. rewrite <- app_assoc.
    rewrite boot_meta, Hsr, Hfw. unfold boot_action. now rewrite Hsr, Hfw.
  - exact Hm2.
  - now rewrite Hm2.
Qed.

(** X6: the tail of [main] always leaves the download slot invalid, so it
    never swaps and arms twice in a row; whatever the flags were, after two
    runs of the tail the next one passes through unless the application
    stages a new firmware in between, and a pass-through is followed by a
    pass-through. *)
Theorem boot_settles (d : device) :
  download_slot_valid (meta (fst (boot d))) = false
  /\ boot_action false (meta (fst (boot d))) <> SwapAndArm
  /\ boot_action false (meta (fst (boot (fst (boot d))))) = Passthrough
  /\ (boot_action false (meta d) = Passthrough ->
      boot_action false (meta (fst (boot d))) = Passthrough).
Proof.
  assert (Hv : forall x, download_slot_valid (meta (fst (boot x))) = false).
  { intros x. rewrite boot_meta.
    destruct (_pfb_should_rollback (meta x)); [|destruct (_pfb_has_firmware_to_swap (meta x))];
      reflexivity. }
  split; [apply Hv|]. split; [|split].
  - unfold boot_action, _pfb_has_firmware_to_swap. rewrite Hv.
    destruct (_pfb_should_rollback _); discriminate.
  - rewrite (boot_meta (fst (boot d))), (boot_meta d).
    destruct (_pfb_should_rollback (meta d)); [|destruct (_pfb_has_firmware_to_swap (meta d))];
      reflexivity.
  - unfold boot_action. rewrite boot_meta.
    destruct (_pfb_should_rollback (meta d)); [discriminate|].
    destruct (_pfb_has_firmware_to_swap (meta d)); [discriminate|]. reflexivity.
Qed.

(** X7: the pass-through branch.  With neither flag set, the tail of [main]
    touches no flash byte and makes no flash call: it commits, marks the
    firmware not new, invalidates the download slot and hands off.
    [after_rollback] is left as it was, so in the flag-union revision a
    device that once rolled back has its recovery trigger set at every
    later reset that passes through. *)
Theorem passthrough_branch (d : device) :
  _pfb_should_rollback (meta d) = false ->
  _pfb_has_firmware_to_swap (meta d) = false ->
  snd (boot d) = HandOff
  /\ trace (fst (boot d))
     = trace d
       ++ [enter Passthrough; c_pfb_firmware_commit; c_mark_pico_has_no_new_firmware;
           c_pfb_mark_download_slot_as_invalid;
           c_disable_interrupts; c_reset_peripherals; c_jump_to_vtor]
  /\ flash (fst (boot d)) = flash d
  /\ meta (fst (boot d))
     = Info false (after_rollback (meta d)) false false (swap_size (meta d))
  /\ (after_rollback (meta d) = true ->
      FlagUnion.recovery_trigger (meta (fst (boot d))) = true
      /\ _pfb_should_rollback (meta (fst (boot d))) = false
      /\ _pfb_has_firmware_to_swap (meta (fst (boot d))) = false
      /\ after_rollback (meta (fst (boot d))) = true).
Proof.
  intros Hsr Hfw. split; [reflexivity|]. split; [|split; [|split]].
  - unfold boot. rewrite Hsr, Hfw. cbn [fst]. autorewrite with dev. list_norm.
    reflexivity.
  - now rewrite boot_flash, Hsr, Hfw.
  - now rewrite boot_meta, Hsr, Hfw.
  - intros Har. rewrite boot_meta, Hsr, Hfw, Har. now repeat split.
Qed.

End BootExtras.


(** ** The recovery triggers *)

Section TriggerExtras.
Context `{Platform}.

(** X23: the GPIO trigger is sampled twice.  Recovery is entered exactly
    when pin 0 or pin 8 reads low right after reset and again after the
    ten blinks; a pin low at one sample only, like no pin low, leads to
    the tail of [main] just as if no connection could ever arrive, and
    the metadata have no say in it. *)
Theorem recovery_needs_button_at_both_samples
    (at_reset after_blink : Gpio.pins) (cs : list conn) (d : device) :
  (Gpio.recovery_trigger at_reset after_blink = true
   <-> (Gpio.gpio0 at_reset = false \/ Gpio.gpio8 at_reset = false)
       /\ (Gpio.gpio0 after_blink = false \/ Gpio.gpio8 after_blink = false))
  /\ (Gpio.recovery_trigger at_reset after_blink = false ->
      Gpio.main at_reset after_blink cs d = boot d)
  /\ (Gpio.recovery_trigger at_reset after_blink = true ->
      snd (Gpio.main at_reset after_blink cs d) <> Expired
      /\ In (enter Recovery) (trace (fst (Gpio.main at_reset after_blink cs d)))).
Proof.
  split; [|split].
  - destruct at_reset as [[] []], after_blink as [[] []]; cbn; intuition discriminate.
  - intros Ht. unfold Gpio.main. now rewrite Ht.
  - intros Ht. unfold Gpio.main. rewrite Ht.
    destruct (Gpio_server_quiet cs (log (enter Recovery) d)) as (rest & Htr & _ & Hx).
    split; [exact Hx|]. rewrite Htr. autorewrite with dev.
    apply in_or_app. left. apply in_or_app. right. now left.
Qed.

(** X24: in the flag-union revision the tail of [main] decides whether
    the next run opens the recovery window: it does exactly when this run
    swapped the slots, for an update or for a rollback, or found the
    rollback mark already set.  So every update is followed by a window
    before it can be rolled back, and a pass-through of a committed
    firmware is followed by a run without a window. *)
Theorem next_window_follows_a_swap (d : device) :
  FlagUnion.recovery_trigger (meta (fst (boot d)))
  = _pfb_should_rollback (meta d) || _pfb_has_firmware_to_swap (meta d)
    || pfb_is_after_rollback (meta d).
Proof.
  rewrite boot_meta. unfold FlagUnion.recovery_trigger.
  destruct (_pfb_should_rollback (meta d)); [reflexivity|].
  destruct (_pfb_has_firmware_to_swap (meta d)); [reflexivity|].
  unfold pfb_is_after_rollback. cbn. now destruct (after_rollback (meta d)).
Qed.

End TriggerExtras.

(** ** The recovery server: what a session keeps *)

Section ServerExtras.
Context `{Platform}.

Lemma upload_loop_uploads fuel : forall data pending done d d' done',
  upload_loop fuel data pending done d = Some (d', done') ->
  exists ws, trace d' = trace d ++ ws /\ forallb uploads ws = true /\ meta d' = meta d.
Proof.
  induction fuel as [|fuel IH]; intros data pending done d d' done' Hr;
    destruct data as [|b data];
    try (inversion Hr; subst; exists []; now rewrite app_nil_r);
    try discriminate.
  cbn [upload_loop] in Hr.
  destruct (fill (b :: data) (upload_buffer d) (upload_pos d)) as [[rest buf1] pos1].
  destruct (pos1 =? PFB_ALIGN_SIZE);
    destruct (poll rest pending) as [data' pending'];
    apply IH in Hr as (ws & Htr & He & Hm).
  - rewrite trace_set_upload, trace_write in Htr.
    rewrite meta_set_upload, meta_write in Hm.
    eexists. split; [rewrite Htr, <- app_assoc; reflexivity|]. split; [|exact Hm].
    cbn [app forallb uploads andb]. exact He.
  - rewrite trace_set_upload in Htr. rewrite meta_set_upload in Hm.
    exists ws. auto.
Qed.

Lemma post_upload_uploads c k d d' done :
  post_upload c k d = Some (d', done) ->
  exists ws, trace d' = trace d ++ ws /\ forallb uploads ws = true /\ meta d' = meta d.
Proof.
  unfold post_upload. intros Hr.
  apply upload_loop_uploads in Hr as (ws & Htr & He & Hm).
  rewrite trace_initialize in Htr. rewrite meta_initialize in Hm.
  eexists. split; [rewrite Htr, <- app_assoc; reflexivity|]. split; [|exact Hm].
  cbn [app forallb uploads andb]. exact He.
Qed.

Lemma uploads_harmless ws : forallb uploads ws = true -> forallb harmless ws = true.
Proof.
  induction ws as [|w ws IH]; [reflexivity|]. cbn [forallb]. intros Hw.
  apply andb_true_iff in Hw as [Hw Hws]. unfold harmless at 1.
  rewrite Hw, orb_true_r. now apply IH.
Qed.

Lemma Gpio_serve_safe c d :
  (sha256_ret c <> 0 -> snd (Gpio.serve c d) <> HandOff)
  /\ (snd (Gpio.serve c d) <> HandOff ->
      meta (fst (Gpio.serve c d)) = meta d
      /\ exists rest, trace (fst (Gpio.serve c d)) = trace d ++ rest
                      /\ forallb harmless rest = true).
Proof.
  unfold Gpio.serve. destruct (first c) as [|b l] eqn:E.
  { cbn [fst snd]. split; [discriminate|]. intros _. autorewrite with dev.
    split; [reflexivity|]. eexists. list_norm. split; reflexivity. }
  cbv zeta.
  destruct (found (b :: l) "GET" || found (b :: l) "get").
  { destruct (found (b :: l) "REBOOT" || found (b :: l) "reboot"); cbn [fst snd];
      (split; [discriminate|]); intros _; autorewrite with dev;
      (split; [reflexivity|]); eexists; list_norm; split; reflexivity. }
  destruct (found (b :: l) "POST" || found (b :: l) "post").
  2:{ cbn [fst snd]. split; [discriminate|]. intros _. autorewrite with dev.
      split; [reflexivity|]. eexists. list_norm. split; reflexivity. }
  destruct (strstr (b :: l) crlfcrlf) as [k|].
  2:{ cbn [fst snd]. split; [discriminate|]. intros _. autorewrite with dev.
      split; [reflexivity|]. eexists. list_norm. split; reflexivity. }
  destruct (post_upload c k (log c_listen (log c_socket d))) as [[d1 done]|] eqn:Hp.
  2:{ cbn [fst snd]. split; [discriminate|]. intros _. autorewrite with dev.
      split; [reflexivity|]. eexists. list_norm. split; reflexivity. }
  apply post_upload_uploads in Hp as (ws & Htr & He & Hm).
  autorewrite with dev in Htr, Hm.
  destruct (sha256_ret c =? 0) eqn:Es; cbn [fst snd].
  - apply Z.eqb_eq in Es. split; [intros Hne; contradiction|]. intros Hh. congruence.
  - split; [discriminate|]. intros _. autorewrite with dev. split; [exact Hm|].
    rewrite Htr. list_norm. eexists. split; [reflexivity|].
    cbn [forallb harmless mutates uploads negb orb andb].
    rewrite forallb_app, (uploads_harmless ws He). reflexivity.
Qed.


End ServerExtras.

(** ** The upload statics across sessions *)

Section StaticsExtras.
Context `{Platform}.

Lemma statics_same d d' :
  upload_pos d' = upload_pos d -> upload_buffer d' = upload_buffer d ->
  statics_ok d -> statics_ok d'.
Proof. unfold statics_ok. intros -> ->. auto. Qed.

Lemma boot_upload_statics d :
  upload_pos (fst (boot d)) = upload_pos d
  /\ upload_buffer (fst (boot d)) = upload_buffer d.
Proof.
  unfold boot.
  destruct (_pfb_should_rollback (meta d)); [|destruct (_pfb_has_firmware_to_swap (meta d))];
    cbn [fst]; autorewrite with dev; auto.
Qed.

Lemma Gpio_serve_statics c d :
  statics_ok d ->
  statics_ok (fst (Gpio.serve c d)) /\ snd (Gpio.serve c d) <> Stuck.
Proof.
  intros Hs. unfold Gpio.serve. destruct (first c) as [|b l] eqn:E.
  { cbn [fst snd]. split; [now rewrite !log_statics | discriminate]. }
  cbv zeta.
  destruct (found (b :: l) "GET" || found (b :: l) "get").
  { destruct (found (b :: l) "REBOOT" || found (b :: l) "reboot"); cbn [fst snd];
      (split; [now rewrite !log_statics | discriminate]). }
  destruct (found (b :: l) "POST" || found (b :: l) "post").
  2:{ cbn [fst snd]. split; [now rewrite !log_statics | discriminate]. }
  destruct (strstr (b :: l) crlfcrlf) as [k|].
  2:{ cbn [fst snd]. split; [now rewrite !log_statics | discriminate]. }
  destruct (post_upload_spec c k (log c_listen (log c_socket d)))
    as (d' & ws & Hp & _ & _ & _ & Hs' & _); [now rewrite !log_statics|].
  rewrite Hp. destruct (sha256_ret c =? 0); cbn [fst snd].
  - split; [|discriminate]. unfold Gpio.swap_and_commit.
    eapply statics_same; [| |exact Hs']; now autorewrite with dev.
  - split; [now rewrite !log_statics | discriminate].
Qed.

Lemma FlagUnion_serve_statics c contact d :
  statics_ok d ->
  statics_ok (fst (fst (FlagUnion.serve c contact d)))
  /\ snd (FlagUnion.serve c contact d) <> Stuck.
Proof.
  intros Hs. unfold FlagUnion.serve. destruct (first c) as [|b l] eqn:E.
  { cbn [fst snd]. split; [now rewrite !log_statics | discriminate]. }
  cbv zeta.
  destruct (found (b :: l) "GET /recover").
  { cbn [fst snd]. split; [now rewrite !log_statics | discriminate]. }
  destruct (found (b :: l) "POST").
  2:{ cbn [fst snd]. split; [now rewrite !log_statics | discriminate]. }
  destruct (strstr (b :: l) crlfcrlf) as [k|].
  2:{ cbn [fst snd]. split; [now rewrite !log_statics | discriminate]. }
  destruct (post_upload_spec c k (log c_listen (log c_socket d)))
    as (d' & ws & Hp & _ & _ & _ & Hs' & _); [now rewrite !log_statics|].
  rewrite Hp. destruct (sha256_ret c =? 0); cbn [fst snd].
  - split; [|discriminate].
    eapply statics_same; [| |exact Hs']; now autorewrite with dev.
  - split; [now rewrite !log_statics | discriminate].
Qed.

Lemma Gpio_server_statics cs : forall d,
  statics_ok d ->
  statics_ok (fst (Gpio.server cs d)) /\ snd (Gpio.server cs d) <> Stuck.
Proof.
  induction cs as [|c cs IH]; intros d Hs; [now split|].
  cbn [Gpio.server]. destruct (Gpio_serve_statics c d Hs) as [Hs1 Hn].
  destruct (Gpio.serve c d) as [d1 o]. cbn [fst snd] in *.
  destruct o; try (now split); now apply IH.
Qed.

Lemma FlagUnion_server_statics ts : forall contact d,
  statics_ok d ->
  statics_ok (fst (FlagUnion.server ts contact d))
  /\ snd (FlagUnion.server ts contact d) <> Stuck.
Proof.
  induction ts as [|[w c] ts IH]; intros contact d Hs; [now split|].
  cbn [FlagUnion.server]. destruct (w || contact); [|now split].
  destruct (FlagUnion_serve_statics c contact d Hs) as [Hs1 Hn].
  destruct (FlagUnion.serve c contact d) as [[d1 contact1] o]. cbn [fst snd] in *.
  destruct o; try (now split); now apply IH.
Qed.

(** X9: the upload loop always comes to an end.  From a state in which
    the static write position is below the page size and the static
    buffer has the page size (as at power-on), every run of either
    revision, whatever the connections deliver, ends in a state with the
    same property, and it ends because the connections ran out, the
    window expired, the application was started, the chip was reset or
    the header had no blank line: the receive loop never runs out of
    steps. *)
Theorem statics_survive_every_run (d : device) :
  statics_ok d ->
  (forall p1 p2 cs,
      statics_ok (fst (Gpio.main p1 p2 cs d))
      /\ snd (Gpio.main p1 p2 cs d) <> Stuck)
  /\ (forall ts,
      statics_ok (fst (FlagUnion.main ts d))
      /\ snd (FlagUnion.main ts d) <> Stuck).
Proof.
  intros Hs.
  assert (Hboot : forall d0, statics_ok d0 ->
            statics_ok (fst (boot d0)) /\ snd (boot d0) <> Stuck).
  { intros d0 H0. split; [|discriminate].
    destruct (boot_upload_statics d0) as [Hp Hb]. now apply (statics_same d0). }
  split.
  - intros p1 p2 cs. unfold Gpio.main.
    destruct (Gpio.recovery_trigger p1 p2).
    + apply Gpio_server_statics. now rewrite log_statics.
    + now apply Hboot.
  - intros ts. unfold FlagUnion.main.
    destruct (FlagUnion.recovery_trigger (meta d)); [|now apply Hboot].
    destruct (FlagUnion_server_statics ts false (log (enter Recovery) d)) as [Hs1 Hn];
      [now rewrite log_statics|].
    destruct (FlagUnion.server ts false (log (enter Recovery) d)) as [d1 o].
    cbn [fst snd] in *. destruct o; try (now split). now apply Hboot.
Qed.

End StaticsExtras.

(** ** The flag-union revision: the window and the contact latch *)

Section WindowExtras.
Context `{Platform}.

Lemma FlagUnion_serve_contact c d :
  snd (fst (FlagUnion.serve c true d)) = true.
Proof.
  unfold FlagUnion.serve. destruct (first c) as [|b l]; [reflexivity|]. cbv zeta.
  destruct (found (b :: l) "GET /recover"); [reflexivity|].
  destruct (found (b :: l) "POST"); [|reflexivity].
  destruct (strstr (b :: l) crlfcrlf) as [k|]; [|reflexivity].
  destruct (post_upload c k _) as [[d1 done]|]; [|reflexivity].
  now destruct (sha256_ret c =? 0).
Qed.

Lemma FlagUnion_server_latched ts : forall d,
  snd (FlagUnion.server ts true d) <> Expired.
Proof.
  induction ts as [|[w c] ts IH]; intros d; [discriminate|].
  cbn [FlagUnion.server]. rewrite orb_true_r.
  pose proof (FlagUnion_serve_contact c d) as Hc.
  destruct (FlagUnion_serve_quiet c true d) as (_ & _ & _ & Hx & _).
  destruct (FlagUnion.serve c true d) as [[d1 contact1] o]. cbn [fst snd] in *.
  subst contact1. destruct o; try exact Hx; try discriminate. apply IH.
Qed.

(** X10: contact holds the flag-union recovery open.  Once a request for
    the recovery page is served while the window is open, the loop test
    stays true whatever the clock says afterwards: the run never reaches
    the tail of [main], so the application is not started; it ends only
    by a reset, by a header without a blank line or with the bootloader
    still listening. *)
Theorem contact_keeps_recovery_open (pre ts : list (bool * conn)) (c : conn) (d : device) :
  FlagUnion.recovery_trigger (meta d) = true ->
  Forall (fun t => fst t = true) pre ->
  FlagUnion.is_get (first c) ->
  snd (FlagUnion.main (pre ++ (true, c) :: ts) d) <> HandOff
  /\ entered (trace (fst (FlagUnion.main (pre ++ (true, c) :: ts) d)))
     = entered (trace d) ++ [Recovery].
Proof.
  intros Ht Hpre Hg.
  assert (Hx : forall contact d0,
             snd (FlagUnion.server (pre ++ (true, c) :: ts) contact d0) <> Expired).
  { induction Hpre as [|[w c0] pre Hw Hpre IH]; intros contact d0.
    - cbn [app FlagUnion.server orb]. rewrite (FlagUnion_serve_get c contact _ Hg).
      apply FlagUnion_server_latched.
    - cbn [fst] in Hw. subst w. cbn [app FlagUnion.server orb].
      destruct (FlagUnion_serve_quiet c0 contact d0) as (_ & _ & _ & Hq & _).
      destruct (FlagUnion.serve c0 contact d0) as [[d1 contact1] o]. cbn [fst snd] in *.
      destruct o; try exact Hq; try discriminate. apply IH. }
  unfold FlagUnion.main. rewrite Ht.
  specialize (Hx false (log (enter Recovery) d)).
  destruct (FlagUnion_server_quiet (pre ++ (true, c) :: ts) false (log (enter Recovery) d))
    as (rest & Htr & He & Hh & _).
  destruct (FlagUnion.server _ false _) as [d1 o]. cbn [fst snd] in *.
  destruct o; try contradiction; cbn [fst snd]; (split; [discriminate|]);
    rewrite Htr; autorewrite with dev; rewrite !entered_app, He; cbn;
    now rewrite app_nil_r.
Qed.

End WindowExtras.

Section UnattendedExtras.
Context `{Platform}.

Lemma FlagUnion_server_idle ts : forall d,
  Forall (fun t => first (snd t) = []) ts ->
  meta (fst (FlagUnion.server ts false d)) = meta d
  /\ flash (fst (FlagUnion.server ts false d)) = flash d
  /\ (Exists (fun t => fst t = false) ts ->
      snd (FlagUnion.server ts false d) = Expired).
Proof.
  induction ts as [|[w c] ts IH]; intros d Hi.
  { cbn. repeat split. intros Hx. inversion Hx. }
  apply Forall_cons in Hi as [Hc Hi]. cbn [snd] in Hc.
  cbn [FlagUnion.server]. rewrite orb_false_r. destruct w.
  - unfold FlagUnion.serve. rewrite Hc.
    destruct (IH (log c_listen (log c_socket d)) Hi) as (Hm & Hf & Hx).
    autorewrite with dev in Hm, Hf. repeat split; [exact Hm | exact Hf |].
    intros He. apply Exists_cons in He as [He|He]; [discriminate He | now apply Hx].
  - now repeat split.
Qed.

Lemma boot_ext d d' :
  meta d' = meta d -> flash d' = flash d ->
  meta (fst (boot d')) = meta (fst (boot d))
  /\ flash (fst (boot d')) = flash (fst (boot d)).
Proof.
  intros Hm Hf. rewrite !boot_meta, !boot_flash, Hm, Hf.
  split; [reflexivity|].
  destruct (_ || _); [|reflexivity].
  apply swap_images_flash_ext; [exact Hf | now rewrite Hm].
Qed.

(** X11: an unattended flag-union window changes nothing.  If recovery is
    entered, no connection delivers anything and the clock leaves the
    window, the run goes on to the tail of [main] and leaves exactly the
    metadata and the flash that the tail leaves when it runs at once, and
    it has taken the same branch. *)
Theorem unattended_window_boots_as_usual (ts : list (bool * conn)) (d : device) :
  FlagUnion.recovery_trigger (meta d) = true ->
  Forall (fun t => first (snd t) = []) ts ->
  Exists (fun t => fst t = false) ts ->
  snd (FlagUnion.main ts d) = HandOff
  /\ meta (fst (FlagUnion.main ts d)) = meta (fst (boot d))
  /\ flash (fst (FlagUnion.main ts d)) = flash (fst (boot d))
  /\ entered (trace (fst (FlagUnion.main ts d)))
     = entered (trace d) ++ [Recovery; boot_action false (meta d)].
Proof.
  intros Ht Hi Hx. unfold FlagUnion.main. rewrite Ht.
  destruct (FlagUnion_server_idle ts (log (enter Recovery) d) Hi) as (Hm & Hf & He).
  specialize (He Hx).
  destruct (FlagUnion_server_quiet ts false (log (enter Recovery) d))
    as (rest & Htr & Hq & _ & _).
  destruct (FlagUnion.server ts false (log (enter Recovery) d)) as [d1 o].
  cbn [fst snd] in *. subst o. autorewrite with dev in Hm, Hf, Htr.
  destruct (boot_ext d d1 Hm Hf) as [Hbm Hbf].
  destruct (boot_spec d1) as [Ho Hen].
  split; [exact Ho|]. split; [exact Hbm|]. split; [exact Hbf|].
  rewrite Hen, Htr, !entered_app, Hq, Hm. rewrite app_nil_r, <- app_assoc. reflexivity.
Qed.

End UnattendedExtras.

(** ** How a request is classified and how a pass ends *)

Section RequestExtras.
Context `{Platform}.

(** X13: in the GPIO revision the substring GET wins over everything
    else.  A first chunk with GET or get anywhere before its first NUL,
    in the header or in the body of a POST, is never treated as an upload:
    nothing is
    erased or written, the metadata and the upload statics stay as they
    are, and the pass ends with the page sent or, when the chunk also
    holds REBOOT or reboot, with the watchdog reset. *)
Theorem get_anywhere_preempts_upload (c : conn) (d : device) :
  (found (first c) "GET" || found (first c) "get") = true ->
  flash (fst (Gpio.serve c d)) = flash d
  /\ meta (fst (Gpio.serve c d)) = meta d
  /\ upload_pos (fst (Gpio.serve c d)) = upload_pos d
  /\ upload_buffer (fst (Gpio.serve c d)) = upload_buffer d
  /\ exists rest, trace (fst (Gpio.serve c d)) = trace d ++ rest
       /\ forallb (fun x => negb (mutates x)) rest = true
       /\ (if found (first c) "REBOOT" || found (first c) "reboot"
           then snd (Gpio.serve c d) = Reset /\ last rest = Some c_watchdog_reboot
           else snd (Gpio.serve c d) = Listening
                /\ In (c_send (sizeof_bytes Gpio.page_recover)) rest).
Proof.
  intros Hg. unfold Gpio.serve.
  destruct (first c) as [|b l] eqn:E; [discriminate Hg|].
  cbv zeta. rewrite Hg.
  destruct (found (b :: l) "REBOOT" || found (b :: l) "reboot"); cbn [fst snd];
    autorewrite with dev; repeat (split; [reflexivity|]);
    eexists; list_norm; (split; [reflexivity|]); (split; [reflexivity|]);
    (split; [reflexivity|]); cbn; auto.
Qed.

(** X14: which passes close the socket.  In the GPIO revision every pass
    that received something and goes on listening has [close] as its last
    call.  In the flag-union revision a request that is neither for the
    recovery page nor a POST goes back to [socket] and [listen] with no
    [close] in between. *)
Theorem unrecognised_request_is_closed_only_by_gpio (c : conn) (d : device) :
  first c <> [] ->
  (snd (Gpio.serve c d) = Listening ->
   last (trace (fst (Gpio.serve c d))) = Some c_close)
  /\ (forall contact,
        found (first c) "GET /recover" = false ->
        found (first c) "POST" = false ->
        FlagUnion.serve c contact d = (log c_listen (log c_socket d), contact, Listening)
        /\ trace (fst (fst (FlagUnion.serve c contact d)))
           = trace d ++ [c_socket; c_listen]).
Proof.
  intros Hne. split.
  - unfold Gpio.serve. destruct (first c) as [|b l] eqn:E; [contradiction|]. cbv zeta.
    destruct (found (b :: l) "GET" || found (b :: l) "get").
    { destruct (found (b :: l) "REBOOT" || found (b :: l) "reboot"); cbn [fst snd];
        [discriminate|]. intros _. autorewrite with dev. apply last_snoc. }
    destruct (found (b :: l) "POST" || found (b :: l) "post").
    2:{ cbn [fst snd]. intros _. autorewrite with dev. apply last_snoc. }
    destruct (strstr (b :: l) crlfcrlf) as [k|]; [|discriminate].
    destruct (post_upload c k _) as [[d1 done]|]; [|discriminate].
    destruct (sha256_ret c =? 0); cbn [fst snd]; [discriminate|].
    intros _. autorewrite with dev. apply last_snoc.
  - intros contact Hg Hp. unfold FlagUnion.serve.
    destruct (first c) as [|b l] eqn:E; [contradiction|]. cbv zeta.
    rewrite Hg, Hp. cbn [fst]. autorewrite with dev. now list_norm.
Qed.

End RequestExtras.

(** ** The flag-union recovery loop: what a session can change *)

Section FlagUnionSession.
Context `{Platform}.

Lemma FlagUnion_serve_safe c contact d :
  (sha256_ret c <> 0 -> snd (FlagUnion.serve c contact d) <> Reset)
  /\ (snd (FlagUnion.serve c contact d) = Reset ->
      meta (fst (fst (FlagUnion.serve c contact d)))
      = pfb_mark_download_slot_as_valid 0 (meta d))
  /\ (snd (FlagUnion.serve c contact d) <> Reset ->
      meta (fst (fst (FlagUnion.serve c contact d))) = meta d)
  /\ exists rest,
       trace (fst (fst (FlagUnion.serve c contact d))) = trace d ++ rest
       /\ forallb (fun x => harmless x || stages x) rest = true.
Proof.
  unfold FlagUnion.serve. destruct (first c) as [|b l] eqn:E.
  { cbn [fst snd]. autorewrite with dev. repeat split; try discriminate.
    eexists. list_norm. split; reflexivity. }
  cbv zeta.
  destruct (found (b :: l) "GET /recover").
  { cbn [fst snd]. autorewrite with dev. repeat split; try discriminate.
    eexists. list_norm. split; reflexivity. }
  destruct (found (b :: l) "POST").
  2:{ cbn [fst snd]. autorewrite with dev. repeat split; try discriminate.
      eexists. list_norm. split; reflexivity. }
  destruct (strstr (b :: l) crlfcrlf) as [k|].
  2:{ cbn [fst snd]. autorewrite with dev. repeat split; try discriminate.
      eexists. list_norm. split; reflexivity. }
  destruct (post_upload c k (log c_listen (log c_socket d))) as [[d1 done]|] eqn:Hp.
  2:{ cbn [fst snd]. autorewrite with dev. repeat split; try discriminate.
      eexists. list_norm. split; reflexivity. }
  apply post_upload_uploads in Hp as (ws & Htr & He & Hm).
  autorewrite with dev in Htr, Hm.
  assert (Hws : forallb (fun x => harmless x || stages x) ws = true).
  { clear -He. induction ws as [|w ws IH]; [reflexivity|]. cbn [forallb] in *.
    apply andb_true_iff in He as [Hw Hws]. unfold harmless at 1.
    rewrite Hw, !orb_true_r. now apply IH. }
  destruct (sha256_ret c =? 0) eqn:Es; cbn [fst snd]; autorewrite with dev.
  - apply Z.eqb_eq in Es. split; [intros Hne; contradiction|].
    split; [intros _; now rewrite Hm|]. split; [intros Hr; now contradiction Hr|].
    rewrite Htr. list_norm. eexists. split; [reflexivity|].
    cbn [forallb]. rewrite forallb_app, Hws. reflexivity.
  - split; [discriminate|]. split; [discriminate|]. split; [intros _; exact Hm|].
    rewrite Htr. list_norm. eexists. split; [reflexivity|].
    cbn [forallb]. rewrite forallb_app, Hws. reflexivity.
Qed.

(** X25: what a flag-union recovery session can change.  Whatever the
    connections deliver, the loop never swaps, commits or writes a flag
    but one: every call it makes is free of flash and metadata effects or
    part of an upload into the download slot, except the marking of the
    download slot as valid with size 0 that precedes the reset after a
    verified upload.  The loop ends in a reset only then, with the
    metadata changed by that mark alone; otherwise the metadata are as at
    the start. *)
Theorem flag_union_session_only_stages (ts : list (bool * conn)) (contact : bool)
    (d : device) :
  (Forall (fun t => sha256_ret (snd t) <> 0) ts ->
   snd (FlagUnion.server ts contact d) <> Reset)
  /\ (snd (FlagUnion.server ts contact d) = Reset ->
      meta (fst (FlagUnion.server ts contact d))
      = pfb_mark_download_slot_as_valid 0 (meta d))
  /\ (snd (FlagUnion.server ts contact d) <> Reset ->
      meta (fst (FlagUnion.server ts contact d)) = meta d)
  /\ exists rest,
       trace (fst (FlagUnion.server ts contact d)) = trace d ++ rest
       /\ forallb (fun x => harmless x || stages x) rest = true.
Proof.
  revert contact d. induction ts as [|[w c] ts IH]; intros contact d.
  { cbn. repeat split; try discriminate. exists []. now rewrite app_nil_r. }
  cbn [FlagUnion.server]. destruct (w || contact).
  2:{ cbn. repeat split; try discriminate. exists []. now rewrite app_nil_r. }
  destruct (FlagUnion_serve_safe c contact d) as (Hsha & Hreset & Hkeep & rest & Htr & Hok).
  destruct (FlagUnion.serve c contact d) as [[d1 contact1] o]. cbn [fst snd] in *.
  destruct o; cbn [fst snd];
    try (split; [discriminate|]; split; [discriminate|];
         split; [intros _; apply Hkeep; discriminate|];
         exists rest; now split).
  - (* Listening: the loop goes on *)
    destruct (IH contact1 d1) as (IHsha & IHreset & IHkeep & rest' & Htr' & Hok').
    assert (Hm1 : meta d1 = meta d) by (apply Hkeep; discriminate).
    split; [|split; [|split]].
    + intros Hall. apply Forall_cons in Hall as [_ Hall]. now apply IHsha.
    + intros Hr. now rewrite IHreset, Hm1.
    + intros Hr. now rewrite IHkeep, Hm1.
    + exists (rest ++ rest'). split; [now rewrite Htr', Htr, <- app_assoc|].
      now rewrite forallb_app, Hok, Hok'.
  - (* Reset *)
    split; [|split; [|split]].
    + intros Hall. apply Forall_cons in Hall as [Hc _]. cbn [snd] in Hc. now apply Hsha.
    + intros _. now apply Hreset.
    + intros Hr. now contradiction Hr.
    + exists rest. now split.
Qed.

End FlagUnionSession.

(** ** Where the body of a POST starts *)

Section BodyExtras.

Lemma is_prefix_take p : forall s,
  is_prefix p s = true <-> take (length p) s = p.
Proof.
  induction p as [|x p IH]; intros s; [now split|].
  destruct s as [|y s]; cbn [is_prefix length take]; [split; discriminate|].
  rewrite andb_true_iff, Z.eqb_eq, IH. split.
  - intros [-> ->]. reflexivity.
  - intros E. injection E as -> E. auto.
Qed.

Lemma find_from_spec p : forall hay k0 k,
  find_from k0 p hay = Some k ->
  (k0 <= k)%nat
  /\ is_prefix p (drop (k - k0) hay) = true
  /\ forall j, (j < k - k0)%nat -> is_prefix p (drop j hay) = false.
Proof.
  induction hay as [|y hay IH]; intros k0 k Hf.
  - cbn [find_from] in Hf. destruct (is_prefix p []) eqn:E; [|discriminate].
    injection Hf as <-. rewrite Nat.sub_diag. repeat split; auto. intros j Hj. lia.
  - cbn [find_from] in Hf. destruct (is_prefix p (y :: hay)) eqn:E.
    + injection Hf as <-. rewrite Nat.sub_diag. repeat split; auto. intros j Hj. lia.
    + apply IH in Hf as (Hle & Hp & Hfirst).
      replace (k - k0)%nat with (S (k - S k0)) by lia.
      split; [lia|]. split; [exact Hp|].
      intros [|j] Hj; [exact E|]. apply Hfirst. lia.
Qed.

Lemma c_str_prefix buf : exists rest, buf = c_str buf ++ rest.
Proof.
  induction buf as [|b buf [rest IH]]; [now exists []|].
  cbn [c_str]. destruct (b =? 0); [now exists (b :: buf)|].
  exists rest. cbn [app]. now rewrite <- IH.
Qed.

Lemma c_str_nonzero buf : Forall (fun b => b <> 0) (c_str buf).
Proof.
  induction buf as [|b buf IH]; [constructor|].
  cbn [c_str]. destruct (b =? 0) eqn:E; constructor; [|exact IH].
  now apply Z.eqb_neq.
Qed.

Lemma take_drop_prefix {A} (l rest : list A) j n :
  (j + n <= length l)%nat -> take n (drop j (l ++ rest)) = take n (drop j l).
Proof.
  intros Hl. rewrite drop_app_le by lia. rewrite take_app_le; [reflexivity|].
  rewrite length_drop. lia.
Qed.

(** X22: the upload starts right after the first blank line.  When
    [strstr] finds the header terminator at offset [k], the buffer is the
    [k] header bytes, the four bytes CR LF CR LF and the bytes that
    [post_upload] takes as the start of the body; the header bytes hold
    no NUL and no earlier CR LF CR LF. *)
Theorem upload_body_follows_first_blank_line (buf : list Z) (k : nat) :
  strstr buf crlfcrlf = Some k ->
  buf = take k buf ++ [13; 10; 13; 10] ++ drop (k + 4) buf
  /\ Forall (fun b => b <> 0) (take k buf)
  /\ forall j, (j < k)%nat -> take 4 (drop j buf) <> [13; 10; 13; 10].
Proof.
  unfold strstr. intros Hf.
  apply find_from_spec in Hf as (_ & Hp & Hfirst). rewrite Nat.sub_0_r in Hp, Hfirst.
  change (bytes_of_string crlfcrlf) with [13; 10; 13; 10] in Hp, Hfirst.
  apply is_prefix_take in Hp. cbn [length] in Hp.
  destruct (c_str_prefix buf) as [rest Hb].
  assert (Hlen : (k + 4 <= length (c_str buf))%nat).
  { apply (f_equal (@length Z)) in Hp. rewrite length_take, length_drop in Hp.
    cbn [length] in Hp. lia. }
  assert (Hat : take 4 (drop k buf) = [13; 10; 13; 10]).
  { rewrite Hb, take_drop_prefix by exact Hlen. exact Hp. }
  split; [|split].
  - rewrite <- Hat. rewrite <- (take_drop k buf) at 1. f_equal.
    rewrite <- (take_drop 4 (drop k buf)) at 1. f_equal.
    rewrite drop_drop. reflexivity.
  - assert (Hk : take k buf = take k (c_str buf)).
    { rewrite Hb at 1. rewrite take_app_le by lia. reflexivity. }
    rewrite Hk. apply Forall_take, c_str_nonzero.
  - intros j Hj E. specialize (Hfirst j Hj).
    assert (Hj' : take 4 (drop j (c_str buf)) = [13; 10; 13; 10]).
    { rewrite <- E. rewrite Hb at 2. symmetry. apply take_drop_prefix. lia. }
    apply (is_prefix_take [13; 10; 13; 10]) in Hj'. congruence.
Qed.

End BodyExtras.

(** ** The upload loop as a function of the byte stream *)

Section UploadExtras.
Context `{Platform}.

Lemma aligned_writes_blocks ws : forall offs tail s,
  aligned_writes offs ws ->
  concat (map written ws) ++ tail = s ->
  ws = blocks offs s (length ws)
  /\ length s = (length ws * Z.to_nat PFB_ALIGN_SIZE + length tail)%nat.
Proof.
  induction ws as [|w ws IH]; intros offs tail s Ha Hs.
  { cbn in *. now subst. }
  destruct w; try contradiction. cbn [aligned_writes] in Ha.
  destruct Ha as (-> & -> & Hl & Ha).
  rewrite map_cons, concat_cons in Hs. cbn [written] in Hs.
  rewrite take_ge in Hs by lia. rewrite <- app_assoc in Hs.
  destruct (IH _ tail _ Ha eq_refl) as [Hb Hlen].
  cbn [length blocks]. subst s.
  rewrite take_app_length' by (symmetry; exact Hl).
  rewrite drop_app_length' by (symmetry; exact Hl).
  split; [now rewrite <- Hb|].
  rewrite length_app, Hlen, Hl. lia.
Qed.


End UploadExtras.

(** ** What an upload leaves in the flash *)

Section UploadFlash.
Context `{Platform}.

Lemma flash_set_upload buf pos d : flash (set_upload buf pos d) = flash d.
Proof. now destruct d. Qed.

Lemma flash_write buf offs len d :
  flash (pfb_write_to_flash_aligned_256_bytes buf offs len d)
  = replay (flash d) (c_pfb_write_to_flash_aligned_256_bytes buf offs len).
Proof. now destruct d. Qed.

Lemma flash_initialize d :
  flash (pfb_initialize_download_slot d) = replay (flash d) c_pfb_initialize_download_slot.
Proof. now destruct d. Qed.

Lemma upload_loop_replay fuel : forall data pending done d d' done',
  upload_loop fuel data pending done d = Some (d', done') ->
  exists ws, trace d' = trace d ++ ws /\ flash d' = fold_left replay ws (flash d).
Proof.
  induction fuel as [|fuel IH]; intros data pending done d d' done' Hr;
    destruct data as [|b data];
    try (inversion Hr; subst; exists []; now rewrite app_nil_r);
    try discriminate.
  cbn [upload_loop] in Hr.
  destruct (fill (b :: data) (upload_buffer d) (upload_pos d)) as [[rest buf1] pos1].
  destruct (pos1 =? PFB_ALIGN_SIZE);
    destruct (poll rest pending) as [data' pending'];
    apply IH in Hr as (ws & Htr & Hf).
  - rewrite trace_set_upload, trace_write in Htr.
    rewrite flash_set_upload, flash_write in Hf.
    eexists. split; [rewrite Htr, <- app_assoc; reflexivity|]. exact Hf.
  - rewrite trace_set_upload in Htr. rewrite flash_set_upload in Hf.
    exists ws. auto.
Qed.

Lemma post_upload_replay c k d d' done :
  post_upload c k d = Some (d', done) ->
  exists ws, trace d' = trace d ++ c_pfb_initialize_download_slot :: ws
             /\ flash d' = fold_left replay ws (replay (flash d) c_pfb_initialize_download_slot).
Proof.
  unfold post_upload. intros Hr.
  apply upload_loop_replay in Hr as (ws & Htr & Hf).
  rewrite trace_initialize in Htr. rewrite flash_initialize in Hf.
  exists ws. split; [now rewrite Htr, <- app_assoc|exact Hf].
Qed.

(** The pages of [s] programmed at consecutive offsets of the download
    slot. *)
Lemma blocks_flash n : forall offs s m a,
  layout_ok -> 0 < PFB_ALIGN_SIZE -> 0 <= offs ->
  offs + PFB_ALIGN_SIZE * Z.of_nat n <= __FLASH_SWAP_SPACE_LENGTH ->
  fold_left replay (blocks offs s n) m a
  = if in_range (download_offs + offs) (PFB_ALIGN_SIZE * Z.of_nat n) a
    then Z.land (m a) (nth (Z.to_nat (a - (download_offs + offs))) s 255)
    else m a.
Proof.
  induction n as [|n IH]; intros offs s m a L HA Ho Hfit.
  { cbn [blocks fold_left]. rewrite Z.mul_0_r.
    destruct (in_range _ _ _) eqn:E; [|reflexivity]. apply in_range_true in E. lia. }
  assert (Hn : PFB_ALIGN_SIZE * Z.of_nat (S n)
               = PFB_ALIGN_SIZE + PFB_ALIGN_SIZE * Z.of_nat n) by lia.
  assert (0 <= PFB_ALIGN_SIZE * Z.of_nat n) by nia.
  rewrite Hn in *.
  cbn [blocks fold_left]. rewrite IH by (try assumption; lia).
  cbn [replay]. unfold program_bytes, PFB_ADDR_WITH_XIP_OFFSET_AS_U32.
  assert (Hb : u32 (u32 (__FLASH_DOWNLOAD_SLOT_START - XIP_BASE) + offs)
               = download_offs + offs).
  { unfold download_offs. destruct L.
    rewrite (u32_small (__FLASH_DOWNLOAD_SLOT_START - XIP_BASE)) by lia.
    rewrite u32_small by lia. reflexivity. }
  rewrite Hb, nth_skipn, nth_firstn.
  destruct (in_range (download_offs + (offs + PFB_ALIGN_SIZE)) _ a) eqn:E1;
    destruct (in_range (download_offs + offs) PFB_ALIGN_SIZE a) eqn:E2;
    destruct (in_range (download_offs + offs) (PFB_ALIGN_SIZE + PFB_ALIGN_SIZE * Z.of_nat n) a) eqn:E3;
    (apply in_range_true in E1 || apply in_range_false in E1);
    (apply in_range_true in E2 || apply in_range_false in E2);
    (apply in_range_true in E3 || apply in_range_false in E3); try lia.
  - f_equal. f_equal. lia.
  - replace (_ <? _)%nat with true by (symmetry; apply Nat.ltb_lt; lia). reflexivity.
Qed.

Lemma post_upload_flash (c : conn) (k : nat) (d : device) :
  layout_ok -> statics_ok d ->
  let s := take (Z.to_nat (upload_pos d)) (upload_buffer d)
           ++ stream (drop (k + 4) (first c)) (more c) in
  let n := Z.of_nat (length s) / PFB_ALIGN_SIZE in
  PFB_ALIGN_SIZE * n <= __FLASH_SWAP_SPACE_LENGTH ->
  Forall (fun b => 0 <= b < 256) s ->
  exists d',
    post_upload c k d = Some (d', PFB_ALIGN_SIZE * n)
    /\ (forall j, 0 <= j < PFB_ALIGN_SIZE * n ->
          flash d' (download_offs + j) = nth (Z.to_nat j) s 255)
    /\ (forall j, PFB_ALIGN_SIZE * n <= j < __FLASH_SWAP_SPACE_LENGTH ->
          flash d' (download_offs + j) = 255)
    /\ (forall a, in_range download_offs __FLASH_SWAP_SPACE_LENGTH a = false ->
          flash d' a = flash d a)
    /\ (bytes_ok (flash d) -> bytes_ok (flash d')).
Proof.
  intros L Hs s n Hfit Hbytes.
  destruct (post_upload_spec c k d Hs) as (d' & ws & Hp & Htr & Ha & Hm & Hs' & Hc).
  fold s in Hc. destruct Hs' as (HA & Hpos & Hbuf).
  destruct (aligned_writes_blocks ws 0 _ s Ha Hc) as [Hb Hlen].
  rewrite length_take, Hbuf in Hlen.
  assert (Hn : n = Z.of_nat (length ws)).
  { subst n. symmetry. apply (Z.div_unique_pos _ _ _ (upload_pos d')); lia. }
  destruct (post_upload_replay c k d d' _ Hp) as (ws' & Htr' & Hf).
  rewrite Htr in Htr'. apply app_inv_head in Htr'. injection Htr' as <-.
  rewrite Hb in Hf. clearbody s n. subst n.
  assert (He : forall a, replay (flash d) c_pfb_initialize_download_slot a
                = if in_range download_offs __FLASH_SWAP_SPACE_LENGTH a
                  then 255 else flash d a).
  { intros a. cbn [replay]. unfold erase_bytes, PFB_ADDR_WITH_XIP_OFFSET_AS_U32, download_offs.
    destruct L. rewrite !u32_small by lia. reflexivity. }
  exists d'. split; [exact Hp|].
  assert (Hfl : forall a, flash d' a
     = if in_range (download_offs + 0) (PFB_ALIGN_SIZE * Z.of_nat (length ws)) a
       then Z.land (replay (flash d) c_pfb_initialize_download_slot a)
                   (nth (Z.to_nat (a - (download_offs + 0))) s 255)
       else replay (flash d) c_pfb_initialize_download_slot a).
  { intros a. rewrite Hf. apply blocks_flash; try assumption; lia. }
  assert (Hnth : forall j, 0 <= j < PFB_ALIGN_SIZE * Z.of_nat (length ws) ->
            0 <= nth (Z.to_nat j) s 255 < 256).
  { intros j Hj. assert (Hlt : (Z.to_nat j < length s)%nat) by lia.
    rewrite List.Forall_forall in Hbytes. apply Hbytes. now apply nth_In. }
  split; [|split; [|split]].
  - intros j Hj. rewrite Hfl, He.
    replace (in_range (download_offs + 0) _ _) with true
      by (symmetry; apply in_range_true; lia).
    replace (in_range download_offs _ _) with true
      by (symmetry; apply in_range_true; lia).
    replace (download_offs + j - (download_offs + 0)) with j by lia.
    apply land_erased. now apply Hnth.
  - intros j Hj. rewrite Hfl, He.
    replace (in_range (download_offs + 0) _ _) with false
      by (symmetry; apply in_range_false; lia).
    replace (in_range download_offs _ _) with true
      by (symmetry; apply in_range_true; lia).
    reflexivity.
  - intros a Ha'. rewrite Hfl, He, Ha'. apply in_range_false in Ha'.
    replace (in_range (download_offs + 0) _ _) with false
      by (symmetry; apply in_range_false; lia).
    reflexivity.
  - intros Hok a. rewrite Hfl, He.
    destruct (in_range download_offs __FLASH_SWAP_SPACE_LENGTH a) eqn:E1;
      destruct (in_range (download_offs + 0) _ a) eqn:E2;
      (apply in_range_true in E1 || apply in_range_false in E1);
      (apply in_range_true in E2 || apply in_range_false in E2);
      try lia; try apply Hok.
    rewrite land_erased; apply Hnth; lia.
Qed.


(** X19: what a POST leaves in the flash.  With [s] the stale bytes of
    the static buffer followed by the body bytes received, and [n] the
    number of full pages of [s]: if the pages fit the download slot and
    [s] holds bytes, then byte for byte the flash is: the first [n] pages
    of [s] from the start of the download slot, erased bytes from there to
    the end of the download slot, and what it was everywhere else; it
    still holds bytes. *)
Theorem upload_fills_download_slot (c : conn) (k : nat) (d : device) :
  layout_ok -> statics_ok d ->
  let s := take (Z.to_nat (upload_pos d)) (upload_buffer d)
           ++ stream (drop (k + 4) (first c)) (more c) in
  let n := Z.of_nat (length s) / PFB_ALIGN_SIZE in
  PFB_ALIGN_SIZE * n <= __FLASH_SWAP_SPACE_LENGTH ->
  Forall (fun b => 0 <= b < 256) s ->
  exists d',
    post_upload c k d = Some (d', PFB_ALIGN_SIZE * n)
    /\ (forall a,
          flash d' a
          = if in_range download_offs (PFB_ALIGN_SIZE * n) a
            then nth (Z.to_nat (a - download_offs)) s 255
            else if in_range download_offs __FLASH_SWAP_SPACE_LENGTH a
                 then 255 else flash d a)
    /\ (bytes_ok (flash d) -> bytes_ok (flash d')).
Proof.
  intros L Hs s n Hfit Hbytes.
  destruct (post_upload_flash c k d L Hs Hfit Hbytes)
    as (d' & Hp & Hin & Hnot & Hout & Hok).
  fold s in Hp, Hin, Hnot, Hok. fold n in Hp, Hin, Hnot, Hok.
  exists d'. split; [exact Hp|]. split; [|exact Hok].
  intros a. clearbody s n.
  destruct (in_range download_offs (PFB_ALIGN_SIZE * n) a) eqn:E1.
  - apply in_range_true in E1.
    replace a with (download_offs + (a - download_offs)) at 1 by lia.
    apply Hin. lia.
  - apply in_range_false in E1.
    destruct (in_range download_offs __FLASH_SWAP_SPACE_LENGTH a) eqn:E2.
    + apply in_range_true in E2.
      replace a with (download_offs + (a - download_offs)) by lia.
      apply Hnot. lia.
    + now apply Hout.
Qed.

End UploadFlash.

(** ** A verified upload, end to end (GPIO revision) *)

Section InstallExtras.
Context `{Platform}.

(** X20: a verified upload is installed sector by sector.  In the GPIO
    revision, when an upload of [n] full pages (at least one, fitting the
    slot) passes verification, the pass hands off with the application
    slot holding the uploaded bytes over the whole sectors the upload
    covers and the download slot holding the application that was there
    before; past the last whole sector the application slot still holds
    the old application. *)
Theorem verified_upload_is_installed (c : conn) (k : nat) (d : device) :
  layout_ok -> statics_ok d -> bytes_ok (flash d) ->
  Gpio.is_post (first c) k -> sha256_ret c = 0 ->
  let s := take (Z.to_nat (upload_pos d)) (upload_buffer d)
           ++ stream (drop (k + 4) (first c)) (more c) in
  let n := Z.of_nat (length s) / PFB_ALIGN_SIZE in
  let whole := PFB_ALIGN_SIZE * n / FLASH_SECTOR_SIZE * FLASH_SECTOR_SIZE in
  0 < PFB_ALIGN_SIZE * n <= __FLASH_SWAP_SPACE_LENGTH ->
  Forall (fun b => 0 <= b < 256) s ->
  snd (Gpio.serve c d) = HandOff
  /\ (forall j, 0 <= j < whole ->
        flash (fst (Gpio.serve c d)) (app_offs + j) = nth (Z.to_nat j) s 255
        /\ flash (fst (Gpio.serve c d)) (download_offs + j) = flash d (app_offs + j))
  /\ (forall j, whole <= j < __FLASH_SWAP_SPACE_LENGTH ->
        flash (fst (Gpio.serve c d)) (app_offs + j) = flash d (app_offs + j)).
Proof.
  intros L Hs Hb Hpost Hsha s n whole Hfit Hbytes.
  rewrite (Gpio_serve_post c k d Hpost).
  set (d0 := log c_listen (log c_socket d)).
  assert (Hs0 : statics_ok d0) by (subst d0; now rewrite !log_statics).
  pose proof (post_upload_flash c k d0 L Hs0) as Hpf. cbv zeta in Hpf.
  subst d0. autorewrite with dev in Hpf. fold s in Hpf. fold n in Hpf.
  assert (HS := sector_pos L).
  assert (Hw : 0 <= whole <= PFB_ALIGN_SIZE * n).
  { subst whole. pose proof (Z.mul_div_le (PFB_ALIGN_SIZE * n) FLASH_SECTOR_SIZE HS).
    assert (0 <= PFB_ALIGN_SIZE * n / FLASH_SECTOR_SIZE) by (apply Z.div_pos; lia).
    nia. }
  assert (Hwd : whole = PFB_ALIGN_SIZE * n / FLASH_SECTOR_SIZE * FLASH_SECTOR_SIZE)
    by reflexivity.
  clearbody s n whole.
  destruct Hpf as (d1 & Hp & Hin & _ & Hout & Hok); [lia | exact Hbytes |].
  specialize (Hok Hb). rewrite Hp, Hsha. cbn [Z.eqb fst snd].
  split; [reflexivity|].
  set (d3 := call_meta (c_pfb_mark_download_slot_as_valid (PFB_ALIGN_SIZE * n))
                       (pfb_mark_download_slot_as_valid (PFB_ALIGN_SIZE * n))
                       (log (c_pfb_firmware_sha256_check (PFB_ALIGN_SIZE * n)) d1)).
  assert (Hf3 : flash d3 = flash d1) by (subst d3; now autorewrite with dev).
  assert (Hfl : forall a, flash (Gpio.swap_and_commit (PFB_ALIGN_SIZE * n)
                            (log (c_pfb_firmware_sha256_check (PFB_ALIGN_SIZE * n)) d1)) a
                = exchanged 0 (SWAP_ITERATIONS d3) (flash d1) a).
  { intros a. unfold Gpio.swap_and_commit. autorewrite with dev. fold d3.
    rewrite swap_images_flash by (try assumption; now rewrite Hf3). now rewrite Hf3. }
  assert (Hit : SWAP_ITERATIONS d3 = PFB_ALIGN_SIZE * n / FLASH_SECTOR_SIZE).
  { destruct (SWAP_ITERATIONS_floor d3 L) as [_ Hfloor].
    assert (Hsz : _pfb_firmware_swap_size (meta d3) = PFB_ALIGN_SIZE * n).
    { subst d3. autorewrite with dev. unfold _pfb_firmware_swap_size.
      cbn [pfb_mark_download_slot_as_valid swap_size].
      assert (Hu : u32 (PFB_ALIGN_SIZE * n) = PFB_ALIGN_SIZE * n)
        by (apply u32_small; destruct L; lia).
      now rewrite !Hu. }
    rewrite Hsz in Hfloor. now apply Hfloor. }
  rewrite Hit in Hfl. clearbody d3.
  assert (Hfl' : forall a, flash (Gpio.swap_and_commit (PFB_ALIGN_SIZE * n)
                            (log (c_pfb_firmware_sha256_check (PFB_ALIGN_SIZE * n)) d1)) a
                = if in_range app_offs whole a then flash d1 (a - app_offs + download_offs)
                  else if in_range download_offs whole a
                       then flash d1 (a - download_offs + app_offs)
                       else flash d1 a).
  { intros a. rewrite Hfl. unfold exchanged.
    rewrite Z.mul_0_l, !Z.add_0_r, Z.sub_0_r, <- Hwd. reflexivity. }
  clear Hfl.
  assert (Hdis : app_offs + __FLASH_SWAP_SPACE_LENGTH <= download_offs
                 \/ download_offs + __FLASH_SWAP_SPACE_LENGTH <= app_offs).
  { unfold app_offs, download_offs. destruct L. lia. }
  split.
  - intros j Hj. split.
    + rewrite Hfl'.
      replace (in_range app_offs whole (app_offs + j)) with true
        by (symmetry; apply in_range_true; lia).
      replace (app_offs + j - app_offs + download_offs) with (download_offs + j) by lia.
      apply Hin. lia.
    + rewrite Hfl'.
      replace (in_range app_offs whole (download_offs + j)) with false
        by (symmetry; apply in_range_false; lia).
      replace (in_range download_offs whole (download_offs + j)) with true
        by (symmetry; apply in_range_true; lia).
      replace (download_offs + j - download_offs + app_offs) with (app_offs + j) by lia.
      apply Hout. apply in_range_false. lia.
  - intros j Hj. rewrite Hfl'.
    replace (in_range app_offs whole (app_offs + j)) with false
      by (symmetry; apply in_range_false; lia).
    replace (in_range download_offs whole (app_offs + j)) with false
      by (symmetry; apply in_range_false; lia).
    apply Hout. apply in_range_false. lia.
Qed.

End InstallExtras.

(** ** A verified upload, end to end (flag-union revision) *)

Section InstallAtBootExtras.
Context `{Platform}.

(** X21: in the flag-union revision a verified upload is installed by
    the next boot, and over the whole slot.  The pass ends in a reset
    with the download slot marked valid with size 0; when the window of
    the next run passes unattended, the tail of [main] swaps every whole
    sector of the two slots: the application slot then holds the uploaded
    pages followed by erased bytes, the download slot holds the old
    application, and unless a rollback was pending the image runs armed
    for rollback. *)
Theorem flag_union_upload_is_installed_at_next_boot
    (c : conn) (k : nat) (contact : bool) (ts : list (bool * conn)) (d : device) :
  layout_ok -> statics_ok d -> bytes_ok (flash d) ->
  FlagUnion.is_post (first c) k -> sha256_ret c = 0 ->
  let s := take (Z.to_nat (upload_pos d)) (upload_buffer d)
           ++ stream (drop (k + 4) (first c)) (more c) in
  let n := Z.of_nat (length s) / PFB_ALIGN_SIZE in
  let slot := __FLASH_SWAP_SPACE_LENGTH / FLASH_SECTOR_SIZE * FLASH_SECTOR_SIZE in
  PFB_ALIGN_SIZE * n <= __FLASH_SWAP_SPACE_LENGTH ->
  Forall (fun b => 0 <= b < 256) s ->
  Forall (fun t => first (snd t) = []) ts ->
  Exists (fun t => fst t = false) ts ->
  snd (FlagUnion.serve c contact d) = Reset
  /\ let r := FlagUnion.main ts (fst (fst (FlagUnion.serve c contact d))) in
     snd r = HandOff
     /\ (forall j, 0 <= j < slot ->
           flash (fst r) (app_offs + j)
           = (if j <? PFB_ALIGN_SIZE * n then nth (Z.to_nat j) s 255 else 255)
           /\ flash (fst r) (download_offs + j) = flash d (app_offs + j))
     /\ (should_rollback (meta d) = false ->
         meta (fst r) = Info true false true false 0).
Proof.
  intros L Hs Hb Hpost Hsha s n slot Hfit Hbytes Hidle Hexp.
  rewrite (FlagUnion_serve_post c k contact d Hpost).
  set (d0 := log c_listen (log c_socket d)).
  assert (Hs0 : statics_ok d0) by (subst d0; now rewrite !log_statics).
  pose proof (post_upload_flash c k d0 L Hs0) as Hpf. cbv zeta in Hpf.
  subst d0. autorewrite with dev in Hpf. fold s in Hpf. fold n in Hpf.
  assert (HS := sector_pos L).
  assert (Hw : 0 <= slot <= __FLASH_SWAP_SPACE_LENGTH).
  { subst slot. pose proof (Z.mul_div_le __FLASH_SWAP_SPACE_LENGTH FLASH_SECTOR_SIZE HS).
    assert (0 <= __FLASH_SWAP_SPACE_LENGTH / FLASH_SECTOR_SIZE)
      by (apply Z.div_pos; destruct L; lia).
    nia. }
  assert (Hwd : slot = __FLASH_SWAP_SPACE_LENGTH / FLASH_SECTOR_SIZE * FLASH_SECTOR_SIZE)
    by reflexivity.
  clearbody s n slot.
  destruct Hpf as (d1 & Hp & Hin & Hnot & Hout & Hok); [lia | exact Hbytes |].
  specialize (Hok Hb). rewrite Hp, Hsha. cbn [Z.eqb fst snd].
  split; [reflexivity|].
  set (d2 := log c_pfb_perform_update _).
  assert (Hm2 : meta d2 = pfb_mark_download_slot_as_valid 0 (meta d1))
    by (subst d2; now autorewrite with dev).
  assert (Hf2 : flash d2 = flash d1) by (subst d2; now autorewrite with dev).
  assert (Hmd : meta d1 = meta d).
  { destruct (post_upload_quiet c k _ _ _ Hp) as (_ & _ & _ & Hm).
    now autorewrite with dev in Hm. }
  clearbody d2.
  assert (Ht : FlagUnion.recovery_trigger (meta d2) = true).
  { rewrite Hm2. unfold FlagUnion.recovery_trigger, _pfb_has_firmware_to_swap.
    cbn [pfb_mark_download_slot_as_valid download_slot_valid].
    now rewrite orb_true_r. }
  unfold FlagUnion.main. rewrite Ht.
  destruct (FlagUnion_server_idle ts (log (enter Recovery) d2) Hidle) as (Hm & Hf & He).
  specialize (He Hexp). autorewrite with dev in Hm, Hf.
  destruct (FlagUnion.server ts false (log (enter Recovery) d2)) as [d3 o].
  cbn [fst snd] in *. subst o.
  destruct (boot_ext d2 d3 Hm Hf) as [Hbm Hbf]. cbv zeta.
  split; [reflexivity|].
  assert (Hfw : _pfb_has_firmware_to_swap (meta d2) = true) by now rewrite Hm2.
  assert (Hit : SWAP_ITERATIONS d2 = __FLASH_SWAP_SPACE_LENGTH / FLASH_SECTOR_SIZE).
  { destruct (SWAP_ITERATIONS_floor d2 L) as [Hfloor _]. apply Hfloor. left.
    rewrite Hm2. reflexivity. }
  assert (Hfl : forall a, flash (fst (boot d3)) a
                = if in_range app_offs slot a then flash d1 (a - app_offs + download_offs)
                  else if in_range download_offs slot a
                       then flash d1 (a - download_offs + app_offs)
                       else flash d1 a).
  { intros a. rewrite Hbf, boot_flash, Hfw, orb_true_r.
    rewrite swap_images_flash by (try assumption; now rewrite Hf2).
    rewrite Hit, Hf2. unfold exchanged.
    rewrite Z.mul_0_l, !Z.add_0_r, Z.sub_0_r, <- Hwd. reflexivity. }
  assert (Hdis : app_offs + __FLASH_SWAP_SPACE_LENGTH <= download_offs
                 \/ download_offs + __FLASH_SWAP_SPACE_LENGTH <= app_offs).
  { unfold app_offs, download_offs. destruct L. lia. }
  split.
  - intros j Hj. split.
    + rewrite Hfl.
      replace (in_range app_offs slot (app_offs + j)) with true
        by (symmetry; apply in_range_true; lia).
      replace (app_offs + j - app_offs + download_offs) with (download_offs + j) by lia.
      destruct (j <? PFB_ALIGN_SIZE * n) eqn:E.
      * apply Z.ltb_lt in E. apply Hin. lia.
      * apply Z.ltb_ge in E. apply Hnot. lia.
    + rewrite Hfl.
      replace (in_range app_offs slot (download_offs + j)) with false
        by (symmetry; apply in_range_false; lia).
      replace (in_range download_offs slot (download_offs + j)) with true
        by (symmetry; apply in_range_true; lia).
      replace (download_offs + j - download_offs + app_offs) with (app_offs + j) by lia.
      apply Hout. apply in_range_false. lia.
  - intros Hsr. rewrite Hbm, boot_meta, Hfw, Hm2, Hmd.
    unfold _pfb_should_rollback. cbn [pfb_mark_download_slot_as_valid should_rollback swap_size].
    rewrite Hsr. reflexivity.
Qed.

End InstallAtBootExtras.

Section ShortUpload.
Context `{Platform}.

(** X26: a verified upload without a full page costs the application.
    In the GPIO revision, if fewer bytes than one page reach the upload
    loop and the verification of 0 bytes passes, the size recorded is 0,
    which [swap_images] takes for the whole slot: the pass hands off with
    every whole sector of the application slot erased and the old
    application in the download slot. *)
Theorem verified_upload_without_a_page_erases_application
    (c : conn) (k : nat) (d : device) :
  layout_ok -> statics_ok d -> bytes_ok (flash d) ->
  Gpio.is_post (first c) k -> sha256_ret c = 0 ->
  let s := take (Z.to_nat (upload_pos d)) (upload_buffer d)
           ++ stream (drop (k + 4) (first c)) (more c) in
  let slot := __FLASH_SWAP_SPACE_LENGTH / FLASH_SECTOR_SIZE * FLASH_SECTOR_SIZE in
  Z.of_nat (length s) < PFB_ALIGN_SIZE ->
  Forall (fun b => 0 <= b < 256) s ->
  snd (Gpio.serve c d) = HandOff
  /\ swap_size (meta (fst (Gpio.serve c d))) = 0
  /\ forall j, 0 <= j < slot ->
       flash (fst (Gpio.serve c d)) (app_offs + j) = 255
       /\ flash (fst (Gpio.serve c d)) (download_offs + j) = flash d (app_offs + j).
Proof.
  intros L Hs Hb Hpost Hsha s slot Hshort Hbytes.
  rewrite (Gpio_serve_post c k d Hpost).
  set (d0 := log c_listen (log c_socket d)).
  assert (Hs0 : statics_ok d0) by (subst d0; now rewrite !log_statics).
  pose proof (post_upload_flash c k d0 L Hs0) as Hpf. cbv zeta in Hpf.
  subst d0. autorewrite with dev in Hpf. fold s in Hpf.
  assert (HS := sector_pos L).
  assert (Hw : 0 <= slot <= __FLASH_SWAP_SPACE_LENGTH).
  { subst slot. pose proof (Z.mul_div_le __FLASH_SWAP_SPACE_LENGTH FLASH_SECTOR_SIZE HS).
    assert (0 <= __FLASH_SWAP_SPACE_LENGTH / FLASH_SECTOR_SIZE)
      by (apply Z.div_pos; destruct L; lia).
    nia. }
  assert (Hwd : slot = __FLASH_SWAP_SPACE_LENGTH / FLASH_SECTOR_SIZE * FLASH_SECTOR_SIZE)
    by reflexivity.
  assert (Hn : Z.of_nat (length s) / PFB_ALIGN_SIZE = 0)
    by (apply Z.div_small; lia).
  rewrite Hn, Z.mul_0_r in Hpf. clearbody s slot.
  destruct Hpf as (d1 & Hp & _ & Hnot & Hout & Hok);
    [destruct L; lia | exact Hbytes |].
  specialize (Hok Hb). rewrite Hp, Hsha. cbn [Z.eqb fst snd].
  split; [reflexivity|].
  destruct (swap_and_commit_spec 0 (log (c_pfb_firmware_sha256_check 0) d1))
    as (_ & _ & _ & Hmeta).
  split; [now rewrite Hmeta|].
  set (d3 := call_meta (c_pfb_mark_download_slot_as_valid 0)
                       (pfb_mark_download_slot_as_valid 0)
                       (log (c_pfb_firmware_sha256_check 0) d1)).
  assert (Hf3 : flash d3 = flash d1) by (subst d3; now autorewrite with dev).
  assert (Hit : SWAP_ITERATIONS d3 = __FLASH_SWAP_SPACE_LENGTH / FLASH_SECTOR_SIZE).
  { destruct (SWAP_ITERATIONS_floor d3 L) as [Hfloor _]. apply Hfloor. left.
    subst d3. autorewrite with dev. reflexivity. }
  assert (Hfl : forall a, flash (Gpio.swap_and_commit 0
                            (log (c_pfb_firmware_sha256_check 0) d1)) a
                = if in_range app_offs slot a then flash d1 (a - app_offs + download_offs)
                  else if in_range download_offs slot a
                       then flash d1 (a - download_offs + app_offs)
                       else flash d1 a).
  { intros a. unfold Gpio.swap_and_commit. autorewrite with dev. fold d3.
    rewrite swap_images_flash by (try assumption; now rewrite Hf3).
    rewrite Hit, Hf3. unfold exchanged.
    rewrite Z.mul_0_l, !Z.add_0_r, Z.sub_0_r, <- Hwd. reflexivity. }
  clearbody d3.
  assert (Hdis : app_offs + __FLASH_SWAP_SPACE_LENGTH <= download_offs
                 \/ download_offs + __FLASH_SWAP_SPACE_LENGTH <= app_offs).
  { unfold app_offs, download_offs. destruct L. lia. }
  intros j Hj. split.
  - rewrite Hfl.
    replace (in_range app_offs slot (app_offs + j)) with true
      by (symmetry; apply in_range_true; lia).
    replace (app_offs + j - app_offs + download_offs) with (download_offs + j) by lia.
    apply Hnot. lia.
  - rewrite Hfl.
    replace (in_range app_offs slot (download_offs + j)) with false
      by (symmetry; apply in_range_false; lia).
    replace (in_range download_offs slot (download_offs + j)) with true
      by (symmetry; apply in_range_true; lia).
    replace (download_offs + j - download_offs + app_offs) with (app_offs + j) by lia.
    apply Hout. apply in_range_false. lia.
Qed.

End ShortUpload.

(** ** The DHCP retry loop *)

Section DhcpExtras.
Variable leased : nat -> bool.

Lemma dhcp_wait_miss w : forall p tr,
  (forall j, (j < w)%nat -> leased (p + j) = false) ->
  dhcp_wait leased w p tr = (O, (p + w)%nat, tr ++ concat (replicate w dhcp_miss)).
Proof.
  induction w as [|w IH]; intros p tr Hm.
  { cbn. now rewrite Nat.add_0_r, app_nil_r. }
  cbn [dhcp_wait]. pose proof (Hm O ltac:(lia)) as H0. rewrite Nat.add_0_r in H0.
  rewrite H0, IH.
  - f_equal; [f_equal; lia|]. cbn [replicate concat]. now rewrite <- app_assoc.
  - intros j Hj. replace (S p + j)%nat with (p + S j)%nat by lia. apply Hm. lia.
Qed.

Lemma dhcp_wait_hit w : forall p tr j,
  (j < w)%nat -> leased (p + j) = true ->
  (forall i, (i < j)%nat -> leased (p + i) = false) ->
  dhcp_wait leased w p tr
  = ((w - j)%nat, S (p + j), tr ++ concat (replicate j dhcp_miss) ++ [n_DHCP_run]).
Proof.
  induction w as [|w IH]; intros p tr j Hj Hl Hm; [lia|].
  cbn [dhcp_wait]. destruct j as [|j].
  - rewrite Nat.add_0_r in Hl. rewrite Hl, Nat.add_0_r. reflexivity.
  - pose proof (Hm O ltac:(lia)) as H0. rewrite Nat.add_0_r in H0. rewrite H0.
    rewrite (IH (S p) _ j).
    + f_equal; [f_equal; lia|]. cbn [replicate concat]. now rewrite <- !app_assoc.
    + lia.
    + now replace (S p + j)%nat with (p + S j)%nat by lia.
    + intros i Hi. replace (S p + i)%nat with (p + S i)%nat by lia. apply Hm. lia.
Qed.

Lemma dhcp_tries_miss N : forall w0 p tr,
  (forall j, (j < 20 * N)%nat -> leased (p + j) = false) ->
  dhcp_tries leased N w0 p tr
  = (match N with O => w0 | S _ => O end, (p + 20 * N)%nat,
     tr ++ concat (replicate N dhcp_attempt_failed)).
Proof.
  induction N as [|N IH]; intros w0 p tr Hm.
  { cbn. now rewrite Nat.add_0_r, app_nil_r. }
  cbn [dhcp_tries]. rewrite dhcp_wait_miss by (intros j Hj; apply Hm; lia).
  cbn [Nat.ltb Nat.leb]. rewrite IH.
  - f_equal; [f_equal; [now destruct N | lia]|].
    cbn [replicate concat]. unfold dhcp_attempt_failed at 2.
    rewrite <- !app_assoc. reflexivity.
  - intros j Hj. replace (p + 20 + j)%nat with (p + (20 + j))%nat by lia. apply Hm. lia.
Qed.

Lemma dhcp_tries_hit N : forall w0 p tr k,
  (k < 20 * N)%nat -> leased (p + k) = true ->
  (forall i, (i < k)%nat -> leased (p + i) = false) ->
  dhcp_tries leased N w0 p tr
  = ((20 - k mod 20)%nat, S (p + k),
     tr ++ concat (replicate (k / 20) dhcp_attempt_failed)
        ++ n_DHCP_init :: concat (replicate (k mod 20) dhcp_miss)
        ++ [n_DHCP_run; n_DHCP_stop]).
Proof.
  induction N as [|N IH]; intros w0 p tr k Hk Hl Hm; [lia|].
  cbn [dhcp_tries]. destruct (Nat.lt_ge_cases k 20) as [Hlt|Hge].
  - rewrite (dhcp_wait_hit 20 p _ k Hlt Hl Hm).
    rewrite Nat.div_small, Nat.mod_small by exact Hlt.
    replace (0 <? 20 - k)%nat with true by (symmetry; apply Nat.ltb_lt; lia).
    cbn [replicate concat app]. rewrite <- !app_assoc. reflexivity.
  - rewrite dhcp_wait_miss by (intros j Hj; apply Hm; lia).
    cbn [Nat.ltb Nat.leb].
    assert (Hd : (k / 20 = S ((k - 20) / 20))%nat).
    { replace k with ((k - 20) + 1 * 20)%nat at 1 by lia.
      rewrite Nat.div_add by lia. lia. }
    assert (Hr : (k mod 20 = (k - 20) mod 20)%nat).
    { replace k with ((k - 20) + 1 * 20)%nat at 1 by lia.
      now rewrite Nat.Div0.mod_add. }
    rewrite (IH _ _ _ (k - 20)%nat).
    + rewrite Hd, Hr. f_equal; [f_equal; lia|].
      cbn [replicate concat]. unfold dhcp_attempt_failed at 2.
      rewrite <- !app_assoc. reflexivity.
    + lia.
    + now replace (p + 20 + (k - 20))%nat with (p + k)%nat by lia.
    + intros i Hi. replace (p + 20 + i)%nat with (p + (20 + i))%nat by lia.
      apply Hm. lia.
Qed.

(** X15: a lease ends the DHCP loop at once.  If the [k]-th call of
    [DHCP_run] is the first to report a lease and [k] is below [20 * N],
    the loop has made [k / 20] full attempts of 20 polls, then one attempt
    that stops at the lease; it makes no further call of [DHCP_run] and
    does not fall back to the static configuration. *)
Theorem dhcp_lease_stops_retries (N k : nat) :
  (k < 20 * N)%nat -> leased k = true ->
  (forall i, (i < k)%nat -> leased i = false) ->
  dhcp_or_static N leased
  = (S k, concat (replicate (k / 20) dhcp_attempt_failed)
          ++ n_DHCP_init :: concat (replicate (k mod 20) dhcp_miss)
          ++ [n_DHCP_run; n_DHCP_stop]).
Proof.
  intros Hk Hl Hm. unfold dhcp_or_static.
  rewrite (dhcp_tries_hit N 0 0 [] k Hk Hl Hm).
  pose proof (Nat.mod_upper_bound k 20 ltac:(lia)) as Hb.
  destruct (20 - k mod 20)%nat eqn:E; [lia|]. reflexivity.
Qed.

(** X16: without a lease the loop gives up after [N] attempts of 20
    polls each, [20 * N] calls of [DHCP_run] in all, and only then is the
    static configuration applied, once. *)
Theorem dhcp_failure_falls_back_to_static (N : nat) :
  (forall j, (j < 20 * N)%nat -> leased j = false) ->
  dhcp_or_static N leased
  = ((20 * N)%nat, concat (replicate N dhcp_attempt_failed) ++ [n_network_initialize]).
Proof.
  intros Hm. unfold dhcp_or_static.
  rewrite (dhcp_tries_miss N 0 0 [] Hm). now destruct N.
Qed.

End DhcpExtras.

(** ** Hand-off: the register values *)

Section HandOffExtras.

Lemma u32_testbit x i : 0 <= i < 32 -> Z.testbit (u32 x) i = Z.testbit x i.
Proof.
  intros Hi. unfold u32. change (2 ^ 32) with (2 ^ 32). apply Z.mod_pow2_bits_low. lia.
Qed.

Lemma u32_testbit_high x i : 32 <= i -> Z.testbit (u32 x) i = false.
Proof. intros Hi. unfold u32. apply Z.mod_pow2_bits_high. lia. Qed.

(** X17: [disable_interrupts] stops the SysTick counter and nothing else
    in its control register: bit 0 of a 32-bit value is cleared and every
    other bit is kept, so the value loses its parity and nothing more; and
    all 32 interrupt lines are disabled and their pending state is
    cleared. *)
Theorem disable_interrupts_clears_enable_only (SysTick_CTRL : Z) :
  0 <= SysTick_CTRL < 2 ^ 32 ->
  let '(ctrl, icer, icpr) := disable_interrupts SysTick_CTRL in
  Z.testbit ctrl 0 = false
  /\ (forall i, 0 < i -> Z.testbit ctrl i = Z.testbit SysTick_CTRL i)
  /\ ctrl = SysTick_CTRL - SysTick_CTRL mod 2
  /\ (forall i, 0 <= i < 32 -> Z.testbit icer i = true /\ Z.testbit icpr i = true).
Proof.
  intros Hr. unfold disable_interrupts.
  assert (H0 : Z.testbit (Z.land SysTick_CTRL (u32 (Z.lnot 1))) 0 = false).
  { rewrite Z.land_spec. now rewrite andb_false_r. }
  assert (Hi : forall i, 0 < i ->
            Z.testbit (Z.land SysTick_CTRL (u32 (Z.lnot 1))) i = Z.testbit SysTick_CTRL i).
  { intros i Hi. rewrite Z.land_spec.
    destruct (Z_lt_ge_dec i 32) as [Hlt|Hge].
    - rewrite u32_testbit, Z.lnot_spec by lia.
      replace (Z.testbit 1 i) with false; [now rewrite andb_true_r|].
      symmetry. apply (Z.bits_above_log2 1 i); cbn; lia.
    - rewrite u32_testbit_high by lia. rewrite andb_false_r. symmetry.
      destruct (Z.eq_dec SysTick_CTRL 0) as [->|Hne]; [apply Z.bits_0|].
      apply Z.bits_above_log2; [lia|].
      apply Z.lt_le_trans with 32; [|lia]. apply Z.log2_lt_pow2; lia. }
  split; [exact H0|]. split; [exact Hi|]. split.
  - replace (SysTick_CTRL - SysTick_CTRL mod 2) with (2 * (SysTick_CTRL / 2))
      by (pose proof (Z.div_mod SysTick_CTRL 2); lia).
    apply Z.bits_inj'. intros n Hn.
    destruct (Z.eq_dec n 0) as [->|Hne].
    + now rewrite H0, Z.testbit_even_0.
    + rewrite Hi by lia. replace n with (Z.succ (n - 1)) at 2 by lia.
      rewrite Z.testbit_even_succ by lia.
      change 2 with (2 ^ 1). rewrite Z.div_pow2_bits by lia.
      f_equal. lia.
  - intros i Hi'. change 0xFFFFFFFF with (Z.ones 32).
    rewrite Z.ones_spec_low by lia. auto.
Qed.

(** X18: [reset_peripherals] resets every block but the four it names.
    Bit [i] of the 32-bit mask handed to [reset_block] is set exactly when
    it is set in none of the four SDK masks. *)
Theorem reset_mask_spares_named_blocks (io_qspi pads_qspi syscfg pll_sys i : Z) :
  0 <= i < 32 ->
  Z.testbit (reset_peripherals io_qspi pads_qspi syscfg pll_sys) i
  = negb (Z.testbit io_qspi i || Z.testbit pads_qspi i
          || Z.testbit syscfg i || Z.testbit pll_sys i).
Proof.
  intros Hi. unfold reset_peripherals.
  rewrite u32_testbit, Z.lnot_spec, !Z.lor_spec by lia. reflexivity.
Qed.

End HandOffExtras.

(** ** The further properties at concrete inputs *)

Section ConcreteExtras.
#[local] Existing Instance pico.

Lemma swap_images_exchanges_sectors_witness :
  layout_ok /\ bytes_ok (flash (device0 info_staged))
  /\ flash (swap_images (device0 info_staged)) (app_offs + 0 * FLASH_SECTOR_SIZE + 5)
     = two_tone (download_offs + 0 * FLASH_SECTOR_SIZE + 5).
Proof.
  split; [exact pico_layout_ok|]. split; [exact two_tone_bytes_ok|].
  destruct (swap_images_exchanges_sectors (device0 info_staged)
              pico_layout_ok two_tone_bytes_ok) as [_ Hx].
  refine (proj1 (Hx 0 5 _ _)); vm_compute; split; (discriminate || reflexivity).
Defined.


Lemma swap_images_repeated_witness :
  layout_ok /\ bytes_ok (flash (device0 info_staged))
  /\ 0 <= 5 < SWAP_ITERATIONS (device0 info_staged) * FLASH_SECTOR_SIZE
  /\ flash (swap_images_times 3 (device0 info_staged)) (app_offs + 5)
     = two_tone (download_offs + 5).
Proof.
  split; [exact pico_layout_ok|]. split; [exact two_tone_bytes_ok|].
  assert (Hr : 0 <= 5 < SWAP_ITERATIONS (device0 info_staged) * FLASH_SECTOR_SIZE)
    by (vm_compute; split; [discriminate | reflexivity]).
  split; [exact Hr|].
  destruct (swap_images_repeated 3 (device0 info_staged)
              pico_layout_ok two_tone_bytes_ok) as (_ & Hodd & _).
  exact (proj1 (Hodd eq_refl 5 Hr)).
Defined.

Lemma rollback_branch_witness :
  _pfb_should_rollback (meta (device0 info_armed)) = true
  /\ flash (fst (boot (device0 info_armed))) = flash (swap_images (device0 info_armed))
  /\ meta (fst (boot (device0 info_armed))) = Info false true false false 4096.
Proof.
  split; [reflexivity|].
  destruct (rollback_branch (device0 info_armed) eq_refl) as (_ & _ & Hf & Hm & _).
  split; [exact Hf | exact Hm].
Defined.

Lemma uncommitted_update_is_undone_witness :
  layout_ok /\ bytes_ok (flash (device0 info_staged))
  /\ _pfb_should_rollback (meta (device0 info_staged)) = false
  /\ _pfb_has_firmware_to_swap (meta (device0 info_staged)) = true
  /\ (forall a, flash (fst (boot (fst (boot (device0 info_staged))))) a = two_tone a)
  /\ entered (trace (fst (boot (fst (boot (device0 info_staged))))))
     = [SwapAndArm; Rollback].
Proof.
  split; [exact pico_layout_ok|]. split; [exact two_tone_bytes_ok|].
  do 2 (split; [reflexivity|]).
  pose proof (uncommitted_update_is_undone (device0 info_staged)
                pico_layout_ok two_tone_bytes_ok eq_refl eq_refl) as W.
  cbv zeta in W. destruct W as (_ & Hf & He & _).
  split; [exact Hf | exact He].
Defined.

Lemma passthrough_branch_witness :
  _pfb_should_rollback (meta (device0 info_rolled_back)) = false
  /\ _pfb_has_firmware_to_swap (meta (device0 info_rolled_back)) = false
  /\ after_rollback (meta (device0 info_rolled_back)) = true
  /\ flash (fst (boot (device0 info_rolled_back))) = two_tone
  /\ FlagUnion.recovery_trigger (meta (fst (boot (device0 info_rolled_back)))) = true.
Proof.
  do 3 (split; [reflexivity|]).
  destruct (passthrough_branch (device0 info_rolled_back) eq_refl eq_refl)
    as (_ & _ & Hf & _ & Ht).
  split; [exact Hf | exact (proj1 (Ht eq_refl))].
Defined.


Lemma statics_survive_every_run_witness :
  statics_ok (device0 info_staged)
  /\ statics_ok (fst (Gpio.main (Gpio.Pins false true) (Gpio.Pins false true)
                        [upload_bad; upload_4352] (device0 info_staged)))
  /\ snd (FlagUnion.main [(true, upload_bad); (false, idle)] (device0 info_staged)) <> Stuck.
Proof.
  split; [apply device0_statics_ok|].
  destruct (statics_survive_every_run (device0 info_staged)
              (device0_statics_ok info_staged)) as [Hg Hf].
  split.
  - exact (proj1 (Hg (Gpio.Pins false true) (Gpio.Pins false true)
                    [upload_bad; upload_4352])).
  - exact (proj2 (Hf [(true, upload_bad); (false, idle)])).
Defined.

Lemma contact_keeps_recovery_open_witness :
  FlagUnion.recovery_trigger (meta (device0 info_armed)) = true
  /\ Forall (fun t : bool * conn => fst t = true) [(true, idle)]
  /\ FlagUnion.is_get (first get_recover)
  /\ snd (FlagUnion.main ([(true, idle)] ++ (true, get_recover) :: [(false, idle)])
            (device0 info_armed)) <> HandOff.
Proof.
  assert (Hpre : Forall (fun t : bool * conn => fst t = true) [(true, idle)])
    by (repeat constructor).
  assert (Hg : FlagUnion.is_get (first get_recover)) by (vm_compute; reflexivity).
  split; [reflexivity|]. split; [exact Hpre|]. split; [exact Hg|].
  exact (proj1 (contact_keeps_recovery_open [(true, idle)] [(false, idle)] get_recover
                  (device0 info_armed) eq_refl Hpre Hg)).
Defined.

Lemma unattended_window_boots_as_usual_witness :
  FlagUnion.recovery_trigger (meta (device0 info_armed)) = true
  /\ Forall (fun t : bool * conn => first (snd t) = []) [(true, idle); (false, idle)]
  /\ Exists (fun t : bool * conn => fst t = false) [(true, idle); (false, idle)]
  /\ snd (FlagUnion.main [(true, idle); (false, idle)] (device0 info_armed)) = HandOff
  /\ entered (trace (fst (FlagUnion.main [(true, idle); (false, idle)] (device0 info_armed))))
     = [Recovery; Rollback].
Proof.
  assert (Hi : Forall (fun t : bool * conn => first (snd t) = [])
                 [(true, idle); (false, idle)]) by (repeat constructor).
  assert (Hx : Exists (fun t : bool * conn => fst t = false) [(true, idle); (false, idle)])
    by (right; left; reflexivity).
  split; [reflexivity|]. split; [exact Hi|]. split; [exact Hx|].
  destruct (unattended_window_boots_as_usual [(true, idle); (false, idle)]
              (device0 info_armed) eq_refl Hi Hx) as (Ho & _ & _ & He).
  split; [exact Ho | exact He].
Defined.

Lemma get_anywhere_preempts_upload_witness :
  (found (first upload_with_get) "GET" || found (first upload_with_get) "get") = true
  /\ found (first upload_with_get) "POST" = true
  /\ flash (fst (Gpio.serve upload_with_get (device0 info_idle))) = two_tone
  /\ snd (Gpio.serve upload_with_get (device0 info_idle)) = Listening.
Proof.
  assert (Hg : (found (first upload_with_get) "GET"
                || found (first upload_with_get) "get") = true)
    by (vm_compute; reflexivity).
  split; [exact Hg|]. split; [vm_compute; reflexivity|].
  destruct (get_anywhere_preempts_upload upload_with_get (device0 info_idle) Hg)
    as (Hf & _ & _ & _ & rest & _ & _ & Hr).
  split; [exact Hf|].
  assert (Hn : (found (first upload_with_get) "REBOOT"
                || found (first upload_with_get) "reboot") = false)
    by (vm_compute; reflexivity).
  rewrite Hn in Hr. exact (proj1 Hr).
Defined.

Lemma unrecognised_request_is_closed_only_by_gpio_witness :
  first get_root <> []
  /\ found (first get_root) "GET /recover" = false
  /\ found (first get_root) "POST" = false
  /\ trace (fst (fst (FlagUnion.serve get_root false (device0 info_idle))))
     = [c_socket; c_listen]
  /\ last (trace (fst (Gpio.serve get_root (device0 info_idle)))) = Some c_close.
Proof.
  assert (Hne : first get_root <> []) by (vm_compute; discriminate).
  assert (Hg : found (first get_root) "GET /recover" = false) by (vm_compute; reflexivity).
  assert (Hp : found (first get_root) "POST" = false) by (vm_compute; reflexivity).
  split; [exact Hne|]. split; [exact Hg|]. split; [exact Hp|].
  destruct (unrecognised_request_is_closed_only_by_gpio get_root (device0 info_idle) Hne)
    as [Hgpio Hfu].
  split; [exact (proj2 (Hfu false Hg Hp))|].
  apply Hgpio. vm_compute. reflexivity.
Defined.

Lemma recovery_needs_button_at_both_samples_witness :
  Gpio.recovery_trigger (Gpio.Pins false true) released = false
  /\ Gpio.main (Gpio.Pins false true) released [upload_ok] (device0 info_staged)
     = boot (device0 info_staged).
Proof.
  split; [reflexivity|].
  exact (proj1 (proj2 (recovery_needs_button_at_both_samples
                         (Gpio.Pins false true) released [upload_ok]
                         (device0 info_staged))) eq_refl).
Defined.

Lemma forallb_bytes (l : list Z) :
  forallb (fun b => (0 <=? b) && (b <? 256)) l = true -> Forall (fun b => 0 <= b < 256) l.
Proof.
  intros Hl. apply List.Forall_forall. intros b Hb.
  rewrite forallb_forall in Hl. specialize (Hl b Hb). lia.
Defined.

Lemma upload_body_follows_first_blank_line_witness :
  strstr (first upload_ok) crlfcrlf = Some 21%nat
  /\ first upload_ok
     = take 21 (first upload_ok) ++ [13; 10; 13; 10] ++ drop (21 + 4) (first upload_ok).
Proof.
  assert (Hs : strstr (first upload_ok) crlfcrlf = Some 21%nat) by (vm_compute; reflexivity).
  split; [exact Hs|].
  exact (proj1 (upload_body_follows_first_blank_line (first upload_ok) 21 Hs)).
Defined.


Lemma upload_fills_download_slot_witness :
  layout_ok /\ statics_ok (device0 info_idle)
  /\ Forall (fun b => 0 <= b < 256)
       (take (Z.to_nat (upload_pos (device0 info_idle))) (upload_buffer (device0 info_idle))
        ++ stream (drop (21 + 4) (first upload_4352)) (more upload_4352))
  /\ exists d', post_upload upload_4352 21 (device0 info_idle) = Some (d', 4352)
                /\ flash d' (download_offs + 0) = 1
                /\ flash d' (download_offs + 4352) = 255.
Proof.
  split; [exact pico_layout_ok|]. split; [apply device0_statics_ok|].
  assert (Hb : Forall (fun b => 0 <= b < 256)
             (take (Z.to_nat (upload_pos (device0 info_idle)))
                   (upload_buffer (device0 info_idle))
              ++ stream (drop (21 + 4) (first upload_4352)) (more upload_4352)))
    by (apply forallb_bytes; vm_compute; reflexivity).
  split; [exact Hb|].
  pose proof (upload_fills_download_slot upload_4352 21 (device0 info_idle)
                pico_layout_ok (device0_statics_ok info_idle)) as W.
  cbv zeta in W. destruct W as (d' & Hp & Hfl & _).
  - vm_compute. discriminate.
  - exact Hb.
  - exists d'. split; [exact Hp|]. split; rewrite Hfl; vm_compute; reflexivity.
Defined.

Lemma verified_upload_is_installed_witness :
  layout_ok /\ statics_ok (device0 info_idle) /\ bytes_ok (flash (device0 info_idle))
  /\ Gpio.is_post (first upload_4352) 21 /\ sha256_ret upload_4352 = 0
  /\ snd (Gpio.serve upload_4352 (device0 info_idle)) = HandOff
  /\ flash (fst (Gpio.serve upload_4352 (device0 info_idle))) (app_offs + 0) = 1
  /\ flash (fst (Gpio.serve upload_4352 (device0 info_idle))) (app_offs + 4096)
     = two_tone (app_offs + 4096).
Proof.
  assert (Hpost : Gpio.is_post (first upload_4352) 21)
    by (repeat split; vm_compute; reflexivity).
  split; [exact pico_layout_ok|]. split; [apply device0_statics_ok|].
  split; [exact two_tone_bytes_ok|]. split; [exact Hpost|]. split; [reflexivity|].
  pose proof (verified_upload_is_installed upload_4352 21 (device0 info_idle)
                pico_layout_ok (device0_statics_ok info_idle) two_tone_bytes_ok
                Hpost eq_refl) as W.
  cbv zeta in W. destruct W as (Ho & Hin & Hrest).
  - vm_compute. split; [reflexivity | discriminate].
  - apply forallb_bytes. vm_compute. reflexivity.
  - split; [exact Ho|]. split.
    + apply (Hin 0). vm_compute. split; [discriminate | reflexivity].
    + apply (Hrest 4096). vm_compute. split; [discriminate | reflexivity].
Defined.

Lemma flag_union_upload_is_installed_at_next_boot_witness :
  layout_ok /\ statics_ok (device0 info_idle) /\ bytes_ok (flash (device0 info_idle))
  /\ FlagUnion.is_post (first upload_4352) 21 /\ sha256_ret upload_4352 = 0
  /\ snd (FlagUnion.serve upload_4352 false (device0 info_idle)) = Reset
  /\ snd (FlagUnion.main [(false, idle)]
            (fst (fst (FlagUnion.serve upload_4352 false (device0 info_idle))))) = HandOff
  /\ flash (fst (FlagUnion.main [(false, idle)]
                   (fst (fst (FlagUnion.serve upload_4352 false (device0 info_idle))))))
       (app_offs + 4352) = 255.
Proof.
  assert (Hpost : FlagUnion.is_post (first upload_4352) 21)
    by (repeat split; vm_compute; reflexivity).
  split; [exact pico_layout_ok|]. split; [apply device0_statics_ok|].
  split; [exact two_tone_bytes_ok|]. split; [exact Hpost|]. split; [reflexivity|].
  pose proof (flag_union_upload_is_installed_at_next_boot upload_4352 21 false
                [(false, idle)] (device0 info_idle)
                pico_layout_ok (device0_statics_ok info_idle) two_tone_bytes_ok
                Hpost eq_refl) as W.
  cbv zeta in W. destruct W as (Hr & Ho & Hin & _).
  - vm_compute. discriminate.
  - apply forallb_bytes. vm_compute. reflexivity.
  - repeat constructor.
  - left. reflexivity.
  - split; [exact Hr|]. split; [exact Ho|].
    apply (Hin 4352). vm_compute. split; [discriminate | reflexivity].
Defined.

Lemma dhcp_lease_stops_retries_witness :
  (36 < 20 * 5)%nat /\ lease_at_36 36 = true
  /\ (forall i, (i < 36)%nat -> lease_at_36 i = false)
  /\ fst (dhcp_or_static 5 lease_at_36) = 37%nat.
Proof.
  assert (Hk : (36 < 20 * 5)%nat) by (vm_compute; lia).
  assert (Hm : forall i, (i < 36)%nat -> lease_at_36 i = false).
  { intros i Hi. unfold lease_at_36. apply Nat.eqb_neq. lia. }
  split; [exact Hk|]. split; [reflexivity|]. split; [exact Hm|].
  rewrite (dhcp_lease_stops_retries lease_at_36 5 36 Hk eq_refl Hm). reflexivity.
Defined.

Lemma dhcp_failure_falls_back_to_static_witness :
  (forall j, (j < 20 * 5)%nat -> no_lease j = false)
  /\ dhcp_or_static 5 no_lease
     = (100%nat, concat (replicate 5 dhcp_attempt_failed) ++ [n_network_initialize]).
Proof.
  assert (Hm : forall j, (j < 20 * 5)%nat -> no_lease j = false) by reflexivity.
  split; [exact Hm|].
  exact (dhcp_failure_falls_back_to_static no_lease 5 Hm).
Defined.

Lemma disable_interrupts_clears_enable_only_witness :
  0 <= 7 < 2 ^ 32 /\ fst (fst (disable_interrupts 7)) = 7 - 7 mod 2.
Proof.
  assert (Hr : 0 <= 7 < 2 ^ 32) by (vm_compute; split; [discriminate | reflexivity]).
  split; [exact Hr|].
  pose proof (disable_interrupts_clears_enable_only 7 Hr) as W.
  unfold disable_interrupts in W. cbv iota beta in W.
  destruct W as (_ & _ & He & _). exact He.
Defined.

Lemma reset_mask_spares_named_blocks_witness :
  0 <= 6 < 32
  /\ Z.testbit (reset_peripherals 0x40 0x200 0x40000 0x1000) 6 = false
  /\ Z.testbit (reset_peripherals 0x40 0x200 0x40000 0x1000) 5 = true.
Proof.
  split; [lia|].
  split.
  - rewrite (reset_mask_spares_named_blocks 0x40 0x200 0x40000 0x1000 6) by lia.
    reflexivity.
  - reflexivity.
Defined.

Lemma flag_union_session_only_stages_witness :
  Forall (fun t : bool * conn => sha256_ret (snd t) <> 0) [(true, upload_bad)]
  /\ snd (FlagUnion.server [(true, upload_bad)] false (device0 info_idle)) <> Reset
  /\ meta (fst (FlagUnion.server [(true, upload_bad)] false (device0 info_idle)))
     = info_idle.
Proof.
  assert (Hall : Forall (fun t : bool * conn => sha256_ret (snd t) <> 0)
                   [(true, upload_bad)]) by (repeat constructor; discriminate).
  split; [exact Hall|].
  destruct (flag_union_session_only_stages [(true, upload_bad)] false (device0 info_idle))
    as (Hsha & _ & Hkeep & _).
  split; [exact (Hsha Hall) | exact (Hkeep (Hsha Hall))].
Defined.

Lemma verified_upload_without_a_page_erases_application_witness :
  layout_ok /\ statics_ok (device0 info_idle) /\ bytes_ok (flash (device0 info_idle))
  /\ Gpio.is_post (first upload_late_body) 21 /\ sha256_ret upload_late_body = 0
  /\ snd (Gpio.serve upload_late_body (device0 info_idle)) = HandOff
  /\ flash (fst (Gpio.serve upload_late_body (device0 info_idle))) (app_offs + 0) = 255.
Proof.
  assert (Hpost : Gpio.is_post (first upload_late_body) 21)
    by (repeat split; vm_compute; reflexivity).
  split; [exact pico_layout_ok|]. split; [apply device0_statics_ok|].
  split; [exact two_tone_bytes_ok|]. split; [exact Hpost|]. split; [reflexivity|].
  pose proof (verified_upload_without_a_page_erases_application upload_late_body 21
                (device0 info_idle) pico_layout_ok (device0_statics_ok info_idle)
                two_tone_bytes_ok Hpost eq_refl) as W.
  cbv zeta in W. destruct W as (Ho & _ & Hfl).
  - vm_compute. reflexivity.
  - apply forallb_bytes. vm_compute. reflexivity.
  - split; [exact Ho|].
    apply (Hfl 0). vm_compute. split; [discriminate | reflexivity].
Defined.

End ConcreteExtras.
